(** * OpenShift MCP server: the tool dispatcher and its handlers

    A shallow embedding of [src/index.js] (class [OpenShiftMCPServer]): the
    request handler that dispatches a tool call, [validateToolArguments],
    [sanitizeErrorMessage], [parseResourceValue], the handlers
    [checkClusterHealth], [checkKubeletStatus], [createDeployment] and
    [runKubeBurner], and the restart check of [detectResourceIssues]; then
    the argument parsers of the stress job ([parseDuration],
    [parseMemorySize], [getStressTestArgs]), the journal analysis
    ([parseJournalctlLogs] and its helpers), [checkNodeConditions],
    [analyzePodDisruptions] and [formatAge]; followed by the properties
    proved of them.

    Conventions of the model.
    - A JavaScript string is a [string]; each [ascii] stands for one UTF-16
      code unit below 256.
    - A number that travels in a request or in a JSON payload is a whole
      number ([Z]): on integers below 2^53 the comparisons, the products by 5
      and 10 and the decimal printing the code performs are exact in
      binary64. A JSON number with a fraction is not represented, so what is
      proved of a numeric argument is proved of its whole values.
      Quantities the code computes as fractions (health percentages, parsed
      resource values) are binary64 floats ([float]).
    - The outside world (cluster API, child processes, clock, environment) is
      a record of reply functions over the history of interactions; a handler
      is a function from a history to an outcome and an extended history.
    - An exception is an [Error] object: every [throw] of the server raises
      one, and so do the runtime, the API client and [child_process].
    - Diagnostics written with [console.error] / [console.warn] do not reach
      the protocol and are left out. *)

From Stdlib Require Import ZArith NArith List String Ascii Bool Lia.
From Stdlib Require Import DecimalString DecimalPos Floats Uint63.
From Stdlib Require Import Permutation Sorted.
Import ListNotations.
Open Scope string_scope.
Set Warnings "-register-all".

(* ================================================================== *)
(** * Strings *)

Module Str.

Definition code (c : ascii) : N := N_of_ascii c.

(** [\s] and [String.prototype.trim] white space, below code unit 256. *)
Definition is_space (c : ascii) : bool :=
  let n := code c in
  ((9 <=? n) && (n <=? 13) || (n =? 32) || (n =? 160))%N.

Definition is_digit (c : ascii) : bool :=
  let n := code c in ((48 <=? n) && (n <=? 57))%N.

(** [\w]: letters, digits and the underscore. *)
Definition is_word (c : ascii) : bool :=
  let n := code c in
  ((48 <=? n) && (n <=? 57) || (65 <=? n) && (n <=? 90)
   || (97 <=? n) && (n <=? 122) || (n =? 95))%N.

(** ASCII case folding, as a case-insensitive regular expression compares an
    ASCII pattern letter with an input code unit. *)
Definition to_lower (c : ascii) : ascii :=
  let n := code c in
  if ((65 <=? n) && (n <=? 90))%N then ascii_of_N (n + 32) else c.

(** [String.prototype.toLowerCase] on code units below 256. *)
Definition lower_char (c : ascii) : ascii :=
  let n := code c in
  if ((65 <=? n) && (n <=? 90) || (192 <=? n) && (n <=? 222) && negb (n =? 215))%N
  then ascii_of_N (n + 32) else c.

Fixpoint toLowerCase (s : string) : string :=
  match s with
  | EmptyString => EmptyString
  | String c t => String (lower_char c) (toLowerCase t)
  end.

Fixpoint startsWith (p s : string) : bool :=
  match p, s with
  | EmptyString, _ => true
  | String a p', String b s' => Ascii.eqb a b && startsWith p' s'
  | String _ _, EmptyString => false
  end.

Fixpoint includes (p s : string) : bool :=
  startsWith p s ||
  match s with EmptyString => false | String _ t => includes p t end.

Fixpoint rev_acc (s acc : string) : string :=
  match s with
  | EmptyString => acc
  | String c t => rev_acc t (String c acc)
  end.

Definition rev (s : string) : string := rev_acc s EmptyString.

Definition endsWith (p s : string) : bool := startsWith (rev p) (rev s).

Fixpoint trimStart (s : string) : string :=
  match s with
  | String c t => if is_space c then trimStart t else s
  | EmptyString => EmptyString
  end.

Definition trim (s : string) : string := rev (trimStart (rev (trimStart s))).

(** [s.split(sep)] for a one-character separator. *)
Fixpoint split_acc (sep : ascii) (cur : string) (s : string) : list string :=
  match s with
  | EmptyString => [rev cur]
  | String c t =>
      if Ascii.eqb c sep then rev cur :: split_acc sep EmptyString t
      else split_acc sep (String c cur) t
  end.

Definition split (sep : ascii) (s : string) : list string :=
  split_acc sep EmptyString s.

Definition join (sep : string) (l : list string) : string := String.concat sep l.

(** [s.substring(0, n)] / [s.slice(0, n)]. *)
Definition take (n : nat) (s : string) : string := String.substring 0 n s.

(** Decimal numeral of an integer, as [Number.prototype.toString] prints an
    integral number. *)
Definition of_Z (z : Z) : string :=
  match z with
  | Z0 => "0"
  | Zpos p => NilZero.string_of_uint (Pos.to_uint p)
  | Zneg p => "-" ++ NilZero.string_of_uint (Pos.to_uint p)
  end.

Definition nl : string := String (ascii_of_N 10) EmptyString.

End Str.

(* ================================================================== *)
(** * JavaScript values *)

Module JS.

(** The values of JSON and [undefined]. [VNum] holds a whole number. *)
Inductive value : Type :=
| VUndefined
| VNull
| VBool (b : bool)
| VNum (z : Z)
| VStr (s : string)
| VArr (items : list value)
| VObj (fields : list (string * value)).

Definition typeof (v : value) : string :=
  match v with
  | VUndefined => "undefined"
  | VNull | VArr _ | VObj _ => "object"
  | VBool _ => "boolean"
  | VNum _ => "number"
  | VStr _ => "string"
  end.

(** ToBoolean. *)
Definition truthy (v : value) : bool :=
  match v with
  | VUndefined | VNull => false
  | VBool b => b
  | VNum z => negb (z =? 0)%Z
  | VStr s => negb (s =? "")
  | VArr _ | VObj _ => true
  end.

Definition is_undefined (v : value) : bool :=
  match v with VUndefined => true | _ => false end.

Definition isArray (v : value) : bool :=
  match v with VArr _ => true | _ => false end.

Definition is_type (ty : string) (v : value) : bool := typeof v =? ty.

(** [a || b] and [a ?? b]. *)
Definition or_else (a b : value) : value := if truthy a then a else b.

Definition coalesce (a b : value) : value :=
  match a with VUndefined | VNull => b | _ => a end.

(** A destructuring or parameter default: used when the value is [undefined]. *)
Definition default_to (d v : value) : value :=
  match v with VUndefined => d | _ => v end.

Fixpoint lookup (k : string) (fields : list (string * value)) : value :=
  match fields with
  | [] => VUndefined
  | (k', v) :: rest => if k' =? k then v else lookup k rest
  end.

(** [v.k] for the property names the server reads (none of them is defined on
    a prototype, a string or an array): [None] is the TypeError of reading a
    property of [undefined] or [null]. *)
Definition get (v : value) (k : string) : option value :=
  match v with
  | VUndefined | VNull => None
  | VObj fields => Some (lookup k fields)
  | _ => Some VUndefined
  end.

(** [v?.k]. *)
Definition opt_get (v : value) (k : string) : value :=
  match get v k with Some x => x | None => VUndefined end.

(** [v === 'literal']. *)
Definition is_str (v : value) (literal : string) : bool :=
  match v with VStr s => s =? literal | _ => false end.

(** [list.includes(v)] for a list of string literals. *)
Definition in_strings (l : list string) (v : value) : bool :=
  match v with
  | VStr s => existsb (String.eqb s) l
  | _ => false
  end.

(** ToString, as a template literal applies it, where it is defined: for an
    object that has a property [toString] or [valueOf] of its own (no
    function, in a value that came as JSON) the runtime raises a TypeError
    instead, and such an object is outside what is proved with [toStr]. *)
Fixpoint toStr (v : value) : string :=
  match v with
  | VUndefined => "undefined"
  | VNull => "null"
  | VBool true => "true"
  | VBool false => "false"
  | VNum z => Str.of_Z z
  | VStr s => s
  | VArr items =>
      Str.join ","
        (map (fun x => match x with
                       | VUndefined | VNull => ""
                       | _ => toStr x
                       end) items)
  | VObj _ => "[object Object]"
  end.

(** An array index: the canonical numeral of an integer in [0, 2^32 - 2].
    Such keys come first, in ascending order, among an object's own keys. *)
Fixpoint all_digits (s : string) : bool :=
  match s with
  | EmptyString => true
  | String c t => Str.is_digit c && all_digits t
  end.

Fixpoint digits_value (acc : N) (s : string) : N :=
  match s with
  | EmptyString => acc
  | String c t => digits_value (acc * 10 + (Str.code c - 48))%N t
  end.

Definition array_index (k : string) : option N :=
  match k with
  | EmptyString => None
  | String c t =>
      if all_digits k && (negb (Ascii.eqb c "0") || (t =? "")) && (String.length k <=? 10)%nat
      then let n := digits_value 0 k in
           if (n <=? 4294967294)%N then Some n else None
      else None
  end.

(** The property [k] of an ordinary object set to [v], by [o[k] = v] for a
    name other than [__proto__] or by a spread: an existing key keeps its
    place; a new array index goes among the indices, a new name goes last. *)
Fixpoint set_field (k : string) (v : value) (fields : list (string * value))
  : list (string * value) :=
  match fields with
  | [] => [(k, v)]
  | (k', v') :: rest =>
      if k' =? k then (k, v) :: rest
      else if existsb (fun kv => fst kv =? k) rest then (k', v') :: set_field k v rest
      else match array_index k, array_index k' with
           | Some n, Some n' =>
               if (n <? n')%N then (k, v) :: fields else (k', v') :: set_field k v rest
           | Some _, None => (k, v) :: fields
           | None, _ => (k', v') :: set_field k v rest
           end
  end.

(** [o[k] = v] for a value [v] that is not an object, on an object created
    by a literal. The name [__proto__] is the accessor inherited from
    [Object.prototype], whose setter ignores such a value: that assignment
    creates no property. *)
Definition assign (k : string) (v : value) (fields : list (string * value))
  : list (string * value) :=
  if k =? "__proto__" then fields else set_field k v fields.

(** [{...a, ...b}]. *)
Definition spread (a b : list (string * value)) : list (string * value) :=
  fold_left (fun acc kv => set_field (fst kv) (snd kv) acc) b a.

End JS.

(* ================================================================== *)
(** * JSON.stringify(value, null, 2) *)

Module JSON.
Import JS.

Definition dquote : string := String (ascii_of_N 34) EmptyString.

Definition hex_digit (n : N) : ascii :=
  if (n <? 10)%N then ascii_of_N (48 + n) else ascii_of_N (87 + n).

(** QuoteJSONString on one code unit. *)
Definition escape_char (c : ascii) : string :=
  let n := Str.code c in
  if (n =? 34)%N then "\" ++ dquote
  else if (n =? 92)%N then "\\"
  else if (n =? 8)%N then "\b"
  else if (n =? 9)%N then "\t"
  else if (n =? 10)%N then "\n"
  else if (n =? 12)%N then "\f"
  else if (n =? 13)%N then "\r"
  else if (n <? 32)%N then
    "\u00" ++ String (hex_digit (n / 16)) (String (hex_digit (n mod 16)) EmptyString)
  else String c EmptyString.

Fixpoint escape (s : string) : string :=
  match s with
  | EmptyString => EmptyString
  | String c t => escape_char c ++ escape t
  end.

Definition quote (s : string) : string := dquote ++ escape s ++ dquote.

Fixpoint spaces (n : nat) : string :=
  match n with O => EmptyString | S k => String " " (spaces k) end.

(** SerializeJSONProperty with a gap of two spaces; [None] is [undefined]
    (a property holding it is dropped, an array element prints as null).
    [depth] is the nesting depth of the value being printed. *)
Fixpoint serialize (depth : nat) (v : value) : option string :=
  match v with
  | VUndefined => None
  | VNull => Some "null"
  | VBool true => Some "true"
  | VBool false => Some "false"
  | VNum z => Some (Str.of_Z z)
  | VStr s => Some (quote s)
  | VArr items =>
      let inner := spaces (2 * S depth) in
      let parts :=
        map (fun x => match serialize (S depth) x with
                      | Some t => inner ++ t
                      | None => inner ++ "null"
                      end) items in
      match parts with
      | [] => Some "[]"
      | _ => Some ("[" ++ Str.nl ++ Str.join ("," ++ Str.nl) parts
                   ++ Str.nl ++ spaces (2 * depth) ++ "]")
      end
  | VObj fields =>
      let inner := spaces (2 * S depth) in
      let parts :=
        flat_map (fun kv => match serialize (S depth) (snd kv) with
                            | Some t => [inner ++ quote (fst kv) ++ ": " ++ t]
                            | None => []
                            end) fields in
      match parts with
      | [] => Some "{}"
      | _ => Some ("{" ++ Str.nl ++ Str.join ("," ++ Str.nl) parts
                   ++ Str.nl ++ spaces (2 * depth) ++ "}")
      end
  end.

(** [`${JSON.stringify(v, null, 2)}`]. *)
Definition stringify (v : value) : string :=
  match serialize 0 v with Some t => t | None => "undefined" end.

End JSON.

(* ================================================================== *)
(** * sanitizeErrorMessage (index.js 910-916) *)

Module Sanitize.

(** The separators that end a match of [[^,\s]*]. *)
Definition is_delim (c : ascii) : bool := (Str.code c =? 44)%N || Str.is_space c.

(** The keyword [kw] (lower-case letters) stands at the head of [s], letter
    case ignored. *)
Fixpoint matches_ci (kw s : string) : bool :=
  match kw, s with
  | EmptyString, _ => true
  | String k kw', String c s' => Ascii.eqb (Str.to_lower c) k && matches_ci kw' s'
  | String _ _, EmptyString => false
  end.

(** [s.replace(/kw[^,\s]*/gi, repl)]: a left-to-right scan. [inside] holds
    while the scan is in the tail [[^,\s]*] of a match, whose code units are
    consumed; elsewhere a match starts wherever the keyword stands, and any
    other code unit is copied. The keyword's own letters are not separators,
    so the tail rule consumes them too. *)
Fixpoint replace_run (kw repl : string) (inside : bool) (s : string) : string :=
  match s with
  | EmptyString => EmptyString
  | String c t =>
      if inside && negb (is_delim c) then replace_run kw repl true t
      else if matches_ci kw s then repl ++ replace_run kw repl true t
      else String c (replace_run kw repl false t)
  end.

Definition sanitizeErrorMessage (message : string) : string :=
  replace_run "secret" "secret[REDACTED]" false
    (replace_run "password" "password[REDACTED]" false
       (replace_run "token" "token[REDACTED]" false message)).

(** [p] occurs in [s], letter case ignored. *)
Fixpoint occurs_ci (p s : string) : bool :=
  matches_ci p s ||
  match s with EmptyString => false | String _ t => occurs_ci p t end.

(** Auxiliary notions for the proofs: a word is a run without separators, and
    on a word the scan rewrites at most once. *)
Fixpoint nodelim (s : string) : bool :=
  match s with
  | EmptyString => true
  | String c t => negb (is_delim c) && nodelim t
  end.

Fixpoint replace_word (kw repl w : string) : string :=
  match w with
  | EmptyString => EmptyString
  | String c t => if matches_ci kw w then repl else String c (replace_word kw repl t)
  end.

Definition sanitizeWord (w : string) : string :=
  replace_word "secret" "secret[REDACTED]"
    (replace_word "password" "password[REDACTED]"
       (replace_word "token" "token[REDACTED]" w)).

(** [compat ks kw' repl']: the replacement [repl'] starts with the lower-case
    keyword [kw'], and [kw'] is not a proper prefix of [ks]. *)
Fixpoint compat (ks kw' repl' : string) : bool :=
  match ks with
  | EmptyString => true
  | String k ks1 =>
      match kw', repl' with
      | String k' kw1, String r repl1 =>
          Ascii.eqb r k' && Ascii.eqb (Str.to_lower k') k' &&
          (if Ascii.eqb k' k then compat ks1 kw1 repl1 else true)
      | _, _ => false
      end
  end.

Fixpoint compat_all (kw kw' repl' : string) : bool :=
  compat kw kw' repl' &&
  match kw with EmptyString => true | String _ ks => compat_all ks kw' repl' end.

Inductive Decomp : string -> Prop :=
| Decomp_word w : nodelim w = true -> Decomp w
| Decomp_cons w d s :
    nodelim w = true -> is_delim d = true -> Decomp s -> Decomp (w ++ String d s).

Definition leaks (s : string) : bool :=
  occurs_ci "token=" s || occurs_ci "password=" s || occurs_ci "secret=" s.

End Sanitize.

(* ================================================================== *)
(** * parseResourceValue (index.js 4092-4125) *)

Module Quantity.
Open Scope Z_scope.

Definition div_round_even (n d : Z) : Z :=
  let q := n / d in
  let r := n mod d in
  match 2 * r ?= d with
  | Lt => q
  | Gt => q + 1
  | Eq => if Z.even q then q else q + 1
  end.

(** The binary64 number nearest to [m * 10^e10] ([0 <= m]), ties to even:
    the value of a decimal literal. *)
Definition round_decimal (m e10 : Z) : float :=
  if m =? 0 then PrimFloat.zero
  else
    let n := if 0 <=? e10 then m * 10 ^ e10 else m in
    let d := if 0 <=? e10 then 1 else 10 ^ (- e10) in
    let k := Z.log2 n - Z.log2 d in
    let above := if 0 <=? k then d * 2 ^ k <=? n else d <=? n * 2 ^ (- k) in
    let e2 := Z.max (if above then k - 52 else k - 53) (-1074) in
    let q := if 0 <=? e2 then div_round_even n (d * 2 ^ e2)
             else div_round_even (n * 2 ^ (- e2)) d in
    match q with
    | Zpos p => SF2Prim (S754_finite false p e2)
    | _ => PrimFloat.zero
    end.

Fixpoint span_digits (s : string) : string * string :=
  match s with
  | String c t =>
      if Str.is_digit c then let (d, r) := span_digits t in (String c d, r)
      else (EmptyString, s)
  | EmptyString => (EmptyString, EmptyString)
  end.

Definition digits_Z (s : string) : Z := Z.of_N (JS.digits_value 0 s).

(** The exponent part [e], [e+] or [e-] followed by digits; without a digit
    there is no exponent part. *)
Definition exponent_part (s : string) : Z :=
  match s with
  | String c t =>
      if Ascii.eqb (Str.to_lower c) "e" then
        match t with
        | String "-" u => let (d, _) := span_digits u in
                          if (d =? "")%string then 0 else - digits_Z d
        | String "+" u => let (d, _) := span_digits u in digits_Z d
        | _ => let (d, _) := span_digits t in digits_Z d
        end
      else 0
  | EmptyString => 0
  end.

(** [parseFloat]: leading white space, a sign, then the longest prefix that is
    a decimal literal; NaN when there is none. *)
Definition parseFloat (s : string) : float :=
  let s0 := Str.trimStart s in
  let '(neg, s1) := match s0 with
                    | String "-" t => (true, t)
                    | String "+" t => (false, t)
                    | _ => (false, s0)
                    end in
  let signed := fun f : float => if neg then PrimFloat.opp f else f in
  if Str.startsWith "Infinity" s1 then signed PrimFloat.infinity
  else
    let (ip, s2) := span_digits s1 in
    let (fp, s3) := match s2 with
                    | String "." t => span_digits t
                    | _ => (EmptyString, s2)
                    end in
    if ((ip =? "") && (fp =? ""))%string then PrimFloat.nan
    else signed (round_decimal (digits_Z (ip ++ fp))
                   (exponent_part s3 - Z.of_nat (String.length fp))).

(** [/^\d+(\.\d+)?$/]. *)
Definition plain_number (s : string) : bool :=
  let (ip, rest) := span_digits s in
  negb (ip =? "")%string &&
  match rest with
  | EmptyString => true
  | String "." t => let (fp, r) := span_digits t in negb (fp =? "")%string && (r =? "")%string
  | _ => false
  end.

Definition memoryUnits : list (string * float) :=
  [ ("Ki", 1024%float); ("Mi", 1048576%float); ("Gi", 1073741824%float);
    ("Ti", 1099511627776%float); ("K", 1000%float); ("M", 1000000%float);
    ("G", 1000000000%float); ("T", 1000000000000%float) ].

Fixpoint first_unit (value : string) (units : list (string * float)) : option float :=
  match units with
  | [] => None
  | (unit, multiplier) :: rest =>
      if Str.endsWith unit value then Some multiplier else first_unit value rest
  end.

Definition parseResourceValue (value : JS.value) : float :=
  match value with
  | JS.VStr s =>
      if (s =? "")%string then PrimFloat.zero
      else
        let numValue := parseFloat s in
        if PrimFloat.is_nan numValue then PrimFloat.zero
        else if Str.endsWith "m" s then PrimFloat.div numValue 1000%float
        else if plain_number s then numValue
        else match first_unit s memoryUnits with
             | Some multiplier => PrimFloat.mul numValue multiplier
             | None => numValue
             end
  | _ => PrimFloat.zero
  end.

End Quantity.

(* ================================================================== *)
(** * Cluster objects, as the API client returns them *)

Module K8s.

Record Condition := {
  cond_type : string;
  cond_status : string;
  cond_message : option string
}.

(** [node.metadata?.name] and [node.status?.conditions]. *)
Record Node := {
  node_name : option string;
  node_conditions : option (list Condition)
}.

(** A container status; [cs_reason] is [lastState?.terminated?.reason]. *)
Record ContainerStatus := {
  cs_name : string;
  restartCount : Z;
  cs_reason : option string
}.

(** [pod_created] is the creation timestamp in milliseconds since the epoch. *)
Record Pod := {
  pod_name : option string;
  pod_namespace : option string;
  pod_phase : option string;
  pod_created : option Z;
  containerStatuses : option (list ContainerStatus)
}.

End K8s.

(* ================================================================== *)
(** * Outcomes, the world and the handler monad *)

Module Eff.
Import JS.

(** An [Error] object: its message and, for a failed child process or API
    call, the fields the handlers inspect. *)
Record Err := mkErr {
  message : string;
  err_stdout : option string;
  err_stderr : option string;
  statusCode : option Z
}.

(** [new Error(msg)] and a TypeError raised by the runtime. *)
Definition Error (msg : string) : Err := mkErr msg None None None.
Definition TypeError (msg : string) : Err := mkErr msg None None None.

Inductive Result (A : Type) : Type :=
| Ok (a : A)
| Throw (e : Err).
Arguments Ok {A} a.
Arguments Throw {A} e.

Record ExecOutput := { stdout : string; stderr : string }.

Record ContentItem := { type : string; text : string }.

(** The response of a tool call; [isError] is [None] when the object has no
    such property. *)
Record ToolResult := {
  content : list ContentItem;
  isError : option bool
}.

(** What a handler does to the outside world, in order. *)
Inductive Event : Type :=
| EvExec (command : string)
| EvSleep (ms : Z)
| EvNow
| EvNowISO
| EvListNodesAndPods
| EvReadNamespace (name : value)
| EvCreateNamespace (name : value)
| EvHandler (method : string) (args : list value).

Definition Trace := list Event.

(** The replies of the outside world, each a function of the history so far.
    - [env]: the variables of [process.env];
    - [exec_reply]: the outcome of a shell command run through
      [child_process.exec] under the options the caller gives (time-out,
      buffer size, environment), which the model does not record;
    - [clock], [clock_iso]: [Date.now()] in milliseconds and
      [new Date().toISOString()];
    - [nodes_and_pods]: the outcome of
      [Promise.all([listNode(), listPodForAllNamespaces()])], each list being
      [None] when the response or its [items] is missing;
    - [read_namespace], [create_namespace]: the two namespace calls of the
      API client;
    - [JSON_parse]: [JSON.parse] of the runtime, on the text of a command's
      output;
    - [other_handler]: the outcome of a handler this development does not
      embed, by method name and arguments. *)
Record World := {
  env : string -> option string;
  exec_reply : Trace -> string -> Result ExecOutput;
  clock : Trace -> Z;
  clock_iso : Trace -> string;
  nodes_and_pods : Trace -> Result (option (list K8s.Node) * option (list K8s.Pod));
  read_namespace : Trace -> value -> Result unit;
  create_namespace : Trace -> value -> Result unit;
  JSON_parse : string -> Result value;
  other_handler : Trace -> string -> list value -> Result ToolResult
}.

(** A computation: from the history to an outcome and the extended history. *)
Definition M (A : Type) : Type := Trace -> Result A * Trace.

Definition ret {A} (a : A) : M A := fun tr => (Ok a, tr).

Definition throw {A} (e : Err) : M A := fun tr => (Throw e, tr).

Definition bind {A B} (c : M A) (k : A -> M B) : M B :=
  fun tr => match c tr with
            | (Ok a, tr') => k a tr'
            | (Throw e, tr') => (Throw e, tr')
            end.

(** [try { c } catch (e) { h e }]. *)
Definition try_catch {A} (c : M A) (h : Err -> M A) : M A :=
  fun tr => match c tr with
            | (Ok a, tr') => (Ok a, tr')
            | (Throw e, tr') => h e tr'
            end.

Definition lift {A} (r : Result A) : M A := fun tr => (r, tr).

(** One interaction: the world replies on the history before it. *)
Definition ask {A} (ev : Event) (reply : Trace -> Result A) : M A :=
  fun tr => (reply tr, (tr ++ [ev])%list).

Declare Scope eff_scope.
Delimit Scope eff_scope with eff.
Notation "x <- c ;; k" := (bind c (fun x => k))
  (at level 61, c at next level, right associativity) : eff_scope.
Notation "' p <- c ;; k" := (bind c (fun x => let p := x in k))
  (at level 61, p pattern, c at next level, right associativity) : eff_scope.
Notation "c ;; k" := (bind c (fun _ => k))
  (at level 61, right associativity) : eff_scope.

(** [for (const x of l) { st = body x st }]. *)
Fixpoint for_each {A S} (body : A -> S -> M S) (l : list A) (st : S) : M S :=
  match l with
  | [] => ret st
  | x :: rest => bind (body x st) (for_each body rest)
  end.

Section Primitives.
Variable W : World.

(** [process.env.NAME]. *)
Definition getenv (name : string) : value :=
  match env W name with Some s => VStr s | None => VUndefined end.

(** [await exec(command, options)], promisified. *)
Definition execAsync (command : string) : M ExecOutput :=
  ask (EvExec command) (fun tr => exec_reply W tr command).

(** [Date.now()] and [new Date().toISOString()]. *)
Definition dateNow : M Z := ask EvNow (fun tr => Ok (clock W tr)).
Definition dateISO : M string := ask EvNowISO (fun tr => Ok (clock_iso W tr)).

(** [await new Promise(resolve => setTimeout(resolve, ms))]. *)
Definition sleep (ms : Z) : M unit := ask (EvSleep ms) (fun _ => Ok tt).

End Primitives.

(** [Math.round(ms / 1000)] on an integral number of milliseconds. *)
Definition round_seconds (ms : Z) : Z := ((ms + 500) / 1000)%Z.

Definition textResult (t : string) : ToolResult :=
  {| content := [ {| type := "text"; text := t |} ]; isError := None |}.

Definition errorResult (t : string) : ToolResult :=
  {| content := [ {| type := "text"; text := t |} ]; isError := Some true |}.




(** The text of the first content item. *)
Definition text_of (r : ToolResult) : string :=
  match content r with
  | item :: _ => text item
  | [] => ""
  end.


End Eff.

(* ================================================================== *)
(** * validateToolArguments (index.js 750-907) *)

Module Validate.
Import JS Eff.

(** [switch (x) { case k: ...; default: ... }] over string literals. *)
Fixpoint switch {A} (x : string) (cases : list (string * A)) (default : A) : A :=
  match cases with
  | [] => default
  | (k, a) :: rest => if k =? x then a else switch x rest default
  end.

(** A run of [if (cond) throw new Error(msg)] statements. *)
Fixpoint checks (l : list (bool * string)) : Result unit :=
  match l with
  | [] => Ok tt
  | (bad, msg) :: rest => if bad then Throw (Error msg) else checks rest
  end.

Definition defined (v : value) : bool := negb (is_undefined v).
Definition not_type (ty : string) (v : value) : bool := negb (is_type ty v).

(** [typeof v !== 'number' || v < lo || v > hi]. *)
Definition outside (lo hi : Z) (v : value) : bool :=
  match v with
  | VNum z => (z <? lo)%Z || (hi <? z)%Z
  | _ => true
  end.

Definition kubeBurnerTypes : list string :=
  ["cluster-density-v2"; "node-density"; "pvc-density"; "crd-scale"].
Definition storageTypes : list string :=
  ["sequential-read"; "sequential-write"; "random-read"; "random-write"; "mixed"].
Definition networkTypes : list string := ["throughput"; "latency"; "packet-loss"].
Definition protocols : list string := ["tcp"; "udp"].
Definition stressTypes : list string := ["cpu"; "memory"; "combined"].
Definition dbTypes : list string := ["postgresql"; "mysql"].

(** The argument object is truthy wherever [p] is used, so reading a property
    of it cannot fail. *)
Definition validateToolArguments (toolName : string) (args : value) : Result unit :=
  if negb (truthy args) then Ok tt
  else
    let p := opt_get args in
    let required_string := fun k => negb (truthy (p k)) || not_type "string" (p k) in
    switch toolName
      [ ("check_cluster_health",
         checks [ (defined (p "detailed") && not_type "boolean" (p "detailed"),
                   "detailed parameter must be boolean") ]);
        ("get_performance_metrics",
         checks [ (truthy (p "namespace") && not_type "string" (p "namespace"),
                   "namespace parameter must be string");
                  (truthy (p "timeRange") && not_type "string" (p "timeRange"),
                   "timeRange parameter must be string") ]);
        ("detect_resource_issues",
         let th := p "thresholds" in
         if truthy th then
           checks [ (not_type "object" th, "thresholds parameter must be object");
                    (defined (opt_get th "cpu") && not_type "number" (opt_get th "cpu"),
                     "cpu threshold must be number");
                    (defined (opt_get th "memory") && not_type "number" (opt_get th "memory"),
                     "memory threshold must be number");
                    (defined (opt_get th "restarts") && not_type "number" (opt_get th "restarts"),
                     "restarts threshold must be number") ]
         else Ok tt);
        ("analyze_pod_disruptions",
         checks [ (truthy (p "namespace") && not_type "string" (p "namespace"),
                   "namespace parameter must be string");
                  (defined (p "hours") && not_type "number" (p "hours"),
                   "hours parameter must be number") ]);
        ("monitor_deployments",
         checks [ (truthy (p "namespace") && not_type "string" (p "namespace"),
                   "namespace parameter must be string") ]);
        ("check_kubelet_status",
         checks [ (defined (p "hoursBack") && not_type "number" (p "hoursBack"),
                   "hoursBack parameter must be number");
                  (defined (p "includeSystemErrors")
                   && not_type "boolean" (p "includeSystemErrors"),
                   "includeSystemErrors parameter must be boolean") ]);
        ("check_crio_status",
         checks [ (defined (p "hoursBack") && not_type "number" (p "hoursBack"),
                   "hoursBack parameter must be number");
                  (defined (p "includeContainerErrors")
                   && not_type "boolean" (p "includeContainerErrors"),
                   "includeContainerErrors parameter must be boolean") ]);
        ("analyze_journalctl_pod_errors",
         checks [ (defined (p "pod") && not_type "string" (p "pod"),
                   "pod parameter must be string");
                  (defined (p "hoursBack") && not_type "number" (p "hoursBack"),
                   "hoursBack parameter must be number");
                  (defined (p "service") && not_type "string" (p "service"),
                   "service parameter must be string");
                  (defined (p "errorTypes") && negb (isArray (p "errorTypes")),
                   "errorTypes parameter must be array") ]);
        ("create_deployment",
         checks [ (required_string "name", "name parameter is required and must be string");
                  (required_string "image", "image parameter is required and must be string");
                  (truthy (p "namespace") && not_type "string" (p "namespace"),
                   "namespace parameter must be string");
                  (defined (p "replicas") && not_type "number" (p "replicas"),
                   "replicas parameter must be number") ]);
        ("deploy_database",
         checks [ (required_string "type", "type parameter is required and must be string");
                  (required_string "name", "name parameter is required and must be string") ]);
        ("create_hpa",
         checks [ (required_string "targetDeployment",
                   "targetDeployment parameter is required and must be string") ]);
        ("create_service",
         checks [ (required_string "name", "name parameter is required and must be string");
                  (negb (truthy (p "selector")) || not_type "object" (p "selector"),
                   "selector parameter is required and must be object");
                  (negb (truthy (p "ports")) || negb (isArray (p "ports")),
                   "ports parameter is required and must be array") ]);
        ("create_network_policy",
         checks [ (required_string "name", "name parameter is required and must be string");
                  (negb (truthy (p "podSelector")) || not_type "object" (p "podSelector"),
                   "podSelector parameter is required and must be object") ]);
        ("run_kube_burner",
         checks [ (truthy (p "testType") && negb (in_strings kubeBurnerTypes (p "testType")),
                   "testType must be one of: cluster-density-v2, node-density, pvc-density, crd-scale");
                  (defined (p "iterations") && outside 1 100 (p "iterations"),
                   "iterations must be number between 1 and 100") ]);
        ("run_storage_benchmark",
         checks [ (truthy (p "testType") && negb (in_strings storageTypes (p "testType")),
                   "testType must be one of: sequential-read, sequential-write, random-read, random-write, mixed") ]);
        ("run_network_test",
         checks [ (truthy (p "testType") && negb (in_strings networkTypes (p "testType")),
                   "testType must be one of: throughput, latency, packet-loss");
                  (truthy (p "protocol") && negb (in_strings protocols (p "protocol")),
                   "protocol must be tcp or udp") ]);
        ("run_cpu_stress_test",
         checks [ (truthy (p "testType") && negb (in_strings stressTypes (p "testType")),
                   "testType must be one of: cpu, memory, combined") ]);
        ("run_database_benchmark",
         checks [ (negb (truthy (p "dbType")) || negb (in_strings dbTypes (p "dbType")),
                   "dbType is required and must be postgresql or mysql") ]) ]
      (Ok tt).

(** The enumerated parameters [validateToolArguments] checks. *)
Definition enumChecks : list (string * string * list string) :=
  [ ("run_kube_burner", "testType", kubeBurnerTypes);
    ("run_storage_benchmark", "testType", storageTypes);
    ("run_network_test", "testType", networkTypes);
    ("run_network_test", "protocol", protocols);
    ("run_cpu_stress_test", "testType", stressTypes);
    ("run_database_benchmark", "dbType", dbTypes) ].

End Validate.

(* ================================================================== *)
(** * checkClusterHealth (index.js 918-1029) *)

Module Health.
Import JS Eff K8s.
Local Open Scope eff_scope.

Definition PENDING_POD_TIMEOUT : Z := 5 * 60 * 1000.
Definition DEFAULT_RESTART_THRESHOLD : Z := 5.

(** A possibly missing string inside a template literal. *)
Definition show (o : option string) : string :=
  match o with Some s => s | None => "undefined" end.

Definition conditions_of (node : Node) : list Condition :=
  match node_conditions node with Some l => l | None => [] end.

(** [conditions.find(c => c.type === 'Ready')?.status === 'True']. *)
Definition is_ready (node : Node) : bool :=
  match find (fun c => cond_type c =? "Ready") (conditions_of node) with
  | Some c => cond_status c =? "True"
  | None => false
  end.

Definition problemConditions (node : Node) : list Condition :=
  filter (fun c => negb (cond_type c =? "Ready") && (cond_status c =? "True"))
    (conditions_of node).

Definition nodeIssues (node : Node) : list string :=
  List.app
    (if is_ready node then []
     else ["Node " ++ show (node_name node) ++ " is not ready"])
    (map (fun c => "Node " ++ show (node_name node) ++ ": " ++ cond_type c
                   ++ " - " ++ show (cond_message c))
       (problemConditions node)).

(** [calculateAge] (index.js 4127-4130). *)
Definition calculateAge (W : World) (timestamp : option Z) : M Z :=
  match timestamp with
  | None => ret 0%Z
  | Some t => now <- dateNow W ;; ret (now - t)%Z
  end.

Definition statuses_of (pod : Pod) : list ContainerStatus :=
  match containerStatuses pod with Some l => l | None => [] end.

(** The check for excessive restarts, one container at a time
    (index.js 988-993). *)
Definition restartIssues (pod : Pod) : list string :=
  map (fun c => "Container " ++ cs_name c ++ " in pod " ++ show (pod_name pod)
                ++ " has " ++ Str.of_Z (restartCount c) ++ " restarts")
    (filter (fun c => (DEFAULT_RESTART_THRESHOLD <? restartCount c)%Z) (statuses_of pod)).

Definition phase_is (pod : Pod) (p : string) : bool :=
  match pod_phase pod with Some q => q =? p | None => false end.

Definition pod_label (pod : Pod) : string :=
  "Pod " ++ show (pod_name pod) ++ " in " ++ show (pod_namespace pod).

(** One turn of the pod loop: the count of healthy pods and the issues. *)
Definition checkPod (W : World) (pod : Pod) (st : nat * list string)
  : M (nat * list string) :=
  let '(healthyPods, issues) := st in
  '(healthyPods, issues) <-
    (if phase_is pod "Running" || phase_is pod "Succeeded" then
       ret (S healthyPods, issues)
     else if phase_is pod "Failed" || phase_is pod "Pending" then
       age <- calculateAge W (pod_created pod) ;;
       if phase_is pod "Pending" && (PENDING_POD_TIMEOUT <? age)%Z then
         ret (healthyPods, List.app issues [pod_label pod ++ " stuck in Pending state"])
       else if phase_is pod "Failed" then
         ret (healthyPods, List.app issues [pod_label pod ++ " in Failed state"])
       else ret (healthyPods, issues)
     else ret (healthyPods, issues)) ;;
  ret (healthyPods, List.app issues (restartIssues pod)).

Definition float_of_nat (n : nat) : float :=
  PrimFloat.of_uint63 (Uint63.of_Z (Z.of_nat n)).

(** [total > 0 ? (healthy / total) * 100 : 0]. *)
Definition percentage (healthy total : nat) : float :=
  if (0 <? total)%nat
  then PrimFloat.mul (PrimFloat.div (float_of_nat healthy) (float_of_nat total)) 100%float
  else PrimFloat.zero.

(** The overall status (index.js 998-1005). *)
Definition overallStatus (issueCount : nat) (nodeHealth podHealth : float) : string :=
  if (issueCount =? 0)%nat then "healthy"
  else if (issueCount <=? 3)%nat && PrimFloat.ltb 90%float nodeHealth
          && PrimFloat.ltb 95%float podHealth
  then "warning"
  else "critical".

Definition num (n : nat) : value := VNum (Z.of_nat n).

Definition summary (status : string) (nodes : list Node) (healthyNodes : nat)
    (pods : list Pod) (healthyPods : nat) (issues : list string) (detailed : value)
  : value :=
  VObj (List.app
          [ ("status", VStr status);
            ("totalNodes", num (List.length nodes));
            ("healthyNodes", num healthyNodes);
            ("totalPods", num (List.length pods));
            ("healthyPods", num healthyPods);
            ("issuesFound", num (List.length issues)) ]
          (if truthy detailed then [("detailedIssues", VArr (map VStr issues))] else [])).

Definition checkClusterHealth (W : World) (detailed : value) : M ToolResult :=
  try_catch
    ('(nodesResponse, podsResponse) <-
        ask EvListNodesAndPods (nodes_and_pods W) ;;
     nodes <- match nodesResponse with
              | Some l => ret l
              | None => throw (Error "Failed to retrieve nodes from cluster")
              end ;;
     pods <- match podsResponse with
             | Some l => ret l
             | None => throw (Error "Failed to retrieve pods from cluster")
             end ;;
     let healthyNodes := List.length (filter is_ready nodes) in
     let nodeIssueList := flat_map nodeIssues nodes in
     let nodeHealth := percentage healthyNodes (List.length nodes) in
     '(healthyPods, issues) <- for_each (checkPod W) pods (O, nodeIssueList) ;;
     let podHealth := percentage healthyPods (List.length pods) in
     let overall := overallStatus (List.length issues) nodeHealth podHealth in
     ret (textResult
            ("Cluster Health Report:" ++ Str.nl
             ++ JSON.stringify
                  (summary overall nodes healthyNodes pods healthyPods issues detailed))))
    (fun error => throw (Error ("Failed to check cluster health: " ++ message error))).

End Health.

(* ================================================================== *)
(** * detectResourceIssues: thresholds and the restart check
      (index.js 1175-1211) *)

Module Issues.
Import JS Eff K8s.

Definition DEFAULT_CPU_THRESHOLD : Z := 80.
Definition DEFAULT_MEMORY_THRESHOLD : Z := 85.

Definition defaultThresholds : list (string * value) :=
  [ ("cpu", VNum DEFAULT_CPU_THRESHOLD);
    ("memory", VNum DEFAULT_MEMORY_THRESHOLD);
    ("restarts", VNum Health.DEFAULT_RESTART_THRESHOLD) ].

Fixpoint indexed (i : N) (items : list value) : list (string * value) :=
  match items with
  | [] => []
  | x :: rest => (Str.of_Z (Z.of_N i), x) :: indexed (i + 1) rest
  end.

(** The own enumerable properties a spread copies. *)
Definition own_fields (v : value) : list (string * value) :=
  match v with
  | VObj fields => fields
  | VArr items => indexed 0 items
  | VStr s => indexed 0 (map (fun c => VStr (String c EmptyString)) (list_ascii_of_string s))
  | _ => []
  end.

(** [{ ...defaultThresholds, ...thresholds }], with the parameter default
    [thresholds = {}]. *)
Definition finalThresholds (thresholds : value) : list (string * value) :=
  spread defaultThresholds (own_fields (default_to (VObj []) thresholds)).

(** [containerStatuses.reduce((sum, c) => sum + c.restartCount, 0)]. *)
Definition totalRestarts (statuses : list ContainerStatus) : Z :=
  fold_left (fun sum c => (sum + restartCount c)%Z) statuses 0%Z.

(** [totalRestarts >= finalThresholds.restarts]; the threshold is a number
    wherever [validateToolArguments] has seen the arguments, and the
    comparison is read as false on any other value. *)
Definition reaches (total : Z) (threshold : value) : bool :=
  match threshold with
  | VNum z => (z <=? total)%Z
  | _ => false
  end.

Definition opt_str (o : option string) : value :=
  match o with Some s => VStr s | None => VUndefined end.

Definition restartEntry (pod : Pod) : value :=
  let statuses := Health.statuses_of pod in
  VObj [ ("name", opt_str (pod_name pod));
         ("namespace", opt_str (pod_namespace pod));
         ("restarts", VNum (totalRestarts statuses));
         ("containers",
          VArr (map (fun c => VObj [ ("name", VStr (cs_name c));
                                     ("restarts", VNum (restartCount c));
                                     ("reason", opt_str (cs_reason c)) ])
                  statuses)) ].

Definition flagged (thresholds : value) (pod : Pod) : bool :=
  reaches (totalRestarts (Health.statuses_of pod))
    (lookup "restarts" (finalThresholds thresholds)).

(** The list [issues.frequentRestartPods] after the pod loop. *)
Definition frequentRestartPods (thresholds : value) (pods : list Pod) : list value :=
  map restartEntry (filter (flagged thresholds) pods).

End Issues.

(* ================================================================== *)
(** * Shell command text shared by the handlers *)

Module Shell.
Import JS Eff.

Definition dq : string := JSON.dquote.
Definition backslash : string := "\".

(** [s.replace(/"/g, '\\"')]: a backslash before every double quote. *)
Fixpoint escape_quotes (s : string) : string :=
  match s with
  | EmptyString => EmptyString
  | String c t =>
      if (Str.code c =? 34)%N then backslash ++ String c (escape_quotes t)
      else String c (escape_quotes t)
  end.

(** [a || b || ...] over values. *)
Fixpoint first_truthy (l : list value) (last : value) : value :=
  match l with
  | [] => last
  | v :: rest => if truthy v then v else first_truthy rest last
  end.

(** A property read that raises the engine's TypeError on [undefined] and
    [null] (the wording of V8). *)
Definition read (v : value) (k : string) : Result value :=
  match get v k with
  | Some x => Ok x
  | None => Throw (TypeError ("Cannot read properties of " ++ toStr v
                              ++ " (reading '" ++ k ++ "')"))
  end.

(** [parseInt(s)]: white space, a sign, then decimal digits, or hexadecimal
    ones after [0x]; [None] is NaN. *)
Fixpoint hex_value (acc : Z) (seen : bool) (s : string) : option Z :=
  match s with
  | String c t =>
      let n := Str.code (Str.to_lower c) in
      if Str.is_digit c then hex_value (acc * 16 + Z.of_N (n - 48)) true t
      else if ((97 <=? n) && (n <=? 102))%N
      then hex_value (acc * 16 + Z.of_N (n - 87)) true t
      else if seen then Some acc else None
  | EmptyString => if seen then Some acc else None
  end.

Definition parseInt (s : string) : option Z :=
  let s0 := Str.trimStart s in
  let '(neg, s1) := match s0 with
                    | String "-" t => (true, t)
                    | String "+" t => (false, t)
                    | _ => (false, s0)
                    end in
  let magnitude :=
    match s1 with
    | String "0" (String x t) =>
        if Ascii.eqb (Str.to_lower x) "x" then hex_value 0 false t
        else Some (Quantity.digits_Z (fst (Quantity.span_digits s1)))
    | _ => let d := fst (Quantity.span_digits s1) in
           if d =? "" then None else Some (Quantity.digits_Z d)
    end in
  match magnitude with
  | Some z => Some (if neg then (- z)%Z else z)
  | None => None
  end.

End Shell.

(* ================================================================== *)
(** * checkKubeletStatus (index.js 1780-1930) *)

Module Kubelet.
Import JS Eff Shell.
Local Open Scope eff_scope.

Record Access := {
  kubeconfigPath : value;
  needsRemoteAccess : bool;
  sshHost : value;
  sshKey : value;
  sshUser : value
}.

Definition access (W : World) : Access :=
  {| kubeconfigPath :=
       first_truthy [getenv W "MCP_REMOTE_KUBECONFIG"; getenv W "KUBECONFIG"]
         (VStr "/root/.kube/config");
     needsRemoteAccess :=
       truthy (getenv W "MCP_BASTION_HOST")
       && negb (toStr (getenv W "MCP_BASTION_HOST") =? "localhost")
       && negb (truthy (getenv W "RUNNING_ON_BASTION"));
     sshHost := getenv W "MCP_BASTION_HOST";
     sshKey := first_truthy [getenv W "MCP_SSH_KEY"] (VStr "/home/nchhabra/.ssh/id_rsa");
     sshUser := first_truthy [getenv W "MCP_BASTION_USER"] (VStr "root") |}.

Definition ssh_prefix (a : Access) : string :=
  "ssh -i " ++ toStr (sshKey a)
  ++ " -o StrictHostKeyChecking=no -o UserKnownHostsFile=/dev/null -o LogLevel=ERROR "
  ++ toStr (sshUser a) ++ "@" ++ toStr (sshHost a) ++ " ".

Definition workdir (a : Access) : string :=
  "cd /opt/openshift-mcp-server && KUBECONFIG=" ++ toStr (kubeconfigPath a).

Definition getNodesCmd (a : Access) : string :=
  if needsRemoteAccess a
  then ssh_prefix a ++ dq ++ workdir a ++ " kubectl get nodes -o json" ++ dq
  else workdir a ++ " kubectl get nodes -o json".

(** The command that runs [inner] in a debug pod on the node. *)
Definition debugCommand (a : Access) (nodeName : value) (inner : string) : string :=
  let debug := workdir a ++ " timeout 90s oc debug node/" ++ toStr nodeName
               ++ " -- chroot /host bash -c " in
  if needsRemoteAccess a
  then ssh_prefix a ++ dq ++ debug ++ backslash ++ dq ++ escape_quotes inner
       ++ backslash ++ dq ++ dq
  else debug ++ dq ++ inner ++ dq.

Definition statusCommand : string :=
  "systemctl is-active kubelet.service 2>/dev/null || echo " ++ dq ++ "inactive" ++ dq.

Definition logsCommand (hoursBack : value) : string :=
  "journalctl -u kubelet.service --since=" ++ dq ++ "-" ++ toStr hoursBack ++ "h" ++ dq
  ++ " --lines=50 --no-pager".

Definition systemCommand (hoursBack : value) : string :=
  "journalctl --since=" ++ dq ++ "-" ++ toStr hoursBack ++ "h" ++ dq
  ++ " --lines=20 --no-pager | grep -i 'systemd\|kernel\|oom'".

(** [stdout.split('\n').filter(line => line.trim())]. *)
Definition nonblank_lines (out : string) : list string :=
  filter (fun line => negb (Str.trim line =? "")) (Str.split (ascii_of_N 10) out).

Fixpoint span (p : ascii -> bool) (s : string) : string * string :=
  match s with
  | String c t => if p c then let (m, r) := span p t in (String c m, r)
                  else (EmptyString, s)
  | EmptyString => (EmptyString, EmptyString)
  end.

(** One or more code units of a class, then a literal separator. *)
Definition run_then (p : ascii -> bool) (sep : ascii) (s : string)
  : option (string * string) :=
  let (m, r) := span p s in
  match m, r with
  | String _ _, String c r' =>
      if Ascii.eqb c sep then Some (m ++ String c EmptyString, r') else None
  | _, _ => None
  end.

(** The prefix matched by [/^\w+ \d+ \d+:\d+:\d+/], if any. *)
Definition timestamp_prefix (line : string) : option string :=
  match run_then Str.is_word " " line with
  | Some (m1, r1) =>
      match run_then Str.is_digit " " r1 with
      | Some (m2, r2) =>
          match run_then Str.is_digit ":" r2 with
          | Some (m3, r3) =>
              match run_then Str.is_digit ":" r3 with
              | Some (m4, r4) =>
                  match span Str.is_digit r4 with
                  | (String c m5, _) => Some (m1 ++ m2 ++ m3 ++ m4 ++ String c m5)
                  | _ => None
                  end
              | None => None
              end
          | None => None
          end
      | None => None
      end
  | None => None
  end.

Definition mentions (word line : string) : bool :=
  Str.includes word (Str.toLowerCase line).

Definition is_issue (line : string) : bool :=
  mentions "error" line || mentions "failed" line || mentions "warn" line.

Definition logEntry (nodeName : value) (line : string) : value :=
  VObj [ ("node", nodeName);
         ("timestamp", VStr (match timestamp_prefix line with
                             | Some t => t
                             | None => "unknown"
                             end));
         ("level", VStr (if mentions "error" line || mentions "failed" line
                         then "error" else "warning"));
         ("message", VStr line) ].

(** The three accumulators of the node loop. *)
Record Findings := {
  allKubeletStatus : list (string * value);
  allKubeletLogs : list value;
  allSystemErrors : list value
}.

Definition noFindings : Findings :=
  {| allKubeletStatus := []; allKubeletLogs := []; allSystemErrors := [] |}.

Definition set_status (nodeName : value) (s : string) (f : Findings) : Findings :=
  {| allKubeletStatus := assign (toStr nodeName) (VStr s) (allKubeletStatus f);
     allKubeletLogs := allKubeletLogs f;
     allSystemErrors := allSystemErrors f |}.

Definition push_logs (entries : list value) (f : Findings) : Findings :=
  {| allKubeletStatus := allKubeletStatus f;
     allKubeletLogs := List.app (allKubeletLogs f) entries;
     allSystemErrors := allSystemErrors f |}.

Definition push_system (entries : list value) (f : Findings) : Findings :=
  {| allKubeletStatus := allKubeletStatus f;
     allKubeletLogs := allKubeletLogs f;
     allSystemErrors := List.app (allSystemErrors f) entries |}.

Section Loop.
Variable W : World.
Variable a : Access.
Variables hoursBack includeSystemErrors : value.

(** The body of the [try] for one node. The findings are threaded through
    the failure too: what the body assigned before it failed stays assigned
    when the [catch] runs. *)
Definition probeNode (nodeName : value) (f : Findings) : Trace -> (Result Findings * Findings) * Trace :=
  fun tr =>
    match execAsync W (debugCommand a nodeName statusCommand) tr with
    | (Throw e, tr1) => ((Throw e, f), tr1)
    | (Ok statusResult, tr1) =>
        let f1 := set_status nodeName (Str.trim (stdout statusResult)) f in
        match execAsync W (debugCommand a nodeName (logsCommand hoursBack)) tr1 with
        | (Throw e, tr2) => ((Throw e, f1), tr2)
        | (Ok logsResult, tr2) =>
            let logLines := nonblank_lines (stdout logsResult) in
            let f2 := push_logs (map (logEntry nodeName) (filter is_issue logLines)) f1 in
            if truthy includeSystemErrors then
              match execAsync W (debugCommand a nodeName (systemCommand hoursBack)) tr2 with
              | (Ok systemResult, tr3) =>
                  let systemLines := nonblank_lines (stdout systemResult) in
                  ((Ok (push_system
                          (map (fun line => VObj [("node", nodeName); ("message", VStr line)])
                             systemLines) f2), f2), tr3)
              | (Throw _, tr3) => ((Ok f2, f2), tr3)
              end
            else ((Ok f2, f2), tr2)
        end
    end.

(** One turn of the loop: the [try] and its [catch (nodeError)]. *)
Definition checkNode (nodeName : value) (f : Findings) : M Findings :=
  fun tr =>
    match probeNode nodeName f tr with
    | ((Ok f', _), tr') => (Ok f', tr')
    | ((Throw nodeError, f'), tr') =>
        (timestamp <- dateISO W ;;
         ret (push_logs
                [ VObj [ ("node", nodeName);
                         ("timestamp", VStr timestamp);
                         ("level", VStr "error");
                         ("message",
                          VStr ("Cannot access kubelet service on node " ++ toStr nodeName
                                ++ ": " ++ message nodeError)) ] ]
                (set_status nodeName "inaccessible" f'))) tr'
    end.

(** [const nodeName = node.metadata.name], then the turn for that node. *)
Definition visitNode (node : value) (f : Findings) : M Findings :=
  metadata <- lift (read node "metadata") ;;
  nodeName <- lift (read metadata "name") ;;
  checkNode nodeName f.

End Loop.

(** [node.metadata.name]. *)
Definition name_of (node : value) : Result value :=
  match read node "metadata" with
  | Ok metadata => read metadata "name"
  | Throw e => Throw e
  end.

Definition named (node : value) : Prop := exists n, name_of node = Ok n.

(** The node carries a name as the cluster gives one: a string, and not the
    name of the prototype accessor. *)
Definition labelled (node : value) : Prop :=
  exists n : string, name_of node = Ok (VStr n) /\ n <> "__proto__".

Definition status_of (f : Findings) (key : string) : value :=
  lookup key (allKubeletStatus f).

(** The entry the [catch] of the loop records for a node. *)
Definition inaccessibleEntry (n : value) (timestamp : string) (e : Err) : value :=
  VObj [ ("node", n); ("timestamp", VStr timestamp); ("level", VStr "error");
         ("message", VStr ("Cannot access kubelet service on node " ++ toStr n
                           ++ ": " ++ message e)) ].

Section Probes.
Variable W : World.
Variable a : Access.
Variable hoursBack : value.

(** The world fails the status probe of the node [n] whenever it is asked. *)
Definition status_fails (n : value) : Prop :=
  forall h, exists e, exec_reply W h (debugCommand a n statusCommand) = Throw e.

(** The world fails the log query of the node [n] whenever it is asked. *)
Definition logs_fail (n : value) : Prop :=
  forall h, exists e, exec_reply W h (debugCommand a n (logsCommand hoursBack)) = Throw e.

(** The world answers both for the node [n], the status probe with output
    that trims to [s]. *)
Definition answers (n : value) (s : string) : Prop :=
  (forall h, exists out,
      exec_reply W h (debugCommand a n statusCommand) = Ok out /\ Str.trim (stdout out) = s)
  /\ (forall h, exists out,
         exec_reply W h (debugCommand a n (logsCommand hoursBack)) = Ok out).

End Probes.

(** [nodes.items.length === 0]. *)
Definition has_no_length (items : value) : bool :=
  match items with
  | VArr [] => true
  | VObj fields => match lookup "length" fields with VNum 0 => true | _ => false end
  | _ => false
  end.

(** The values [for (const node of items)] visits; a string yields its code
    units, and a value that is not iterable is a TypeError. *)
Definition iterate (items : value) : Result (list value) :=
  match items with
  | VArr l => Ok l
  | VStr s => Ok (map (fun c => VStr (String c EmptyString)) (list_ascii_of_string s))
  | _ => Throw (TypeError "nodes.items is not iterable")
  end.

Definition items_length (items : value) : value :=
  match items with
  | VArr l => VNum (Z.of_nat (List.length l))
  | VStr s => VNum (Z.of_nat (String.length s))
  | VObj fields => lookup "length" fields
  | _ => VUndefined
  end.

Definition report (items : value) (includeSystemErrors : value) (f : Findings) : value :=
  VObj [ ("nodesChecked", items_length items);
         ("status", VObj (allKubeletStatus f));
         ("logsAnalyzed", VNum (Z.of_nat (List.length (allKubeletLogs f))));
         ("systemErrors",
          if truthy includeSystemErrors
          then VNum (Z.of_nat (List.length (allSystemErrors f)))
          else VStr "not_requested");
         ("recentIssues", VArr (firstn 10 (allKubeletLogs f)));
         ("systemIssues",
          if truthy includeSystemErrors then VArr (firstn 5 (allSystemErrors f))
          else VArr []) ].

(** The parameters carry their defaults: [hoursBack = 24],
    [includeSystemErrors = false]. *)
Definition checkKubeletStatus (W : World) (hoursBack includeSystemErrors : value)
  : M ToolResult :=
  let hoursBack := default_to (VNum 24) hoursBack in
  let includeSystemErrors := default_to (VBool false) includeSystemErrors in
  try_catch
    (let a := access W in
     nodesResult <- execAsync W (getNodesCmd a) ;;
     nodes <- lift (JSON_parse W (stdout nodesResult)) ;;
     items <- lift (read nodes "items") ;;
     (if negb (truthy items) || has_no_length items
      then throw (Error "No nodes found in cluster") else ret tt) ;;
     nodeList <- lift (iterate items) ;;
     f <- for_each (visitNode W a hoursBack includeSystemErrors) nodeList noFindings ;;
     ret (textResult
            ("Kubelet Status Report:" ++ Str.nl
             ++ JSON.stringify (report items includeSystemErrors f))))
    (fun error => throw (Error ("Failed to check kubelet status: " ++ message error))).

End Kubelet.

(* ================================================================== *)
(** * createDeployment (index.js 2090-2245) *)

Module Deployment.
Import JS Eff Shell.
Local Open Scope eff_scope.

Definition lines (l : list string) : string := Str.join Str.nl l.

(** [ports.map(f)]: TypeErrors as V8 words them. *)
Definition map_ports {A} (ports : value) (f : value -> Result A) : Result (list A) :=
  match ports with
  | VArr l =>
      fold_right (fun p acc =>
                    match f p, acc with
                    | Throw e, _ => Throw e
                    | Ok _, Throw e => Throw e
                    | Ok x, Ok xs => Ok (x :: xs)
                    end) (Ok []) l
  | VUndefined | VNull =>
      Throw (TypeError ("Cannot read properties of " ++ toStr ports ++ " (reading 'map')"))
  | _ => Throw (TypeError "ports.map is not a function")
  end.

Definition portLines (port : value) : Result string :=
  match read port "containerPort", read port "protocol" with
  | Ok containerPort, Ok protocol =>
      Ok ("        - containerPort: " ++ toStr containerPort ++ Str.nl
          ++ "          protocol: " ++ toStr (or_else protocol (VStr "TCP")))
  | Throw e, _ => Throw e
  | _, Throw e => Throw e
  end.

Definition deploymentYaml (name namespace image replicas : value)
    (portText : list string) (resources : value) : string :=
  lines
    [ "apiVersion: apps/v1";
      "kind: Deployment";
      "metadata:";
      "  name: " ++ toStr name;
      "  namespace: " ++ toStr namespace;
      "  labels:";
      "    app: " ++ toStr name;
      "    managed-by: openshift-mcp-server";
      "spec:";
      "  replicas: " ++ toStr replicas;
      "  selector:";
      "    matchLabels:";
      "      app: " ++ toStr name;
      "  template:";
      "    metadata:";
      "      labels:";
      "        app: " ++ toStr name;
      "    spec:";
      "      containers:";
      "      - name: " ++ toStr name;
      "        image: " ++ toStr image;
      "        ports:";
      Str.join Str.nl portText;
      "        resources:";
      "          requests:";
      "            cpu: " ++ dq
        ++ toStr (first_truthy [opt_get resources "cpuRequest"] (VStr "100m")) ++ dq;
      "            memory: " ++ dq
        ++ toStr (first_truthy [opt_get resources "memoryRequest"] (VStr "128Mi")) ++ dq;
      "          limits:";
      "            cpu: " ++ dq
        ++ toStr (first_truthy [opt_get resources "cpuLimit"; opt_get resources "cpuRequest"]
                    (VStr "100m")) ++ dq;
      "            memory: " ++ dq
        ++ toStr (first_truthy [opt_get resources "memoryLimit";
                                opt_get resources "memoryRequest"] (VStr "128Mi")) ++ dq;
      "" ].

Definition kubectlCmd (W : World) (yaml : string) : string :=
  if truthy (first_truthy [getenv W "MCP_REMOTE_KUBECONFIG"] (getenv W "MCP_BASTION_HOST"))
  then
    let sshHost := first_truthy [getenv W "MCP_BASTION_HOST"] (VStr "localhost") in
    let sshKey := first_truthy [getenv W "MCP_SSH_KEY"] (VStr "~/.ssh/id_rsa") in
    let sshUser := first_truthy [getenv W "MCP_BASTION_USER"] (VStr "root") in
    let kubeconfig :=
      first_truthy [getenv W "MCP_REMOTE_KUBECONFIG"] (VStr "/root/.kube/config") in
    "ssh -i " ++ toStr sshKey ++ " -o StrictHostKeyChecking=no " ++ toStr sshUser ++ "@"
    ++ toStr sshHost ++ " " ++ dq ++ "echo '" ++ yaml ++ "' | KUBECONFIG="
    ++ toStr kubeconfig ++ " kubectl apply -f -" ++ dq
  else "echo '" ++ yaml ++ "' | kubectl apply -f -".

(** [const { name, namespace, image, replicas = 1, resources = {}, ports = [] } = args]. *)
Definition destructure (args : value) (first : string) : Result value :=
  match args with
  | VUndefined | VNull =>
      Throw (TypeError ("Cannot destructure property '" ++ first ++ "' of 'args' as it is "
                        ++ toStr args ++ "."))
  | _ => Ok args
  end.

(** The namespace is read and, on a 404 only, created; any other failure of
    the read is ignored, a failure of the creation is not. *)
Definition ensureNamespace (W : World) (namespace : value) : M unit :=
  try_catch
    (ask (EvReadNamespace namespace) (fun tr => read_namespace W tr namespace))
    (fun error =>
       match statusCode error with
       | Some 404%Z =>
           ask (EvCreateNamespace namespace) (fun tr => create_namespace W tr namespace)
       | _ => ret tt
       end).

Definition createDeployment (W : World) (args : value) : M ToolResult :=
  try_catch
    (args <- lift (destructure args "name") ;;
     let name := opt_get args "name" in
     let inputNamespace := opt_get args "namespace" in
     let image := opt_get args "image" in
     let replicas := default_to (VNum 1) (opt_get args "replicas") in
     let resources := default_to (VObj []) (opt_get args "resources") in
     let ports := default_to (VArr []) (opt_get args "ports") in
     let namespace := or_else inputNamespace (VStr "default") in
     (* the deployment object literal: ports.map(...), then resources.* *)
     _ <- lift (map_ports ports (fun p => read p "containerPort")) ;;
     _ <- lift (read resources "cpuRequest") ;;
     ensureNamespace W namespace ;;
     portText <- lift (map_ports ports portLines) ;;
     let yaml := deploymentYaml name namespace image replicas portText resources in
     _ <- execAsync W (kubectlCmd W yaml) ;;
     ret (textResult
            ("Deployment " ++ dq ++ toStr name ++ dq ++ " created successfully in namespace "
             ++ dq ++ toStr namespace ++ dq ++ ":" ++ Str.nl
             ++ JSON.stringify
                  (VObj [ ("name", name); ("namespace", namespace);
                          ("replicas", replicas); ("image", image);
                          ("status", VStr "Created") ]))))
    (fun error => throw (Error ("Failed to create deployment: " ++ message error))).

End Deployment.

(* ================================================================== *)
(** * runKubeBurner (index.js 2935-3140) *)

Module KubeBurner.
Import JS Eff Shell.
Local Open Scope eff_scope.

Definition operations : list string := ["create"; "cleanup"; "both"].

Definition podManifest (podName app namespace : string) (i : Z) : string :=
  Deployment.lines
    [ "apiVersion: v1";
      "kind: Pod";
      "metadata:";
      "  name: " ++ podName ++ "-" ++ Str.of_Z i;
      "  namespace: " ++ namespace;
      "  labels:";
      "    app: " ++ app;
      "    test-iteration: " ++ dq ++ Str.of_Z i ++ dq;
      "spec:";
      "  containers:";
      "  - name: pause";
      "    image: registry.k8s.io/pause:3.8";
      "    resources:";
      "      requests:";
      "        memory: " ++ dq ++ "10Mi" ++ dq;
      "        cpu: " ++ dq ++ "1m" ++ dq;
      "      limits:";
      "        memory: " ++ dq ++ "20Mi" ++ dq;
      "        cpu: " ++ dq ++ "10m" ++ dq;
      "  restartPolicy: Never" ].

Definition applyCommand (manifest kubeconfigPath : string) : string :=
  "echo '" ++ manifest ++ "' | kubectl apply -f - --kubeconfig " ++ kubeconfigPath.

Definition deleteCommand (namespace kubeconfigPath : string) : string :=
  "kubectl delete namespace " ++ namespace
  ++ " --wait=true --timeout=300s --kubeconfig " ++ kubeconfigPath.

(** [iterations * k]; the product of anything but a number is taken as NaN
    ([None]), and [validateToolArguments] lets only numbers through. *)
Definition times (iterations : value) (k : Z) : option Z :=
  match iterations with
  | VNum z => Some (z * k)%Z
  | _ => None
  end.

(** [1, 2, ..., podCount]: the values of [i] in
    [for (let i = 1; i <= podCount; i++)]. *)
Definition indices (podCount : option Z) : list Z :=
  match podCount with
  | Some n => map Z.of_nat (seq 1 (Z.to_nat n))
  | None => []
  end.

Definition count_value (podCount : option Z) : value :=
  match podCount with Some n => VNum n | None => VNull end.

Definition seconds (ms : Z) : string := Str.of_Z (round_seconds ms) ++ "s".

Definition includes_opt (needle : string) (o : option string) : bool :=
  match o with Some s => Str.includes needle s | None => false end.

Section Phases.
Variable W : World.
Variables testType iterations namespace cleanup operation : value.
Variable kubeconfigPath : string.

Definition ns : string := toStr namespace.

(** The cleanup phase: the results object and, for [operation === 'cleanup'],
    the response returned from inside the [try]. *)
Definition cleanupPhase (results : list (string * value))
  : M (list (string * value) * option ToolResult) :=
  try_catch
    (_ <- execAsync W ("kubectl get namespace " ++ ns ++ " --kubeconfig " ++ kubeconfigPath) ;;
     podCountResult <-
       execAsync W ("kubectl get pods -n " ++ ns ++ " --no-headers --kubeconfig "
                    ++ kubeconfigPath ++ " | wc -l") ;;
     let podCount :=
       match parseInt (Str.trim (stdout podCountResult)) with
       | Some z => z
       | None => 0%Z
       end in
     cleanupStart <- dateNow W ;;
     _ <- execAsync W (deleteCommand ns kubeconfigPath) ;;
     cleanupEnd <- dateNow W ;;
     let results :=
       set_field "cleanup"
         (VObj [ ("podsDeleted", VNum podCount);
                 ("duration", VStr (seconds (cleanupEnd - cleanupStart)));
                 ("status", VStr "Completed") ]) results in
     if is_str operation "cleanup" then
       let results := set_field "status" (VStr "Completed") results in
       ret (results,
            Some (textResult ("Kube-burner cleanup completed:" ++ Str.nl
                              ++ JSON.stringify (VObj results))))
     else ret (results, None))
    (fun error =>
       if includes_opt "NotFound" (err_stdout error)
          || includes_opt "not found" (err_stderr error)
       then ret (set_field "cleanup"
                   (VObj [("status", VStr "Namespace not found - already clean")]) results,
                 None)
       else throw (Error ("Cleanup failed: " ++ message error))).

Definition applyPods (podName app : string) (podCount : option Z) : M unit :=
  for_each
    (fun i _ =>
       _ <- execAsync W (applyCommand (podManifest podName app ns i) kubeconfigPath) ;;
       ret tt)
    (indices podCount) tt.

(** The creation phase. *)
Definition createPhase (results : list (string * value)) : M (list (string * value)) :=
  try_catch
    (_ <- execAsync W ("kubectl create namespace " ++ ns ++ " --kubeconfig "
                       ++ kubeconfigPath) ;;
     ret tt)
    (fun _ => ret tt) ;;
  createStart <- dateNow W ;;
  let density := is_str testType "node-density" in
  let podCount := times iterations (if density then 10 else 5) in
  (if density then applyPods "density-test-pod" "node-density-test" podCount
   else applyPods "test-pod" (toStr testType ++ "-test") podCount) ;;
  sleep 15000%Z ;;
  createEnd <- dateNow W ;;
  let results :=
    set_field "creation"
      (VObj [ ("podsCreated", count_value podCount);
              ("testType", if density then VStr "node-density" else testType);
              ("duration", VStr (seconds (createEnd - createStart)));
              ("status", VStr "Completed") ]) results in
  if truthy cleanup && is_str operation "create" then
    sleep 5000%Z ;;
    try_catch
      (_ <- execAsync W (deleteCommand ns kubeconfigPath) ;;
       ret (set_field "cleanup" (VObj [("status", VStr "Automatic cleanup completed")])
              results))
      (fun error =>
         ret (set_field "cleanup"
                (VObj [("status", VStr ("Cleanup failed: " ++ message error))]) results))
  else ret results.

End Phases.

(** What the creation phase does when every command succeeds and no automatic
    cleanup follows. *)
Definition createEvents (testType iterations namespace : value) (kubeconfigPath : string)
  : list Event :=
  let density := is_str testType "node-density" in
  List.app
    [ EvExec ("kubectl create namespace " ++ toStr namespace ++ " --kubeconfig "
              ++ kubeconfigPath);
      EvNow ]
    (List.app
       (map (fun i =>
               EvExec (applyCommand
                         (podManifest (if density then "density-test-pod" else "test-pod")
                            (if density then "node-density-test"
                             else toStr testType ++ "-test") (toStr namespace) i)
                         kubeconfigPath))
          (indices (times iterations (if density then 10 else 5)%Z)))
       [EvSleep 15000; EvNow]).

Definition kubeconfig (W : World) : string :=
  toStr (first_truthy [getenv W "MCP_REMOTE_KUBECONFIG"] (getenv W "KUBECONFIG")).

Definition runKubeBurner (W : World) (args : value) : M ToolResult :=
  try_catch
    (args <- lift (Deployment.destructure args "testType") ;;
     let testType := default_to (VStr "cluster-density-v2") (opt_get args "testType") in
     let iterations := default_to (VNum 5) (opt_get args "iterations") in
     let namespace := default_to (VStr "kube-burner-test") (opt_get args "namespace") in
     let timeout := default_to (VStr "10m") (opt_get args "timeout") in
     let cleanup := default_to (VBool true) (opt_get args "cleanup") in
     let operation := default_to (VStr "create") (opt_get args "operation") in
     let kubeconfigPath := kubeconfig W in
     (if in_strings operations operation then ret tt
      else throw (Error "operation must be one of: create, cleanup, both")) ;;
     let results :=
       [ ("testType", testType); ("iterations", iterations); ("namespace", namespace);
         ("timeout", timeout); ("operation", operation); ("status", VStr "Started") ] in
     '(results, returned) <-
        (if in_strings ["cleanup"; "both"] operation
         then cleanupPhase W namespace operation kubeconfigPath results
         else ret (results, None)) ;;
     match returned with
     | Some response => ret response
     | None =>
         results <-
           (if in_strings ["create"; "both"] operation
            then createPhase W testType iterations namespace cleanup operation
                   kubeconfigPath results
            else ret results) ;;
         let results := set_field "status" (VStr "Completed") results in
         ret (textResult
                ("Kube-burner " ++ toStr operation ++ " operation completed:" ++ Str.nl
                 ++ JSON.stringify (VObj results)))
     end)
    (fun error => throw (Error ("Failed to run kube-burner operation: " ++ message error))).

End KubeBurner.

(* ================================================================== *)
(** * The dispatcher (index.js 665-746) *)

Module Dispatch.
Import JS Eff Validate.
Local Open Scope eff_scope.

Record ToolRequest := { name : string; arguments : value }.

(** The methods the dispatcher calls, one per tool. *)
Record Handlers := {
  checkClusterHealth : value -> M ToolResult;
  getPerformanceMetrics : value -> value -> M ToolResult;
  detectResourceIssues : value -> M ToolResult;
  analyzePodDisruptions : value -> value -> M ToolResult;
  checkNodeConditions : M ToolResult;
  monitorDeployments : value -> M ToolResult;
  checkKubeletStatus : value -> value -> M ToolResult;
  checkCrioStatus : value -> value -> M ToolResult;
  analyzeJournalctlPodErrors : value -> value -> value -> value -> M ToolResult;
  createDeployment : value -> M ToolResult;
  deployDatabase : value -> M ToolResult;
  createHPA : value -> M ToolResult;
  createService : value -> M ToolResult;
  createNetworkPolicy : value -> M ToolResult;
  runKubeBurner : value -> M ToolResult;
  runStorageBenchmark : value -> M ToolResult;
  runNetworkTest : value -> M ToolResult;
  runCpuStressTest : value -> M ToolResult;
  runDatabaseBenchmark : value -> M ToolResult
}.

(** [x !== false]. *)
Definition not_false (v : value) : value :=
  match v with VBool false => VBool false | _ => VBool true end.

Definition defaultErrorTypes : value := VArr [VStr "error"; VStr "fail"; VStr "warn"].

(** The [switch (name)] of the request handler. *)
Definition route (H : Handlers) (name : string) (args : value) : M ToolResult :=
  let a := opt_get args in
  switch name
    [ ("check_cluster_health", checkClusterHealth H (or_else (a "detailed") (VBool false)));
      ("get_performance_metrics", getPerformanceMetrics H (a "namespace") (a "timeRange"));
      ("detect_resource_issues", detectResourceIssues H (a "thresholds"));
      ("analyze_pod_disruptions", analyzePodDisruptions H (a "namespace") (a "hours"));
      ("check_node_conditions", checkNodeConditions H);
      ("monitor_deployments", monitorDeployments H (a "namespace"));
      ("check_kubelet_status",
       checkKubeletStatus H (coalesce (a "hoursBack") (VNum 24))
         (or_else (a "includeSystemErrors") (VBool false)));
      ("check_crio_status",
       checkCrioStatus H (coalesce (a "hoursBack") (VNum 24))
         (not_false (a "includeContainerErrors")));
      ("analyze_journalctl_pod_errors",
       analyzeJournalctlPodErrors H (a "pod") (or_else (a "hoursBack") (VNum 24))
         (a "service") (or_else (a "errorTypes") defaultErrorTypes));
      ("create_deployment", createDeployment H args);
      ("deploy_database", deployDatabase H args);
      ("create_hpa", createHPA H args);
      ("create_service", createService H args);
      ("create_network_policy", createNetworkPolicy H args);
      ("run_kube_burner", runKubeBurner H args);
      ("run_storage_benchmark", runStorageBenchmark H args);
      ("run_network_test", runNetworkTest H args);
      ("run_cpu_stress_test", runCpuStressTest H args);
      ("run_database_benchmark", runDatabaseBenchmark H args) ]
    (throw (Error ("Unknown tool: " ++ name))).

(** The response built in the [catch] of the request handler. *)
Definition failure (name : string) (error : Err) : ToolResult :=
  errorResult ("Error executing " ++ name ++ ": " ++ (message error ++ " [DEBUG: Raw error]")).

(** The body of the [try]: validation, then the routed handler. *)
Definition attempt (H : Handlers) (request : ToolRequest) : M ToolResult :=
  lift (validateToolArguments (name request) (arguments request)) ;;
  route H (name request) (arguments request).

Definition dispatch (H : Handlers) (request : ToolRequest) : M ToolResult :=
  try_catch (attempt H request)
    (fun error => ret (failure (name request) error)).

(** The names of the registered tools (the cases of the [switch]). *)
Definition toolNames : list string :=
  [ "check_cluster_health"; "get_performance_metrics"; "detect_resource_issues";
    "analyze_pod_disruptions"; "check_node_conditions"; "monitor_deployments";
    "check_kubelet_status"; "check_crio_status"; "analyze_journalctl_pod_errors";
    "create_deployment"; "deploy_database"; "create_hpa"; "create_service";
    "create_network_policy"; "run_kube_burner"; "run_storage_benchmark";
    "run_network_test"; "run_cpu_stress_test"; "run_database_benchmark" ].

Definition registered (name : string) : bool := existsb (String.eqb name) toolNames.

(** A handler that is not embedded: the world answers for it. *)
Definition external (W : World) (method : string) (args : list value) : M ToolResult :=
  ask (EvHandler method args) (fun tr => other_handler W tr method args).

(** The methods of the server: four are embedded, the others are external. *)
Definition server (W : World) : Handlers :=
  {| checkClusterHealth := Health.checkClusterHealth W;
     getPerformanceMetrics := fun ns range => external W "getPerformanceMetrics" [ns; range];
     detectResourceIssues := fun th => external W "detectResourceIssues" [th];
     analyzePodDisruptions := fun ns h => external W "analyzePodDisruptions" [ns; h];
     checkNodeConditions := external W "checkNodeConditions" [];
     monitorDeployments := fun ns => external W "monitorDeployments" [ns];
     checkKubeletStatus := Kubelet.checkKubeletStatus W;
     checkCrioStatus := fun h c => external W "checkCrioStatus" [h; c];
     analyzeJournalctlPodErrors :=
       fun pod h service types =>
         external W "analyzeJournalctlPodErrors" [pod; h; service; types];
     createDeployment := Deployment.createDeployment W;
     deployDatabase := fun args => external W "deployDatabase" [args];
     createHPA := fun args => external W "createHPA" [args];
     createService := fun args => external W "createService" [args];
     createNetworkPolicy := fun args => external W "createNetworkPolicy" [args];
     runKubeBurner := KubeBurner.runKubeBurner W;
     runStorageBenchmark := fun args => external W "runStorageBenchmark" [args];
     runNetworkTest := fun args => external W "runNetworkTest" [args];
     runCpuStressTest := fun args => external W "runCpuStressTest" [args];
     runDatabaseBenchmark := fun args => external W "runDatabaseBenchmark" [args] |}.

(** What the specification asks of the error path: the message goes through
    [sanitizeErrorMessage] before it is put in the response. *)
Definition sanitized_failure (name : string) (error : Err) : ToolResult :=
  errorResult ("Error executing " ++ name ++ ": "
               ++ Sanitize.sanitizeErrorMessage (message error)).

End Dispatch.

(* ================================================================== *)
(** * Concrete worlds and requests *)

Module Scenario.
Import JS Eff K8s Dispatch.

Definition readyNode (name : string) : Node :=
  {| node_name := Some name;
     node_conditions :=
       Some [ {| cond_type := "Ready"; cond_status := "True"; cond_message := None |} ] |}.

Definition nodeObject (name : string) : value :=
  VObj [("metadata", VObj [("name", VStr name)])].

Definition silent : ExecOutput := {| stdout := ""; stderr := "" |}.

(** The text [s] between double quotes. *)
Definition quoted (s : string) : string := JSON.dquote ++ s ++ JSON.dquote.

(** A cluster of one ready node and no pod, where every command succeeds with
    no output. *)
Definition calm : World :=
  {| env := fun _ => None;
     exec_reply := fun _ _ => Ok silent;
     clock := fun tr => (1000 * Z.of_nat (List.length tr))%Z;
     clock_iso := fun _ => "2024-01-01T00:00:00.000Z";
     nodes_and_pods := fun _ => Ok (Some [readyNode "node-1"], Some []);
     read_namespace := fun _ _ => Ok tt;
     create_namespace := fun _ _ => Ok tt;
     JSON_parse := fun _ => Throw (Error "Unexpected end of JSON input");
     other_handler := fun _ _ _ => Ok (textResult "done") |}.

(** The API server refuses the listing, and its message quotes a credential. *)
Definition refusing : World :=
  {| env := env calm;
     exec_reply := exec_reply calm;
     clock := clock calm;
     clock_iso := clock_iso calm;
     nodes_and_pods :=
       fun _ => Throw (Error "request to https://api.example:6443/api/v1/nodes?token=abc123 failed");
     read_namespace := read_namespace calm;
     create_namespace := create_namespace calm;
     JSON_parse := JSON_parse calm;
     other_handler := other_handler calm |}.

(** [JSON.parse] as far as a scenario consults it: on the text [kubectl]
    prints for the object [listed], which is that object printed as JSON, and
    on the empty output of the other commands, which is no JSON text. *)
Definition parses (listed : value) (text : string) : Result value :=
  if text =? JSON.stringify listed then Ok listed
  else Throw (Error "Unexpected end of JSON input").

Definition threeListed : value :=
  VObj [("items", VArr [nodeObject "node-1"; nodeObject "node-2"; nodeObject "node-3"])].

(** Three nodes, which [kubectl get nodes] lists; the debug pod of [node-2]
    cannot be started, the kubelet of the others is active and has logged
    nothing. *)
Definition threeNodes : World :=
  {| env := env calm;
     exec_reply :=
       fun _ command =>
         if Str.endsWith "kubectl get nodes -o json" command
         then Ok {| stdout := JSON.stringify threeListed; stderr := "" |}
         else if Str.includes "oc debug node/node-2 " command
         then Throw (Error "Command failed: unable to create the debug pod")
         else if Str.includes "systemctl is-active" command
         then Ok {| stdout := "active" ++ Str.nl; stderr := "" |}
         else Ok silent;
     clock := clock calm;
     clock_iso := clock_iso calm;
     nodes_and_pods := nodes_and_pods calm;
     read_namespace := read_namespace calm;
     create_namespace := create_namespace calm;
     JSON_parse := parses threeListed;
     other_handler := other_handler calm |}.

Definition healthRequest : ToolRequest :=
  {| name := "check_cluster_health"; arguments := VObj [] |}.



End Scenario.

(* ================================================================== *)
(** * The arguments of the stress job (index.js 3882-3932) *)

Module Stress.
Import JS Eff.

(** A number the code computes from a parsed numeral: [None] is NaN. *)
Definition show_number (n : option Z) : string :=
  match n with Some z => Str.of_Z z | None => "NaN" end.

(** The receiver of [x.match(...)]: a string, or the TypeError of calling
    [match] on anything else (the wording of V8). *)
Definition match_receiver (param : string) (x : value) : Result string :=
  match x with
  | VStr s => Ok s
  | VUndefined | VNull =>
      Throw (TypeError ("Cannot read properties of " ++ toStr x ++ " (reading 'match')"))
  | _ => Throw (TypeError (param ++ ".match is not a function"))
  end.

(** [s.match(/^(\d+)(unit)$/)]: one or more digits, then a suffix of the
    class [unit] up to the end of the string; the two groups. *)
Definition digits_then (unit : string -> bool) (s : string) : option (string * string) :=
  let (digits, rest) := Quantity.span_digits s in
  if negb (digits =? "") && unit rest then Some (digits, rest) else None.

(** Auxiliary notion for the proofs: no digit stands at the head of [r]. *)
Definition stops (r : string) : Prop :=
  match r with String c _ => Str.is_digit c = false | EmptyString => True end.

(** [[sm]]. *)
Definition durationUnit (u : string) : bool := (u =? "s") || (u =? "m").

(** [[KMGT]?] under the flag [i]. *)
Definition sizeUnit (u : string) : bool :=
  match u with
  | EmptyString => true
  | String c EmptyString =>
      existsb (Ascii.eqb (Str.to_lower c)) ["k"; "m"; "g"; "t"]%char
  | _ => false
  end.

(** [parseDuration] (index.js 3906-3914). *)
Definition parseDuration (duration : value) : Result (option Z) :=
  match match_receiver "duration" duration with
  | Throw e => Throw e
  | Ok s =>
      match digits_then durationUnit s with
      | None => Ok (Some 120%Z)
      | Some (digits, unit) =>
          let value := Shell.parseInt digits in
          Ok (if unit =? "m" then option_map (fun v => (v * 60)%Z) value else value)
      end
  end.

(** [String.prototype.toUpperCase] on the letters a unit can be. *)
Definition upper_char (c : ascii) : ascii :=
  let n := Str.code c in
  if ((97 <=? n) && (n <=? 122))%N then ascii_of_N (n - 32) else c.

Fixpoint toUpperCase (s : string) : string :=
  match s with
  | EmptyString => EmptyString
  | String c t => String (upper_char c) (toUpperCase t)
  end.

Definition multipliers : list (string * Z) :=
  [ ("", 1); ("K", 1024); ("M", 1024 * 1024); ("G", 1024 * 1024 * 1024);
    ("T", 1024 * 1024 * 1024 * 1024) ]%Z.

(** [multipliers[unit] || 1]. *)
Definition multiplier (unit : string) : Z :=
  match find (fun kv => fst kv =? unit) multipliers with
  | Some (_, m) => if (m =? 0)%Z then 1%Z else m
  | None => 1%Z
  end.

(** [parseMemorySize] (index.js 3916-3932). *)
Definition parseMemorySize (size : value) : Result (option Z) :=
  match match_receiver "size" size with
  | Throw e => Throw e
  | Ok s =>
      match digits_then sizeUnit s with
      | None => Ok (Some (1024 * 1024 * 1024)%Z)
      | Some (digits, unit) =>
          Ok (option_map (fun v => (v * multiplier (toUpperCase unit))%Z)
                (Shell.parseInt digits))
      end
  end.

(** [x.toString()]. *)
Definition toString (x : value) : Result string :=
  match x with
  | VUndefined | VNull =>
      Throw (TypeError ("Cannot read properties of " ++ toStr x ++ " (reading 'toString')"))
  | VObj fields =>
      match lookup "toString" fields with
      | VUndefined => Ok (toStr x)
      | _ => Throw (TypeError "cpuCores.toString is not a function")
      end
  | _ => Ok (toStr x)
  end.

(** [getStressTestArgs] (index.js 3882-3904). *)
Definition getStressTestArgs (testType duration cpuCores memorySize : value)
  : Result (list string) :=
  match parseDuration duration with
  | Throw e => Throw e
  | Ok durationSeconds =>
      match parseMemorySize memorySize with
      | Throw e => Throw e
      | Ok memoryBytes =>
          let args := ["--timeout"; show_number durationSeconds ++ "s"] in
          let vm := ["--vm"; "1"; "--vm-bytes"; show_number memoryBytes ++ "b"] in
          if is_str testType "cpu" then
            match toString cpuCores with
            | Ok cores => Ok (List.app args ["--cpu"; cores])
            | Throw e => Throw e
            end
          else if is_str testType "memory" then Ok (List.app args vm)
          else if is_str testType "combined" then
            match toString cpuCores with
            | Ok cores => Ok (List.app args (List.app ["--cpu"; cores] vm))
            | Throw e => Throw e
            end
          else Ok args
      end
  end.

End Stress.

(* ================================================================== *)
(** * The journal analysis: parseJournalctlLogs and its helpers
      (index.js 1579-1778) *)

Module Journal.
Import JS Eff.

(** [s.indexOf(p)]. *)
Fixpoint indexOf_from (p s : string) (i : Z) : Z :=
  if Str.startsWith p s then i
  else match s with
       | EmptyString => (-1)%Z
       | String _ t => indexOf_from p t (i + 1)%Z
       end.

Definition indexOf (p s : string) : Z := indexOf_from p s 0%Z.

Fixpoint skip (n : nat) (s : string) : string :=
  match n, s with
  | S k, String _ t => skip k t
  | _, _ => s
  end.

(** [s.substring(start)]. *)
Definition substring_from (start : Z) (s : string) : string := skip (Z.to_nat start) s.

(** [o || d] for a parameter that is a string or undefined. *)
Definition or_string (o : option string) (d : string) : string :=
  match o with
  | Some s => if s =? "" then d else s
  | None => d
  end.

(** [Array.prototype.sort(compare)]: the sort is stable, a negative or zero
    result of [compare x y] leaves [x] before [y]. *)
Fixpoint insert {A} (compare : A -> A -> Z) (x : A) (l : list A) : list A :=
  match l with
  | [] => [x]
  | y :: rest => if (compare x y <=? 0)%Z then x :: l else y :: insert compare x rest
  end.

Definition sort {A} (compare : A -> A -> Z) (l : list A) : list A :=
  fold_right (insert compare) [] l.

(** The prefix matched by [/^(\w{3}\s+\d{1,2}\s+\d{2}:\d{2}:\d{2})/]. *)
Definition spaces_then (s : string) : option (string * string) :=
  match Kubelet.span Str.is_space s with
  | (String c m, r) => Some (String c m, r)
  | _ => None
  end.

Definition two_digits (sep : option ascii) (s : string) : option (string * string) :=
  match s with
  | String a (String b r) =>
      if Str.is_digit a && Str.is_digit b then
        match sep, r with
        | None, _ => Some (String a (String b EmptyString), r)
        | Some c, String d r' =>
            if Ascii.eqb c d then Some (String a (String b (String d EmptyString)), r')
            else None
        | Some _, EmptyString => None
        end
      else None
  | _ => None
  end.

Definition day_of_month (s : string) : option (string * string) :=
  match s with
  | String a r =>
      if Str.is_digit a then
        match r with
        | String b r' =>
            if Str.is_digit b then Some (String a (String b EmptyString), r')
            else Some (String a EmptyString, r)
        | EmptyString => Some (String a EmptyString, r)
        end
      else None
  | EmptyString => None
  end.

Definition timestampOf (line : string) : option string :=
  match line with
  | String a (String b (String c r0)) =>
      if Str.is_word a && Str.is_word b && Str.is_word c then
        match spaces_then r0 with
        | Some (s1, r1) =>
            match day_of_month r1 with
            | Some (day, r2) =>
                match spaces_then r2 with
                | Some (s2, r3) =>
                    match two_digits (Some ":"%char) r3 with
                    | Some (hh, r4) =>
                        match two_digits (Some ":"%char) r4 with
                        | Some (mm, r5) =>
                            match two_digits None r5 with
                            | Some (ss, _) =>
                                Some (String a (String b (String c EmptyString))
                                      ++ s1 ++ day ++ s2 ++ hh ++ mm ++ ss)
                            | None => None
                            end
                        | None => None
                        end
                    | None => None
                    end
                | None => None
                end
            | None => None
            end
        | None => None
        end
      else None
  | _ => None
  end.

(** The pod name a line mentions: the word [pod] in any letter case, a run
    of slashes and white space, an optional double quote, then the captured
    run of code units that are neither a double quote nor white space. The
    expression is searched from the left, and the run of slashes and white
    space is tried longest first. *)
Definition is_quote (c : ascii) : bool := (Str.code c =? 34)%N.
Definition is_sep (c : ascii) : bool := (Str.code c =? 47)%N || Str.is_space c.
Definition is_name (c : ascii) : bool := negb (is_quote c) && negb (Str.is_space c).

Definition name_at (s : string) : option string :=
  match Kubelet.span is_name s with
  | (String c m, _) => Some (String c m)
  | _ => None
  end.

Definition quoted_name_at (s : string) : option string :=
  match s with
  | String c t =>
      if is_quote c then match name_at t with Some m => Some m | None => name_at s end
      else name_at s
  | EmptyString => None
  end.

Fixpoint after_pod (s : string) : option string :=
  match s with
  | String c t =>
      if is_sep c then
        match after_pod t with
        | Some m => Some m
        | None => quoted_name_at t
        end
      else None
  | EmptyString => None
  end.

Definition pod_at (s : string) : option string :=
  if Sanitize.matches_ci "pod" s then after_pod (skip 3 s) else None.

Fixpoint podMatch (s : string) : option string :=
  match pod_at s with
  | Some m => Some m
  | None => match s with
            | EmptyString => None
            | String _ t => podMatch t
            end
  end.

(** [getErrorSeverity] (index.js 1680-1704). *)
Definition criticalPatterns : list string :=
  [ "OutOfDisk"; "MemoryPressure"; "DiskPressure"; "resource_pressure";
    "failed to start"; "panic"; "fatal"; "oom"; "killed" ].

Definition warningPatterns : list string :=
  [ "container_cleanup"; "container_deletion"; "cadvisor_watch";
    "container_not_found"; "DeleteContainer"; "ContainerStatus" ].

Definition hits (category message pattern : string) : bool :=
  Str.includes pattern category
  || Str.includes (Str.toLowerCase pattern) (Str.toLowerCase message).

Definition getErrorSeverity (category message : string) : string :=
  if existsb (hits category message) criticalPatterns then "critical"
  else if existsb (hits category message) warningPatterns then "warning"
  else "info".

Record ErrorEntry := {
  timestamp : string;
  errorType : string;
  service : string;
  pod : value;
  category : string;
  message : string;
  severity : string
}.

Definition entryValue (e : ErrorEntry) : value :=
  VObj [ ("timestamp", VStr (timestamp e)); ("errorType", VStr (errorType e));
         ("service", VStr (service e)); ("pod", pod e); ("category", VStr (category e));
         ("message", VStr (message e)); ("severity", VStr (severity e)) ].

(** The first of [errorTypes] the line mentions; an element that is not a
    string has no [toLowerCase] (the wording of V8). *)
Fixpoint firstType (line : string) (errorTypes : list value) : Result string :=
  match errorTypes with
  | [] => Ok "unknown"
  | VStr type :: rest =>
      if Str.includes (Str.toLowerCase type) (Str.toLowerCase line) then Ok type
      else firstType line rest
  | (VUndefined | VNull) as type :: _ =>
      Throw (TypeError ("Cannot read properties of " ++ toStr type
                        ++ " (reading 'toLowerCase')"))
  | _ :: _ => Throw (TypeError "type.toLowerCase is not a function")
  end.

Definition serviceOf (service : option string) (line : string) : string :=
  if Str.includes "systemd" line then "systemd"
  else if Str.includes "crio" line then "crio"
  else if Str.includes "kubelet" line then "kubelet"
  else or_string service "unknown".

Definition categoryOf (line : string) : string :=
  if Str.includes "ContainerStatus from runtime service failed" line then "container_cleanup"
  else if Str.includes "DeleteContainer returned error" line then "container_deletion"
  else if Str.includes "Failed to process watch event" line then "cadvisor_watch"
  else if Str.includes "container with ID" line && Str.includes "not found" line
  then "container_not_found"
  else if Str.includes "OutOfDisk" line || Str.includes "MemoryPressure" line
          || Str.includes "DiskPressure" line
  then "resource_pressure"
  else "general".

Definition is_noise (line : string) : bool :=
  Str.includes "Starting pod/" line || Str.includes "Removing debug pod" line.

(** The body of the loop for a line that is not skipped. *)
Definition entryOf (pod service : option string) (errorTypes : list value) (line : string)
  : Result ErrorEntry :=
  match firstType line errorTypes with
  | Throw e => Throw e
  | Ok errorType =>
      let serviceName := serviceOf service line in
      let podName :=
        match podMatch line with
        | Some m => VStr m
        | None => match pod with
                  | Some p => if p =? "" then VNull else VStr p
                  | None => VNull
                  end
        end in
      let category := categoryOf line in
      let rest :=
        Str.trim (substring_from
                    (indexOf serviceName line + Z.of_nat (String.length serviceName))%Z line) in
      Ok {| timestamp := match timestampOf line with Some t => t | None => "unknown" end;
            errorType := errorType;
            service := serviceName;
            pod := podName;
            category := category;
            message := if rest =? "" then line else rest;
            severity := getErrorSeverity category line |}
  end.

(** [errorCounts[key] = (errorCounts[key] || 0) + 1]. *)
Fixpoint count (key : string) (counts : list (string * Z)) : list (string * Z) :=
  match counts with
  | [] => [(key, 1%Z)]
  | (k, n) :: rest => if k =? key then (k, (n + 1)%Z) :: rest else (k, n) :: count key rest
  end.

(** The loop over the lines: the entries in order and the counts. *)
Fixpoint collect (pod service : option string) (errorTypes : list value)
    (lines : list string) (errors : list ErrorEntry) (counts : list (string * Z))
  : Result (list ErrorEntry * list (string * Z)) :=
  match lines with
  | [] => Ok (errors, counts)
  | line :: rest =>
      if is_noise line then collect pod service errorTypes rest errors counts
      else
        match entryOf pod service errorTypes line with
        | Throw e => Throw e
        | Ok entry =>
            collect pod service errorTypes rest (List.app errors [entry])
              (count (category entry ++ "_" ++ errorType entry) counts)
        end
  end.

Definition severityOrder (s : string) : option Z :=
  if s =? "critical" then Some 3%Z
  else if s =? "warning" then Some 2%Z
  else if s =? "info" then Some 1%Z
  else None.

Section Ordering.
(** [String.prototype.localeCompare] of the runtime. *)
Variable localeCompare : string -> string -> Z.

(** The comparison function of the sort; a result of NaN counts as zero. *)
Definition bySeverity (a b : ErrorEntry) : Z :=
  if negb (severity a =? severity b) then
    match severityOrder (severity b), severityOrder (severity a) with
    | Some x, Some y => (x - y)%Z
    | _, _ => 0%Z
    end
  else localeCompare (timestamp b) (timestamp a).

End Ordering.

(** Auxiliary notions for the statements: the sum of the counts, and the
    rank of an entry in the order of severities. *)
Fixpoint total (counts : list (string * Z)) : Z :=
  match counts with
  | [] => 0%Z
  | (_, n) :: rest => (n + total rest)%Z
  end.

Definition rank (e : ErrorEntry) : Z :=
  match severityOrder (severity e) with Some z => z | None => 0%Z end.

Definition countOf (s : string) (errors : list ErrorEntry) : Z :=
  Z.of_nat (List.length (filter (fun e => severity e =? s) errors)).

(** [generateErrorSummary] (index.js 1706-1719). *)
Definition generateErrorSummary (errors : list ErrorEntry) (errorCounts : list (string * Z))
  : string :=
  match errors with
  | [] => "No errors found"
  | _ =>
      let topCategory :=
        match sort (fun a b => (snd b - snd a)%Z) errorCounts with
        | (k, _) :: _ => if k =? "" then "unknown" else k
        | [] => "unknown"
        end in
      "Found " ++ Str.of_Z (Z.of_nat (List.length errors)) ++ " errors: "
      ++ Str.of_Z (countOf "critical" errors) ++ " critical, "
      ++ Str.of_Z (countOf "warning" errors) ++ " warnings, "
      ++ Str.of_Z (countOf "info" errors) ++ " info. Most common: " ++ topCategory
  end.

Record Patterns := {
  containerCleanupRaceConditions : Z;
  resourcePressureIssues : Z;
  podStartupFailures : Z;
  networkIssues : Z;
  storageIssues : Z
}.

Definition noPatterns : Patterns :=
  {| containerCleanupRaceConditions := 0; resourcePressureIssues := 0;
     podStartupFailures := 0; networkIssues := 0; storageIssues := 0 |}.

(** One turn of the loop of [analyzeErrorPatterns]. *)
Definition tally (p : Patterns) (error : ErrorEntry) : Patterns :=
  if (category error =? "container_cleanup") || (category error =? "container_deletion") then
    {| containerCleanupRaceConditions := containerCleanupRaceConditions p + 1;
       resourcePressureIssues := resourcePressureIssues p;
       podStartupFailures := podStartupFailures p;
       networkIssues := networkIssues p;
       storageIssues := storageIssues p |}
  else if category error =? "resource_pressure" then
    {| containerCleanupRaceConditions := containerCleanupRaceConditions p;
       resourcePressureIssues := resourcePressureIssues p + 1;
       podStartupFailures := podStartupFailures p;
       networkIssues := networkIssues p;
       storageIssues := storageIssues p |}
  else if Str.includes "failed to start" (message error)
          || Str.includes "startup" (message error) then
    {| containerCleanupRaceConditions := containerCleanupRaceConditions p;
       resourcePressureIssues := resourcePressureIssues p;
       podStartupFailures := podStartupFailures p + 1;
       networkIssues := networkIssues p;
       storageIssues := storageIssues p |}
  else if Str.includes "network" (message error) || Str.includes "dns" (message error) then
    {| containerCleanupRaceConditions := containerCleanupRaceConditions p;
       resourcePressureIssues := resourcePressureIssues p;
       podStartupFailures := podStartupFailures p;
       networkIssues := networkIssues p + 1;
       storageIssues := storageIssues p |}
  else if Str.includes "disk" (message error) || Str.includes "volume" (message error) then
    {| containerCleanupRaceConditions := containerCleanupRaceConditions p;
       resourcePressureIssues := resourcePressureIssues p;
       podStartupFailures := podStartupFailures p;
       networkIssues := networkIssues p;
       storageIssues := storageIssues p + 1 |}
  else p.

(** [generateRecommendations] (index.js 1750-1778). *)
Definition generateRecommendations (p : Patterns) : list string :=
  let recommendations :=
    List.app
      (if (10 <? containerCleanupRaceConditions p)%Z
       then ["High number of container cleanup race conditions detected. This is typically normal but monitor for performance impact."]
       else [])
      (List.app
         (if (0 <? resourcePressureIssues p)%Z
          then ["Resource pressure detected. Consider reviewing node resource allocation and pod resource requests/limits."]
          else [])
         (List.app
            (if (5 <? podStartupFailures p)%Z
             then ["Multiple pod startup failures detected. Check pod specifications and resource availability."]
             else [])
            (List.app
               (if (0 <? networkIssues p)%Z
                then ["Network-related errors detected. Review network configuration and connectivity."]
                else [])
               (if (0 <? storageIssues p)%Z
                then ["Storage-related errors detected. Check persistent volume claims and storage capacity."]
                else [])))) in
  match recommendations with
  | [] => ["No significant issues detected. System appears to be operating normally."]
  | _ => recommendations
  end.

Definition patternsValue (p : Patterns) : value :=
  VObj [ ("containerCleanupRaceConditions", VNum (containerCleanupRaceConditions p));
         ("resourcePressureIssues", VNum (resourcePressureIssues p));
         ("podStartupFailures", VNum (podStartupFailures p));
         ("networkIssues", VNum (networkIssues p));
         ("storageIssues", VNum (storageIssues p)) ].

(** [analyzeErrorPatterns] (index.js 1721-1748). *)
Definition analyzeErrorPatterns (errors : list ErrorEntry) : value :=
  let patterns := fold_left tally errors noPatterns in
  VObj [ ("patterns", patternsValue patterns);
         ("recommendations", VArr (map VStr (generateRecommendations patterns))) ].

(** [parseJournalctlLogs] (index.js 1579-1678). The parameters [pod] and
    [service] are strings or undefined, as [validateToolArguments] leaves
    them. *)
Definition parseJournalctlLogs (localeCompare : string -> string -> Z) (logOutput : string)
    (pod service : option string) (errorTypes : list value) (hoursBack : value)
  : Result value :=
  let hoursBack := default_to (VNum 24) hoursBack in
  let lines := Kubelet.nonblank_lines logOutput in
  match lines with
  | [] =>
      Ok (VObj [ ("summary", VStr "No errors found in the specified time range");
                 ("totalErrors", VNum 0);
                 ("pod", VStr (or_string pod "all"));
                 ("service", VStr (or_string service "all"));
                 ("timeRange", VStr "last 24 hours");
                 ("errors", VArr []) ])
  | _ =>
      match collect pod service errorTypes lines [] [] with
      | Throw e => Throw e
      | Ok (errors, errorCounts) =>
          let errors := sort (bySeverity localeCompare) errors in
          Ok (VObj [ ("summary", VStr (generateErrorSummary errors errorCounts));
                     ("totalErrors", VNum (Z.of_nat (List.length errors)));
                     ("pod", VStr (or_string pod "all"));
                     ("service", VStr (or_string service "all"));
                     ("timeRange",
                      VStr ("last " ++ toStr (or_else hoursBack (VNum 24)) ++ " hours"));
                     ("errorCounts", VObj (map (fun kv => (fst kv, VNum (snd kv))) errorCounts));
                     ("errors", VArr (map entryValue (firstn 20 errors)));
                     ("analysis", analyzeErrorPatterns errors) ])
      end
  end.

End Journal.

(* ================================================================== *)
(** * checkNodeConditions and getConditionSeverity
      (index.js 1330-1393, 4144-4151) *)

Module NodeConditions.
Import JS Eff K8s.

(** [getConditionSeverity]. *)
Definition getConditionSeverity (conditionType : string) : string :=
  if existsb (String.eqb conditionType) ["OutOfDisk"; "MemoryPressure"; "DiskPressure"]
  then "critical"
  else if existsb (String.eqb conditionType) ["PIDPressure"; "NetworkUnavailable"]
  then "warning"
  else "info".

(** A condition of a node with its [reason]. *)
Record NodeCondition := {
  condition : Condition;
  reason : option string
}.

(** What the handler reads of a node: [metadata?.name], [status?.conditions],
    [spec?.taints], [status?.allocatable] and [status?.capacity]. *)
Record NodeDetail := {
  detail_name : option string;
  detail_conditions : option (list NodeCondition);
  taints : option (list value);
  allocatable : value;
  capacity : value
}.

Definition conditionsOf (node : NodeDetail) : list NodeCondition :=
  match detail_conditions node with Some l => l | None => [] end.

Definition taintsOf (node : NodeDetail) : list value :=
  match taints node with Some l => l | None => [] end.

Definition conditionEntry (c : NodeCondition) (severity : string) : value :=
  VObj [ ("type", VStr (cond_type (condition c)));
         ("status", VStr (cond_status (condition c)));
         ("reason", Issues.opt_str (reason c));
         ("message", Issues.opt_str (cond_message (condition c)));
         ("severity", VStr severity) ].

(** The body of the loop over the conditions. *)
Definition flag (c : NodeCondition) : list value :=
  let type := cond_type (condition c) in
  let status := cond_status (condition c) in
  if (type =? "Ready") && negb (status =? "True") then [conditionEntry c "critical"]
  else if negb (type =? "Ready") && (status =? "True")
  then [conditionEntry c (getConditionSeverity type)]
  else [].

Definition flagged (node : NodeDetail) : list value := flat_map flag (conditionsOf node).

Definition nodeInfo (node : NodeDetail) : value :=
  VObj [ ("name", Issues.opt_str (detail_name node));
         ("conditions", VArr (flagged node));
         ("taints", VArr (taintsOf node));
         ("allocatable", allocatable node);
         ("capacity", capacity node) ].

Definition has_issues (node : NodeDetail) : bool :=
  (0 <? List.length (flagged node))%nat || (0 <? List.length (taintsOf node))%nat.

(** The handler, as a function of the outcome of its one request,
    [listNode()]; the list is [None] when the response or its [items] is
    missing. *)
Definition checkNodeConditions (listNode : Result (option (list NodeDetail)))
  : Result ToolResult :=
  let attempt :=
    match listNode with
    | Throw e => Throw e
    | Ok None => Throw (Error "Failed to retrieve nodes from cluster")
    | Ok (Some nodes) =>
        let nodeIssues := map nodeInfo (filter has_issues nodes) in
        Ok (textResult
              ("Node Conditions Report:" ++ Str.nl
               ++ JSON.stringify
                    (VObj [ ("totalNodes", VNum (Z.of_nat (List.length nodes)));
                            ("nodesWithIssues", VNum (Z.of_nat (List.length nodeIssues)));
                            ("details", VArr nodeIssues) ])))
    end in
  match attempt with
  | Ok r => Ok r
  | Throw error => Throw (Error ("Failed to check node conditions: " ++ message error))
  end.

(** The node as [checkClusterHealth] reads it. *)
Definition asNode (node : NodeDetail) : Node :=
  {| node_name := detail_name node;
     node_conditions := option_map (map condition) (detail_conditions node) |}.

End NodeConditions.

(* ================================================================== *)
(** * formatAge (index.js 4132-4142) *)

Module Ages.
Import JS Eff.
Local Open Scope eff_scope.

Definition DAY : Z := 24 * 60 * 60 * 1000.
Definition HOUR : Z := 60 * 60 * 1000.
Definition MINUTE : Z := 60 * 1000.

(** The text for an age in milliseconds: [Math.floor] is the floor of the
    quotient, [%] the remainder with the sign of the dividend. *)
Definition ageText (age : Z) : string :=
  let days := (age / DAY)%Z in
  let hours := (Z.rem age DAY / HOUR)%Z in
  let minutes := (Z.rem age HOUR / MINUTE)%Z in
  if (0 <? days)%Z then Str.of_Z days ++ "d" ++ Str.of_Z hours ++ "h"
  else if (0 <? hours)%Z then Str.of_Z hours ++ "h" ++ Str.of_Z minutes ++ "m"
  else Str.of_Z minutes ++ "m".

Definition formatAge (W : World) (timestamp : option Z) : M string :=
  match timestamp with
  | None => ret "unknown"
  | Some _ => age <- Health.calculateAge W timestamp ;; ret (ageText age)
  end.

End Ages.

(* ================================================================== *)
(** * analyzePodDisruptions and extractContainerName
      (index.js 1258-1328, 4153-4156) *)

Module Disruptions.
Import JS Eff.

(** A line terminator, which [.] does not match. *)
Definition is_line_end (c : ascii) : bool := (Str.code c =? 10)%N || (Str.code c =? 13)%N.

(** The group of [/Started container (.+)/] when the expression matches at
    the head of [s]. *)
Definition container_at (s : string) : option string :=
  if Str.startsWith "Started container " s then
    match Kubelet.span (fun c => negb (is_line_end c)) (Journal.skip 18 s) with
    | (String c m, _) => Some (String c m)
    | _ => None
    end
  else None.

Fixpoint containerMatch (s : string) : option string :=
  match container_at s with
  | Some m => Some m
  | None => match s with
            | EmptyString => None
            | String _ t => containerMatch t
            end
  end.

(** [extractContainerName]. *)
Definition extractContainerName (message : string) : string :=
  match containerMatch message with Some m => m | None => "unknown" end.

(** A time stamp as the API client hands it over: a [Date] object, with its
    time value in milliseconds since the epoch ([None] when the date is
    invalid), [null], or [undefined]. *)
Inductive Stamp : Type :=
| Date (time : option Z)
| NullStamp
| NoStamp.

(** An event as the handler reads it. *)
Record EventObject := {
  firstTimestamp : Stamp;
  eventTime : Stamp;
  reason : option string;
  event_message : option string;
  involved_name : option string;
  involved_namespace : option string
}.

(** The object [disruptions]. *)
Record Tally := {
  recentRestarts : list value;
  evictions : list value;
  oomKills : list value;
  totalRestarts : Z;
  totalEvictions : Z;
  totalOOMKills : Z
}.

Definition noDisruptions : Tally :=
  {| recentRestarts := []; evictions := []; oomKills := [];
     totalRestarts := 0; totalEvictions := 0; totalOOMKills := 0 |}.

(** The time value of [new Date(v)]: [None] is an invalid date. *)
Definition timeClip (v : Z) : option Z :=
  if (Z.abs v <=? 8640000000000000)%Z then Some v else None.

(** [a < b] on two dates. *)
Definition earlier (a b : option Z) : bool :=
  match a, b with
  | Some x, Some y => (x <? y)%Z
  | _, _ => false
  end.

Definition reason_is (event : EventObject) (r : string) : bool :=
  match reason event with Some x => x =? r | None => false end.

Section Analysis.
(** [Date.prototype.toISOString] of the runtime on a valid date. *)
Variable toISOString : Z -> string.

(** [eventTime.toISOString()]. *)
Definition isoTime (eventTime : option Z) : Result string :=
  match eventTime with
  | Some t => Ok (toISOString t)
  | None => Throw (Error "Invalid time value")
  end.

Definition evictionStep (event : EventObject) (time : option Z) (d : Tally) : Result Tally :=
  if reason_is event "Killing" || reason_is event "Evicted" then
    match isoTime time with
    | Throw e => Throw e
    | Ok iso =>
        Ok {| recentRestarts := recentRestarts d;
              evictions :=
                List.app (evictions d)
                  [ VObj [ ("pod", Issues.opt_str (involved_name event));
                           ("namespace", Issues.opt_str (involved_namespace event));
                           ("reason", Issues.opt_str (reason event));
                           ("message", Issues.opt_str (event_message event));
                           ("time", VStr iso) ] ];
              oomKills := oomKills d;
              totalRestarts := totalRestarts d;
              totalEvictions := totalEvictions d + 1;
              totalOOMKills := totalOOMKills d |}
    end
  else Ok d.

Definition oomStep (event : EventObject) (time : option Z) (d : Tally) : Result Tally :=
  if reason_is event "OOMKilling" then
    match isoTime time with
    | Throw e => Throw e
    | Ok iso =>
        Ok {| recentRestarts := recentRestarts d;
              evictions := evictions d;
              oomKills :=
                List.app (oomKills d)
                  [ VObj [ ("pod", Issues.opt_str (involved_name event));
                           ("namespace", Issues.opt_str (involved_namespace event));
                           ("message", Issues.opt_str (event_message event));
                           ("time", VStr iso) ] ];
              totalRestarts := totalRestarts d;
              totalEvictions := totalEvictions d;
              totalOOMKills := totalOOMKills d + 1 |}
    end
  else Ok d.

Definition restartStep (event : EventObject) (time : option Z) (d : Tally) : Result Tally :=
  match event_message event with
  | Some message =>
      if reason_is event "Started" && Str.includes "Started container" message then
        match isoTime time with
        | Throw e => Throw e
        | Ok iso =>
            Ok {| recentRestarts :=
                    List.app (recentRestarts d)
                      [ VObj [ ("pod", Issues.opt_str (involved_name event));
                               ("namespace", Issues.opt_str (involved_namespace event));
                               ("container", VStr (extractContainerName message));
                               ("time", VStr iso) ] ];
                  evictions := evictions d;
                  oomKills := oomKills d;
                  totalRestarts := totalRestarts d + 1;
                  totalEvictions := totalEvictions d;
                  totalOOMKills := totalOOMKills d |}
        end
      else Ok d
  | None => Ok d
  end.

(** [new Date(stamp)]: a date is copied, [null] converts to the number 0,
    the epoch, and [undefined] to NaN, an invalid date. *)
Definition dateOf (stamp : Stamp) : option Z :=
  match stamp with
  | Date time => time
  | NullStamp => Some 0%Z
  | NoStamp => None
  end.

(** [new Date(event.firstTimestamp || event.eventTime)]: a [Date] object is
    truthy, also an invalid one; [null] and [undefined] are not. *)
Definition timeOf (event : EventObject) : option Z :=
  match firstTimestamp event with
  | Date time => time
  | NullStamp | NoStamp => dateOf (eventTime event)
  end.

(** One turn of the loop over the events. *)
Definition visit (cutoffTime : option Z) (event : EventObject) (d : Tally) : Result Tally :=
  let time := timeOf event in
  if earlier time cutoffTime then Ok d
  else
    match evictionStep event time d with
    | Throw e => Throw e
    | Ok d1 =>
        match oomStep event time d1 with
        | Throw e => Throw e
        | Ok d2 => restartStep event time d2
        end
    end.

Fixpoint visitAll (cutoffTime : option Z) (events : list EventObject) (d : Tally)
  : Result Tally :=
  match events with
  | [] => Ok d
  | event :: rest =>
      match visit cutoffTime event d with
      | Throw e => Throw e
      | Ok d' => visitAll cutoffTime rest d'
      end
  end.

Definition tallyValue (d : Tally) : value :=
  VObj [ ("recentRestarts", VArr (recentRestarts d));
         ("evictions", VArr (evictions d));
         ("oomKills", VArr (oomKills d));
         ("summary",
          VObj [ ("totalRestarts", VNum (totalRestarts d));
                 ("totalEvictions", VNum (totalEvictions d));
                 ("totalOOMKills", VNum (totalOOMKills d)) ]) ].

(** The handler, as a function of the clock and of the outcome of its one
    request: [listNamespacedEvent(namespace)] when [namespace] is given,
    [listEventForAllNamespaces()] otherwise; the list is [None] when the
    response has no [items]. The parameter [hours] is a number, as
    [validateToolArguments] leaves it, or undefined. *)
Definition analyzePodDisruptions (now : Z)
    (listNamespacedEvent : value -> Result (option (list EventObject)))
    (listEventForAllNamespaces : Result (option (list EventObject)))
    (namespace : value) (hours : option Z) : Result ToolResult :=
  let hours := match hours with Some h => h | None => 24%Z end in
  let cutoffTime := timeClip (now - hours * 60 * 60 * 1000)%Z in
  let eventsResponse :=
    if truthy namespace then listNamespacedEvent namespace else listEventForAllNamespaces in
  let attempt :=
    match eventsResponse with
    | Throw e => Throw e
    | Ok None => Throw (TypeError "events is not iterable")
    | Ok (Some events) =>
        match visitAll cutoffTime events noDisruptions with
        | Throw e => Throw e
        | Ok disruptions =>
            Ok (textResult
                  ("Pod Disruption Analysis (last " ++ Str.of_Z hours ++ "h):" ++ Str.nl
                   ++ JSON.stringify (tallyValue disruptions)))
        end
    end in
  match attempt with
  | Ok r => Ok r
  | Throw error => Throw (Error ("Failed to analyze pod disruptions: " ++ message error))
  end.

End Analysis.

End Disruptions.

(* ================================================================== *)
(** * Worlds in which something fails *)

Module Cases.
Import JS Eff K8s Dispatch.

(** The error of a failed child process. *)
Definition commandFailed (command errorOutput : string) : Err :=
  mkErr ("Command failed: " ++ command ++ Str.nl ++ errorOutput) (Some "")
    (Some errorOutput) None.

(** The namespace of the test does not exist: [kubectl get namespace] fails
    as kubectl does then, every other command succeeds. *)
Definition withoutNamespace : World :=
  {| env := env Scenario.calm;
     exec_reply :=
       fun _ command =>
         if Str.startsWith "kubectl get namespace " command
         then Throw (commandFailed command "Error from server (NotFound): namespaces not found")
         else Ok Scenario.silent;
     clock := clock Scenario.calm;
     clock_iso := clock_iso Scenario.calm;
     nodes_and_pods := nodes_and_pods Scenario.calm;
     read_namespace := read_namespace Scenario.calm;
     create_namespace := create_namespace Scenario.calm;
     JSON_parse := JSON_parse Scenario.calm;
     other_handler := other_handler Scenario.calm |}.

(** The quota of the namespace is exhausted after two pods: the manifest of
    the third is refused. *)
Definition quotaOfTwo : World :=
  {| env := env Scenario.calm;
     exec_reply :=
       fun _ command =>
         if Str.includes ("name: test-pod-3" ++ Str.nl) command
         then Throw (commandFailed command "Error from server (Forbidden): exceeded quota")
         else Ok Scenario.silent;
     clock := clock Scenario.calm;
     clock_iso := clock_iso Scenario.calm;
     nodes_and_pods := nodes_and_pods Scenario.calm;
     read_namespace := read_namespace Scenario.calm;
     create_namespace := create_namespace Scenario.calm;
     JSON_parse := JSON_parse Scenario.calm;
     other_handler := other_handler Scenario.calm |}.

(** An API error with an HTTP status. *)
Definition httpError (status : Z) : Err :=
  mkErr "HTTP request failed" None None (Some status).

(** Reading any namespace fails with the given status; creating one
    succeeds. *)
Definition namespaceUnreadable (status : Z) : World :=
  {| env := env Scenario.calm;
     exec_reply := exec_reply Scenario.calm;
     clock := clock Scenario.calm;
     clock_iso := clock_iso Scenario.calm;
     nodes_and_pods := nodes_and_pods Scenario.calm;
     read_namespace := fun _ _ => Throw (httpError status);
     create_namespace := create_namespace Scenario.calm;
     JSON_parse := JSON_parse Scenario.calm;
     other_handler := other_handler Scenario.calm |}.

Definition noneListed : value := VObj [("items", VArr [])].

(** A cluster without nodes and pods: both listings of the API are empty,
    and so is the list [kubectl get nodes] prints. *)
Definition emptyCluster : World :=
  {| env := env Scenario.calm;
     exec_reply :=
       fun _ command =>
         if Str.endsWith "kubectl get nodes -o json" command
         then Ok {| stdout := JSON.stringify noneListed; stderr := "" |}
         else Ok Scenario.silent;
     clock := clock Scenario.calm;
     clock_iso := clock_iso Scenario.calm;
     nodes_and_pods := fun _ => Ok (Some [], Some []);
     read_namespace := read_namespace Scenario.calm;
     create_namespace := create_namespace Scenario.calm;
     JSON_parse := Scenario.parses noneListed;
     other_handler := other_handler Scenario.calm |}.

(** A node that lacks the condition [Ready] being true. *)
Definition unreadyNode (name : string) : Node :=
  {| node_name := Some name;
     node_conditions :=
       Some [ {| cond_type := "Ready"; cond_status := "Unknown";
                 cond_message := Some "Kubelet stopped posting node status." |} ] |}.

(** Ten nodes of which one is not ready, and one failed pod. *)
Definition oneNodeDown : World :=
  {| env := env Scenario.calm;
     exec_reply := exec_reply Scenario.calm;
     clock := clock Scenario.calm;
     clock_iso := clock_iso Scenario.calm;
     nodes_and_pods :=
       fun _ =>
         Ok (Some (unreadyNode "node-10"
                   :: map (fun i => Scenario.readyNode ("node-" ++ Str.of_Z (Z.of_nat i)))
                        (seq 1 9)),
             Some [ {| pod_name := Some "job-1"; pod_namespace := Some "batch";
                       pod_phase := Some "Failed"; pod_created := None;
                       containerStatuses := None |} ]);
     read_namespace := read_namespace Scenario.calm;
     create_namespace := create_namespace Scenario.calm;
     JSON_parse := JSON_parse Scenario.calm;
     other_handler := other_handler Scenario.calm |}.

End Cases.

(* ================================================================== *)
(** * Facts: the handler monad *)

Module EffFacts.
Import JS Eff.


















End EffFacts.

(* ================================================================== *)
(** * Facts: the error sanitizer *)

Module SanitizeFacts.
Import Sanitize.

Lemma append_assoc (a b c : string) : (a ++ b) ++ c = a ++ (b ++ c).
Proof. induction a; simpl; congruence. Qed.

Lemma append_nil_r (a : string) : a ++ "" = a.
Proof. induction a; simpl; congruence. Qed.

Lemma decomp_all s : Decomp s.
Proof.
  induction s as [|c t IH].
  - now constructor.
  - destruct (is_delim c) eqn:Hc.
    + apply (Decomp_cons "" c t); auto.
    + inversion IH as [w Hw|w d s Hw Hd Hs]; subst.
      * constructor. simpl. now rewrite Hc.
      * apply (Decomp_cons (String c w) d s); auto. simpl. now rewrite Hc.
Qed.

Lemma delim_lower c : is_delim c = true -> Str.to_lower c = c.
Proof.
  destruct c as [[] [] [] [] [] [] [] []]; vm_compute; intros; congruence.
Qed.

Lemma matches_ci_delim kw d s :
  nodelim kw = true -> kw <> "" -> is_delim d = true -> matches_ci kw (String d s) = false.
Proof.
  destruct kw as [|k ks]; [congruence|]. simpl. intros Hk _ Hd.
  rewrite (delim_lower _ Hd).
  destruct (Ascii.eqb_spec d k); [subst; rewrite Hd in Hk; discriminate | reflexivity].
Qed.

Lemma matches_ci_word kw w d s :
  nodelim kw = true -> is_delim d = true ->
  matches_ci kw (w ++ String d s) = matches_ci kw w.
Proof.
  revert w. induction kw as [|k ks IH]; intros w Hk Hd.
  - now destruct w.
  - destruct w as [|c w].
    + simpl append. rewrite matches_ci_delim; auto. discriminate.
    + simpl in *. apply andb_true_iff in Hk as [_ Hk]. now rewrite IH.
Qed.

Section Lift.
Variables kw repl : string.
Hypothesis kw_word : nodelim kw = true.
Hypothesis kw_ne : kw <> "".

Lemma run_inside_word w s :
  nodelim w = true ->
  replace_run kw repl true (w ++ s) = replace_run kw repl true s.
Proof.
  induction w as [|c w IH]; simpl; auto.
  intros H. apply andb_true_iff in H as [Hc Hw]. rewrite Hc. simpl. auto.
Qed.

Lemma run_inside_delim d s :
  is_delim d = true ->
  replace_run kw repl true (String d s) = String d (replace_run kw repl false s).
Proof.
  intros Hd. cbn [replace_run]. rewrite Hd.
  now rewrite (matches_ci_delim kw d s kw_word kw_ne Hd), andb_false_r.
Qed.

Lemma run_word_delim w d s :
  nodelim w = true -> is_delim d = true ->
  replace_run kw repl false (w ++ String d s)
  = replace_word kw repl w ++ String d (replace_run kw repl false s).
Proof.
  intros Hw Hd. induction w as [|c w IH].
  - simpl append. rewrite <- run_inside_delim by auto.
    simpl. rewrite Hd. reflexivity.
  - simpl in Hw. apply andb_true_iff in Hw as [Hc Hw].
    change (String c w ++ String d s) with (String c (w ++ String d s)).
    assert (Hm : matches_ci kw (String c (w ++ String d s)) = matches_ci kw (String c w)).
    { apply (matches_ci_word kw (String c w) d s); auto. }
    cbn [replace_run replace_word andb]. rewrite Hm.
    destruct (matches_ci kw (String c w)).
    + rewrite run_inside_word, run_inside_delim; auto.
    + simpl. now rewrite IH.
Qed.

Lemma run_word w :
  nodelim w = true -> replace_run kw repl false w = replace_word kw repl w.
Proof.
  intros Hw. induction w as [|c w IH]; auto.
  simpl in Hw. apply andb_true_iff in Hw as [Hc Hw].
  cbn [replace_run replace_word andb].
  destruct (matches_ci kw (String c w)).
  - rewrite <- (append_nil_r w) at 1. rewrite run_inside_word; auto.
    simpl. now rewrite append_nil_r.
  - now rewrite IH.
Qed.

Lemma replace_word_nodelim w :
  nodelim repl = true -> nodelim w = true -> nodelim (replace_word kw repl w) = true.
Proof.
  intros Hr. induction w as [|c w IH]; auto. intros Hw.
  cbn [replace_word]. destruct (matches_ci kw (String c w)); auto.
  simpl in *. apply andb_true_iff in Hw as [Hc Hw]. now rewrite Hc, IH.
Qed.
End Lift.

Lemma compat_spec ks : forall kw' repl' u,
  compat ks kw' repl' = true -> matches_ci kw' u = true ->
  matches_ci ks repl' = matches_ci ks u.
Proof.
  induction ks as [|k ks IH]; intros kw' repl' u Hc Hm; [now destruct u, repl'|].
  destruct kw' as [|k' kw1]; [discriminate|]. destruct repl' as [|r repl1]; [discriminate|].
  destruct u as [|c u1]; [discriminate|].
  simpl in Hc, Hm |- *.
  apply andb_true_iff in Hc as [Hc Hrec]. apply andb_true_iff in Hc as [Hr Hl].
  apply andb_true_iff in Hm as [Hck Hm].
  apply Ascii.eqb_eq in Hr, Hl, Hck. subst r. rewrite Hl, Hck.
  destruct (Ascii.eqb k' k); [simpl; eauto | reflexivity].
Qed.

Lemma compat_all_head kw kw' repl' : compat_all kw kw' repl' = true -> compat kw kw' repl' = true.
Proof. destruct kw; [reflexivity|]. cbn [compat_all]. intros H; apply andb_true_iff in H; tauto. Qed.

Lemma compat_all_tail k ks kw' repl' :
  compat_all (String k ks) kw' repl' = true -> compat_all ks kw' repl' = true.
Proof. cbn [compat_all]. intros H; apply andb_true_iff in H; tauto. Qed.

Lemma matches_replace_word kw' repl' t : forall kw,
  compat_all kw kw' repl' = true ->
  matches_ci kw (replace_word kw' repl' t) = matches_ci kw t.
Proof.
  induction t as [|c t IH]; intros kw Hc; auto.
  cbn [replace_word]. destruct (matches_ci kw' (String c t)) eqn:Hm.
  - apply compat_spec with (kw' := kw'); auto using compat_all_head.
  - destruct kw as [|k ks]; auto. simpl. f_equal. eauto using compat_all_tail.
Qed.

Section WordFixpoints.
Variables kw repl : string.
Hypothesis repl_fixed : replace_word kw repl repl = repl.

Lemma replace_word_idem w :
  compat_all kw kw repl = true ->
  replace_word kw repl (replace_word kw repl w) = replace_word kw repl w.
Proof.
  intros Hc. induction w as [|c t IH]; auto.
  assert (K := matches_replace_word kw repl (String c t) kw Hc).
  cbn [replace_word] in K |- *.
  destruct (matches_ci kw (String c t)) eqn:Hm; auto.
  cbn [replace_word]. rewrite K. now rewrite IH.
Qed.

Variables kw' repl' : string.
Hypothesis cross_repl : replace_word kw repl repl' = repl'.
Hypothesis cross_own :
  replace_word kw repl (replace_word kw' repl' repl) = replace_word kw' repl' repl.
Hypothesis cross_compat : compat_all kw kw' repl' = true.

Lemma replace_word_keeps_fixed y :
  replace_word kw repl y = y ->
  replace_word kw repl (replace_word kw' repl' y) = replace_word kw' repl' y.
Proof.
  induction y as [|c t IH]; auto. intros Hy.
  assert (K := matches_replace_word kw' repl' (String c t) kw cross_compat).
  cbn [replace_word] in Hy, K |- *.
  destruct (matches_ci kw' (String c t)) eqn:Hm'; auto.
  destruct (matches_ci kw (String c t)) eqn:Hm.
  - assert (F : replace_word kw' repl' (String c t)
                = String c (replace_word kw' repl' t))
      by (cbn [replace_word]; now rewrite Hm').
    rewrite <- F, <- Hy. exact cross_own.
  - injection Hy as Hy. cbn [replace_word]. rewrite K. now rewrite IH.
Qed.

End WordFixpoints.

Lemma fixed_no_assignment kw repl y suffix :
  occurs_ci (kw ++ suffix) repl = false ->
  replace_word kw repl y = y -> occurs_ci (kw ++ suffix) y = false.
Proof.
  intros Hr. assert (P : forall a b u, matches_ci (a ++ b) u = true -> matches_ci a u = true).
  { induction a as [|x a IHa]; intros b u; [reflexivity|]. destruct u; simpl; [easy|].
    intros H. apply andb_true_iff in H as [-> H]. simpl. eauto. }
  induction y as [|c t IH]; intros Hy.
  - destruct (kw ++ suffix) as [|p ps]; [|reflexivity].
    destruct repl; discriminate Hr.
  - cbn [replace_word] in Hy. destruct (matches_ci kw (String c t)) eqn:Hm.
    + now rewrite <- Hy.
    + injection Hy as Hy. cbn [occurs_ci]. rewrite (IH Hy), orb_false_r.
      destruct (matches_ci (kw ++ suffix) (String c t)) eqn:E; auto.
      apply P in E. congruence.
Qed.

Ltac word_side := first [reflexivity | discriminate | assumption].

Lemma sanitizeWord_nodelim w : nodelim w = true -> nodelim (sanitizeWord w) = true.
Proof.
  intros H. unfold sanitizeWord. repeat apply replace_word_nodelim; word_side.
Qed.

Lemma sanitize_word w : nodelim w = true -> sanitizeErrorMessage w = sanitizeWord w.
Proof.
  intros H. unfold sanitizeErrorMessage, sanitizeWord.
  rewrite (run_word "token"), (run_word "password"), (run_word "secret");
    repeat apply replace_word_nodelim; word_side.
Qed.

Lemma sanitize_cons w d s :
  nodelim w = true -> is_delim d = true ->
  sanitizeErrorMessage (w ++ String d s) = sanitizeWord w ++ String d (sanitizeErrorMessage s).
Proof.
  intros Hw Hd. unfold sanitizeErrorMessage, sanitizeWord.
  rewrite (run_word_delim "token"), (run_word_delim "password"), (run_word_delim "secret");
    repeat apply replace_word_nodelim; word_side.
Qed.

Lemma sanitizeWord_fixed w :
  let y := sanitizeWord w in
  replace_word "token" "token[REDACTED]" y = y /\
  replace_word "password" "password[REDACTED]" y = y /\
  replace_word "secret" "secret[REDACTED]" y = y.
Proof.
  unfold sanitizeWord. cbv zeta. repeat split.
  - do 2 (apply replace_word_keeps_fixed; try reflexivity).
    apply replace_word_idem; reflexivity.
  - apply replace_word_keeps_fixed; try reflexivity.
    apply replace_word_idem; reflexivity.
  - apply replace_word_idem; reflexivity.
Qed.

Lemma sanitizeWord_idem w : sanitizeWord (sanitizeWord w) = sanitizeWord w.
Proof.
  destruct (sanitizeWord_fixed w) as (H1 & H2 & H3).
  unfold sanitizeWord at 1. now rewrite H1, H2, H3.
Qed.

Lemma occurs_ci_word p w d s :
  nodelim p = true -> p <> "" -> is_delim d = true ->
  occurs_ci p (w ++ String d s) = occurs_ci p w || occurs_ci p s.
Proof.
  intros Hp Hne Hd. induction w as [|c w IH].
  - simpl append. cbn [occurs_ci]. rewrite matches_ci_delim by auto.
    destruct p; [congruence|reflexivity].
  - change (String c w ++ String d s) with (String c (w ++ String d s)).
    assert (E : matches_ci p (String c (w ++ String d s)) = matches_ci p (String c w))
      by (apply (matches_ci_word p (String c w) d s); auto).
    cbn [occurs_ci]. rewrite IH, E. now rewrite orb_assoc.
Qed.

Lemma sanitizeWord_no_leak w : leaks (sanitizeWord w) = false.
Proof.
  destruct (sanitizeWord_fixed w) as (H1 & H2 & H3). unfold leaks.
  pose proof (fixed_no_assignment "token" "token[REDACTED]" _ "=" eq_refl H1) as T.
  pose proof (fixed_no_assignment "password" "password[REDACTED]" _ "=" eq_refl H2) as P.
  pose proof (fixed_no_assignment "secret" "secret[REDACTED]" _ "=" eq_refl H3) as S.
  cbn [append] in T, P, S. now rewrite T, P, S.
Qed.

Lemma leaks_word w d s :
  is_delim d = true -> leaks (w ++ String d s) = leaks w || leaks s.
Proof.
  intros Hd. unfold leaks. rewrite !occurs_ci_word by word_side.
  repeat match goal with |- context [occurs_ci ?p ?x] =>
    destruct (occurs_ci p x); simpl; try reflexivity end.
Qed.

(** C8. The sanitizer is idempotent, and its output holds no occurrence of
    [token=], [password=] or [secret=], whatever the letter case. *)
Theorem sanitize_idempotent_and_redacting (x : string) :
  sanitizeErrorMessage (sanitizeErrorMessage x) = sanitizeErrorMessage x /\
  occurs_ci "token=" (sanitizeErrorMessage x) = false /\
  occurs_ci "password=" (sanitizeErrorMessage x) = false /\
  occurs_ci "secret=" (sanitizeErrorMessage x) = false.
Proof.
  assert (L : sanitizeErrorMessage (sanitizeErrorMessage x) = sanitizeErrorMessage x
              /\ leaks (sanitizeErrorMessage x) = false).
  { induction (decomp_all x) as [w Hw|w d s Hw Hd _ [IH1 IH2]].
    - rewrite (sanitize_word w Hw), sanitize_word by now apply sanitizeWord_nodelim.
      split; [apply sanitizeWord_idem | apply sanitizeWord_no_leak].
    - rewrite (sanitize_cons w d s Hw Hd), sanitize_cons by (auto using sanitizeWord_nodelim).
      rewrite sanitizeWord_idem, IH1, leaks_word, sanitizeWord_no_leak, IH2 by auto.
      now split. }
  destruct L as [L1 L2]. split; [exact L1|]. unfold leaks in L2.
  apply orb_false_iff in L2 as [L2 L3]. apply orb_false_iff in L2 as [L2 L4]. auto.
Qed.

End SanitizeFacts.

(* ================================================================== *)
(** * Facts: resource values *)

Module QuantityFacts.
Import JS Quantity.

Example parseFloat_tenth : parseFloat "0.1" = 0x1.999999999999ap-4%float.
Proof. reflexivity. Qed.

Example parseFloat_prefix : parseFloat "  -12.5abc" = (-12.5)%float.
Proof. reflexivity. Qed.

Example parseFloat_none : PrimFloat.is_nan (parseFloat "Mi") = true.
Proof. reflexivity. Qed.

Example parse_cores : parseResourceValue (VStr "2") = 2%float.
Proof. reflexivity. Qed.

Example parse_not_a_string : parseResourceValue (VNum 3) = 0%float.
Proof. reflexivity. Qed.

(** C9. The canonical conversions of the resource-value parser. *)
Theorem parseResourceValue_canonical :
  parseResourceValue (VStr "500m") = 0.5%float /\
  parseResourceValue (VStr "128Mi")
  = PrimFloat.mul (PrimFloat.mul 128%float 1024%float) 1024%float /\
  parseResourceValue (VStr "") = 0%float /\
  parseResourceValue (VStr "1G") = 1000000000%float.
Proof. repeat split; vm_compute; reflexivity. Qed.

End QuantityFacts.

(* ================================================================== *)
(** * Facts: the health check and the restart checks *)

Module HealthFacts.
Import JS Eff K8s Health EffFacts.

Example no_issue_is_healthy : overallStatus 0 0%float 0%float = "healthy".
Proof. reflexivity. Qed.

Example two_issues_warn : overallStatus 2 95%float 96%float = "warning".
Proof. reflexivity. Qed.

Example boundary_is_critical : overallStatus 2 90%float 96%float = "critical".
Proof. reflexivity. Qed.

Example four_issues_are_critical : overallStatus 4 100%float 100%float = "critical".
Proof. reflexivity. Qed.

Lemma overallStatus_healthy nodeHealth podHealth :
  overallStatus 0 nodeHealth podHealth = "healthy".
Proof. reflexivity. Qed.

Lemma overallStatus_warning n nodeHealth podHealth :
  1 <= n <= 3 -> PrimFloat.ltb 90%float nodeHealth = true ->
  PrimFloat.ltb 95%float podHealth = true ->
  overallStatus n nodeHealth podHealth = "warning".
Proof.
  intros [H1 H3] Hn Hp. unfold overallStatus. rewrite Hn, Hp.
  destruct (Nat.eqb_spec n 0); [lia|]. destruct (Nat.leb_spec n 3); [reflexivity|lia].
Qed.

Lemma overallStatus_critical n nodeHealth podHealth :
  n <> 0 ->
  3 < n \/ PrimFloat.ltb 90%float nodeHealth = false
  \/ PrimFloat.ltb 95%float podHealth = false ->
  overallStatus n nodeHealth podHealth = "critical".
Proof.
  intros H0 H. unfold overallStatus. destruct (Nat.eqb_spec n 0); [lia|].
  destruct H as [H|[H|H]].
  - destruct (Nat.leb_spec n 3); [lia|reflexivity].
  - rewrite H, andb_false_r. reflexivity.
  - rewrite H, andb_false_r. reflexivity.
Qed.

Lemma checkPod_total W pod st tr : exists st' tr', checkPod W pod st tr = (Ok st', tr').
Proof.
  destruct st as [healthy issues].
  unfold checkPod, calculateAge, dateNow, bind, ret; unfold ask, bind, ret.
  repeat match goal with
  | |- context [if ?b then _ else _] => destruct b
  | |- context [match ?o with Some _ => _ | None => _ end] => destruct o
  end; eauto.
Qed.

Lemma podLoop_total W pods : forall st tr,
  exists st' tr', for_each (checkPod W) pods st tr = (Ok st', tr').
Proof.
  induction pods as [|pod pods IH]; intros st tr; simpl.
  - unfold ret. eauto.
  - unfold bind. destruct (checkPod_total W pod st tr) as (st1 & tr1 & ->). apply IH.
Qed.

(** C5. When the listing succeeds the report carries the status computed from
    the number of issues and the two health percentages: healthy without
    issue; warning with at most three issues, node health above 90 and pod
    health above 95; critical in every other case. *)
Theorem cluster_health_three_levels W detailed tr nodes pods :
  nodes_and_pods W tr = Ok (Some nodes, Some pods) ->
  exists healthyPods issues tr',
    let healthyNodes := List.length (filter is_ready nodes) in
    let nodeHealth := percentage healthyNodes (List.length nodes) in
    let podHealth := percentage healthyPods (List.length pods) in
    let status := overallStatus (List.length issues) nodeHealth podHealth in
    for_each (checkPod W) pods (0, flat_map nodeIssues nodes)
      (tr ++ [EvListNodesAndPods])%list = (Ok (healthyPods, issues), tr')
    /\ checkClusterHealth W detailed tr
       = (Ok (textResult
                ("Cluster Health Report:" ++ Str.nl
                 ++ JSON.stringify
                      (summary status nodes healthyNodes pods healthyPods issues detailed))),
          tr')
    /\ (List.length issues = 0 -> status = "healthy")
    /\ (1 <= List.length issues <= 3 -> PrimFloat.ltb 90%float nodeHealth = true ->
        PrimFloat.ltb 95%float podHealth = true -> status = "warning")
    /\ (List.length issues <> 0 ->
        3 < List.length issues \/ PrimFloat.ltb 90%float nodeHealth = false
        \/ PrimFloat.ltb 95%float podHealth = false ->
        status = "critical").
Proof.
  intros Hlist.
  destruct (podLoop_total W pods (0, flat_map nodeIssues nodes)
              (tr ++ [EvListNodesAndPods])%list) as ([healthyPods issues] & tr' & Hloop).
  exists healthyPods, issues, tr'. cbv zeta. split; [exact Hloop|]. split.
  - unfold checkClusterHealth, try_catch, bind at 1. unfold ask at 1. rewrite Hlist.
    unfold bind at 1, ret at 1. unfold bind at 1, ret at 1. unfold bind at 1.
    rewrite Hloop. reflexivity.
  - repeat split.
    + intros ->. reflexivity.
    + apply overallStatus_warning.
    + apply overallStatus_critical.
Qed.

(** The calm cluster is reported healthy. *)
Lemma cluster_health_three_levels_witness :
  fst (checkClusterHealth Scenario.calm (VBool false) [])
  = Ok (textResult
          ("Cluster Health Report:" ++ Str.nl
           ++ JSON.stringify
                (VObj [ ("status", VStr "healthy"); ("totalNodes", VNum 1);
                        ("healthyNodes", VNum 1); ("totalPods", VNum 0);
                        ("healthyPods", VNum 0); ("issuesFound", VNum 0) ]))).
Proof.
  destruct (cluster_health_three_levels Scenario.calm (VBool false) []
              [Scenario.readyNode "node-1"] [] eq_refl)
    as (healthyPods & issues & tr' & Hloop & Hrun & _).
  injection Hloop as <- <- <-. rewrite Hrun. reflexivity.
Defined.

End HealthFacts.

Module IssuesFacts.
Import JS Eff K8s Issues.

Lemma fold_restarts statuses : forall acc,
  fold_left (fun sum c => (sum + restartCount c)%Z) statuses acc
  = (acc + totalRestarts statuses)%Z.
Proof.
  unfold totalRestarts. induction statuses as [|c l IH]; intros acc; simpl.
  - lia.
  - rewrite IH, (IH (restartCount c)). lia.
Qed.

Lemma totalRestarts_cons c l :
  totalRestarts (c :: l) = (restartCount c + totalRestarts l)%Z.
Proof. unfold totalRestarts at 1. simpl. now rewrite fold_restarts. Qed.

Lemma totalRestarts_bounds statuses :
  (forall c, In c statuses -> (0 <= restartCount c)%Z) ->
  (0 <= totalRestarts statuses)%Z /\
  forall c, In c statuses -> (restartCount c <= totalRestarts statuses)%Z.
Proof.
  induction statuses as [|c l IH]; intros Hpos.
  - split; [reflexivity | intros c []].
  - rewrite totalRestarts_cons.
    destruct IH as [IH0 IHc]; [intros; apply Hpos; now right|].
    assert (0 <= restartCount c)%Z by (apply Hpos; now left).
    split; [lia|]. intros c' [<-|Hin]; [lia|]. specialize (IHc c' Hin). lia.
Qed.

Lemma restartIssues_none pod :
  Health.restartIssues pod = []
  <-> forall c, In c (Health.statuses_of pod) -> (restartCount c <= 5)%Z.
Proof.
  unfold Health.restartIssues, Health.DEFAULT_RESTART_THRESHOLD.
  induction (Health.statuses_of pod) as [|c l IH]; simpl.
  - split; [intros _ c [] | reflexivity].
  - destruct (Z.ltb_spec 5 (restartCount c)); simpl.
    + split; [discriminate|]. intros Hall. specialize (Hall c (or_introl eq_refl)). lia.
    + rewrite IH. split.
      * intros Hall c' [<-|Hin]; auto.
      * intros Hall c' Hin. apply Hall. now right.
Qed.

Lemma default_restart_threshold :
  lookup "restarts" (finalThresholds VUndefined) = VNum 5.
Proof. reflexivity. Qed.

Lemma explicit_restart_threshold z :
  lookup "restarts" (finalThresholds (VObj [("restarts", VNum z)])) = VNum z.
Proof. reflexivity. Qed.

(** C10. The two restart checks compare differently: detect_resource_issues
    lists a pod when the sum of its containers' restart counts reaches the
    threshold (5 unless given), check_cluster_health reports a container only
    above 5 restarts; a pod whose counts sum to exactly 5 is listed by the
    first and raises nothing in the second. *)
Theorem restart_checks_differ (pod : Pod) :
  (forall thresholds z,
     lookup "restarts" (finalThresholds thresholds) = VNum z ->
     flagged thresholds pod = (z <=? totalRestarts (Health.statuses_of pod))%Z)
  /\ flagged VUndefined pod = (5 <=? totalRestarts (Health.statuses_of pod))%Z
  /\ (forall thresholds pods,
        frequentRestartPods thresholds pods
        = map restartEntry (filter (flagged thresholds) pods))
  /\ Health.restartIssues pod
     = map (fun c => "Container " ++ cs_name c ++ " in pod " ++ Health.show (pod_name pod)
                     ++ " has " ++ Str.of_Z (restartCount c) ++ " restarts")
         (filter (fun c => (5 <? restartCount c)%Z) (Health.statuses_of pod))
  /\ ((forall c, In c (Health.statuses_of pod) -> (0 <= restartCount c)%Z) ->
      totalRestarts (Health.statuses_of pod) = 5%Z ->
      flagged VUndefined pod = true /\ Health.restartIssues pod = []).
Proof.
  assert (D : flagged VUndefined pod = (5 <=? totalRestarts (Health.statuses_of pod))%Z)
    by reflexivity.
  repeat split; auto.
  - intros thresholds z Hz. unfold flagged. now rewrite Hz.
  - rewrite D, H0. reflexivity.
  - apply restartIssues_none. intros c Hc.
    destruct (totalRestarts_bounds _ H) as [_ Hle]. specialize (Hle c Hc). lia.
Qed.

(** A pod with one container restarted five times. *)
Lemma restart_checks_differ_witness :
  let pod := {| pod_name := Some "web"; pod_namespace := Some "default";
                pod_phase := Some "Running"; pod_created := None;
                containerStatuses :=
                  Some [ {| cs_name := "app"; restartCount := 5; cs_reason := None |} ] |} in
  flagged VUndefined pod = true /\ Health.restartIssues pod = [].
Proof.
  cbv zeta.
  refine (proj2 (proj2 (proj2 (proj2 (restart_checks_differ _)))) _ _).
  - intros c [<-|[]]. simpl. lia.
  - reflexivity.
Defined.

End IssuesFacts.

(* ================================================================== *)
(** * Facts: validation and the dispatcher *)

Module DispatchFacts.
Import JS Eff Validate Dispatch EffFacts.

Lemma switch_default {A} (x : string) (cases : list (string * A)) (d : A) :
  existsb (String.eqb x) (map fst cases) = false -> switch x cases d = d.
Proof.
  induction cases as [|[k a] rest IH]; simpl; auto.
  intros H. apply orb_false_iff in H as [Hk Hr].
  rewrite String.eqb_sym, Hk. auto.
Qed.

(** Splits the conditionals of a validation run and closes each outcome. *)
Ltac validation_cases :=
  repeat match goal with
  | |- (if ?b then _ else _) = _ -> _ => destruct b
  end; cbn [checks];
  repeat match goal with
  | |- (if ?b then _ else _) = _ -> _ => destruct b
  | |- Throw _ = Throw _ -> _ => intros [= <-]; reflexivity
  | |- Ok _ = Throw _ -> _ => discriminate
  end.

Lemma validation_unregistered toolName args :
  registered toolName = false -> validateToolArguments toolName args = Ok tt.
Proof.
  intros H. unfold validateToolArguments. destruct (negb (truthy args)); auto.
  cbv zeta. apply switch_default.
  unfold registered, toolNames in H. cbn [map fst existsb] in *.
  repeat (apply orb_false_iff in H as [? H]).
  repeat (apply orb_false_iff; split); auto.
Qed.

Lemma route_unregistered H toolName args :
  registered toolName = false ->
  route H toolName args = throw (Error ("Unknown tool: " ++ toolName)).
Proof.
  intros R. unfold route. cbv zeta. apply switch_default. exact R.
Qed.

Lemma enum_outside_rejected tool field allowed args :
  In (tool, field, allowed) enumChecks ->
  truthy args = true -> truthy (opt_get args field) = true ->
  in_strings allowed (opt_get args field) = false ->
  exists e, validateToolArguments tool args = Throw e.
Proof.
  intros Hin Ha Hf Hout. unfold validateToolArguments. rewrite Ha. cbv zeta.
  cbn [enumChecks In] in Hin.
  repeat (destruct Hin as [[= <- <- <-]|Hin]); [ .. | destruct Hin ];
    cbn [switch String.eqb Ascii.eqb Bool.eqb negb fst snd checks];
    rewrite ?Hf, ?Hout; cbn [negb andb orb checks];
    repeat match goal with
    | |- exists e, (if ?b then _ else _) = _ => destruct b
    end; eauto.
Qed.


Lemma dispatch_failure H req tr e tr' :
  attempt H req tr = (Throw e, tr') ->
  dispatch H req tr = (Ok (failure (name req) e), tr').
Proof. intros E. unfold dispatch, try_catch. now rewrite E. Qed.


Lemma dispatch_invalid H req tr e :
  validateToolArguments (name req) (arguments req) = Throw e ->
  dispatch H req tr = (Ok (failure (name req) e), tr).
Proof.
  intros E. apply dispatch_failure. unfold attempt, bind, lift. now rewrite E.
Qed.

Lemma dispatch_unknown H req tr :
  registered (name req) = false ->
  dispatch H req tr
  = (Ok (failure (name req) (Error ("Unknown tool: " ++ name req))), tr).
Proof.
  intros R. apply dispatch_failure. unfold attempt, bind, lift.
  now rewrite validation_unregistered, route_unregistered.
Qed.






Example unknown_tool_answer :
  dispatch (server Scenario.calm) {| name := "restart_cluster"; arguments := VObj [] |} []
  = (Ok (errorResult
           "Error executing restart_cluster: Unknown tool: restart_cluster [DEBUG: Raw error]"),
     []).
Proof. reflexivity. Qed.

Example enum_answer :
  dispatch (server Scenario.calm)
    {| name := "run_kube_burner"; arguments := VObj [("testType", VStr "pod-density")] |} []
  = (Ok (errorResult
           ("Error executing run_kube_burner: testType must be one of: "
            ++ "cluster-density-v2, node-density, pvc-density, crd-scale [DEBUG: Raw error]")),
     []).
Proof. reflexivity. Qed.

(** C1. A handler failure whose message quotes a credential: the response
    carries the message as it is, followed by a debug marker; the sanitizer is
    not applied, and the text differs from the sanitized one. *)
Theorem failure_text_is_not_sanitized :
  let raw := "request to https://api.example:6443/api/v1/nodes?token=abc123 failed" in
  let e := Error ("Failed to check cluster health: " ++ raw) in
  dispatch (server Scenario.refusing) Scenario.healthRequest []
  = (Ok (errorResult
           ("Error executing check_cluster_health: Failed to check cluster health: "
            ++ raw ++ " [DEBUG: Raw error]")),
     [EvListNodesAndPods])
  /\ Sanitize.leaks (text_of (failure "check_cluster_health" e)) = true
  /\ Sanitize.leaks (text_of (sanitized_failure "check_cluster_health" e)) = false
  /\ failure "check_cluster_health" e <> sanitized_failure "check_cluster_health" e.
Proof.
  cbv zeta. repeat split; try reflexivity. intros E. discriminate E.
Qed.




(** Whenever [validateToolArguments] rejects the arguments, and it rejects
    every value outside the allowed set of an enumerated parameter it
    checks, the response has [isError] true; an unregistered tool name is
    answered with [isError] true as well. In both cases the response and the
    history are the same for every table of handlers: none is invoked. *)
Lemma rejected_requests_skip_handlers :
  (forall H req tr e,
     validateToolArguments (name req) (arguments req) = Throw e ->
     dispatch H req tr = (Ok (failure (name req) e), tr)
     /\ isError (failure (name req) e) = Some true)
  /\ (forall tool field allowed args,
        In (tool, field, allowed) enumChecks ->
        truthy args = true -> truthy (opt_get args field) = true ->
        in_strings allowed (opt_get args field) = false ->
        exists e, validateToolArguments tool args = Throw e)
  /\ (forall H req tr,
        registered (name req) = false ->
        dispatch H req tr
        = (Ok (errorResult ("Error executing " ++ name req ++ ": "
                            ++ ("Unknown tool: " ++ name req ++ " [DEBUG: Raw error]"))), tr)).
Proof.
  repeat split.
  - now apply dispatch_invalid.
  - apply enum_outside_rejected.
  - intros H req tr R. rewrite (dispatch_unknown H req tr R). reflexivity.
Qed.

(** C4. The schema of run_kube_burner declares [namespace] a string, yet the
    validation of that tool accepts every value for it. A request with the
    number 42 is not answered with an error: the handler is invoked, creates
    the namespace [42], applies its ten pod manifests there, and the response
    is a success without [isError]. *)
Theorem mistyped_arguments_reach_handler :
  let q := Scenario.quoted in
  let apply := fun i : string =>
    EvExec ("echo '"
            ++ String.concat Str.nl
                 [ "apiVersion: v1";
                   "kind: Pod";
                   "metadata:";
                   "  name: density-test-pod-" ++ i;
                   "  namespace: 42";
                   "  labels:";
                   "    app: node-density-test";
                   "    test-iteration: " ++ q i;
                   "spec:";
                   "  containers:";
                   "  - name: pause";
                   "    image: registry.k8s.io/pause:3.8";
                   "    resources:";
                   "      requests:";
                   "        memory: " ++ q "10Mi";
                   "        cpu: " ++ q "1m";
                   "      limits:";
                   "        memory: " ++ q "20Mi";
                   "        cpu: " ++ q "10m";
                   "  restartPolicy: Never" ]
            ++ "' | kubectl apply -f - --kubeconfig undefined") in
  (forall namespace rest,
     validateToolArguments "run_kube_burner"
       (VObj (("testType", VStr "node-density") :: ("iterations", VNum 1)
              :: ("namespace", namespace) :: rest)) = Ok tt)
  /\ dispatch (server Scenario.calm)
       {| name := "run_kube_burner";
          arguments := VObj [ ("testType", VStr "node-density"); ("iterations", VNum 1);
                              ("namespace", VNum 42); ("operation", VStr "create");
                              ("cleanup", VBool false) ] |} []
     = (Ok {| content :=
                [ {| type := "text";
                     text :=
                       String.concat Str.nl
                         [ "Kube-burner create operation completed:";
                           "{";
                           "  " ++ q "testType" ++ ": " ++ q "node-density" ++ ",";
                           "  " ++ q "iterations" ++ ": 1,";
                           "  " ++ q "namespace" ++ ": 42,";
                           "  " ++ q "timeout" ++ ": " ++ q "10m" ++ ",";
                           "  " ++ q "operation" ++ ": " ++ q "create" ++ ",";
                           "  " ++ q "status" ++ ": " ++ q "Completed" ++ ",";
                           "  " ++ q "creation" ++ ": {";
                           "    " ++ q "podsCreated" ++ ": 10,";
                           "    " ++ q "testType" ++ ": " ++ q "node-density" ++ ",";
                           "    " ++ q "duration" ++ ": " ++ q "12s" ++ ",";
                           "    " ++ q "status" ++ ": " ++ q "Completed";
                           "  }";
                           "}" ] |} ];
              isError := None |},
        List.app
          [ EvExec "kubectl create namespace 42 --kubeconfig undefined"; EvNow ]
          (List.app (map apply [ "1"; "2"; "3"; "4"; "5"; "6"; "7"; "8"; "9"; "10" ])
             [ EvSleep 15000; EvNow ])).
Proof.
  intros q apply. split.
  - intros namespace rest. reflexivity.
  - vm_compute. reflexivity.
Qed.

End DispatchFacts.

(* ================================================================== *)
(** * Facts: the density test and the text of its commands *)

Module BurnerFacts.
Import JS Eff Validate Dispatch KubeBurner Shell EffFacts.


Section Succeeding.
Variable W : World.
Hypothesis commands_succeed : forall h c, exists out, exec_reply W h c = Ok out.

Lemma exec_ok c tr : exists out, execAsync W c tr = (Ok out, (tr ++ [EvExec c])%list).
Proof.
  destruct (commands_succeed tr c) as [out E]. exists out.
  unfold execAsync, ask. now rewrite E.
Qed.

Lemma applyPods_ok namespace kc podName app podCount tr :
  applyPods W namespace kc podName app podCount tr
  = (Ok tt,
     (tr ++ map (fun i => EvExec (applyCommand
                                    (podManifest podName app (toStr namespace) i) kc))
              (indices podCount))%list).
Proof.
  unfold applyPods. generalize (indices podCount) as l. intros l. revert tr.
  induction l as [|i l IH]; intros tr.
  - simpl. unfold ret. now rewrite app_nil_r.
  - cbn [for_each map]. unfold bind at 1. unfold bind at 1.
    destruct (exec_ok (applyCommand (podManifest podName app (ns namespace) i) kc) tr)
      as [out ->].
    unfold ret at 1. rewrite IH. unfold ns. now rewrite <- app_assoc.
Qed.

(** The creation phase without automatic cleanup: the namespace, the first
    reading of the clock, the manifests, the wait and the second reading. *)
Lemma createPhase_run testType iterations namespace cleanup operation kc results tr :
  truthy cleanup && is_str operation "create" = false ->
  let density := is_str testType "node-density" in
  let podCount := times iterations (if density then 10 else 5)%Z in
  let applies :=
    map (fun i => EvExec (applyCommand
                            (podManifest (if density then "density-test-pod" else "test-pod")
                               (if density then "node-density-test"
                                else toStr testType ++ "-test") (toStr namespace) i) kc))
      (indices podCount) in
  let started :=
    (tr ++ [EvExec ("kubectl create namespace " ++ toStr namespace ++ " --kubeconfig "
                    ++ kc)])%list in
  let waited := (((started ++ [EvNow]) ++ applies) ++ [EvSleep 15000])%list in
  createPhase W testType iterations namespace cleanup operation kc results tr
  = (Ok (set_field "creation"
           (VObj [ ("podsCreated", count_value podCount);
                   ("testType", if density then VStr "node-density" else testType);
                   ("duration", VStr (seconds (clock W waited - clock W started)));
                   ("status", VStr "Completed") ]) results),
     (waited ++ [EvNow])%list).
Proof.
  intros Hc. cbv zeta. unfold createPhase. cbv zeta.
  unfold bind at 1. unfold try_catch, bind at 1.
  destruct (exec_ok ("kubectl create namespace " ++ ns namespace ++ " --kubeconfig " ++ kc) tr)
    as [out ->].
  unfold ret at 1. unfold bind at 1. unfold dateNow at 1, ask at 1.
  unfold bind at 1.
  destruct (is_str testType "node-density");
    rewrite applyPods_ok; unfold bind at 1, sleep at 1, ask at 1;
    unfold bind at 1, dateNow at 1, ask at 1; rewrite Hc; unfold ret, ns; reflexivity.
Qed.

(** A node-density creation without cleanup, from the request to the
    response. *)
Lemma density_run fields n namespace timeout tr :
  lookup "testType" fields = VStr "node-density" ->
  lookup "iterations" fields = VNum n -> (1 <= n <= 100)%Z ->
  default_to (VStr "kube-burner-test") (lookup "namespace" fields) = VStr namespace ->
  default_to (VStr "10m") (lookup "timeout" fields) = timeout ->
  default_to (VStr "create") (lookup "operation" fields) = VStr "create" ->
  lookup "cleanup" fields = VBool false ->
  let kc := kubeconfig W in
  let applies :=
    map (fun i => EvExec (applyCommand
                            (podManifest "density-test-pod" "node-density-test" namespace i)
                            kc))
      (map Z.of_nat (seq 1 (Z.to_nat (n * 10)))) in
  let started :=
    (tr ++ [EvExec ("kubectl create namespace " ++ namespace ++ " --kubeconfig " ++ kc)])%list in
  let waited := (((started ++ [EvNow]) ++ applies) ++ [EvSleep 15000])%list in
  dispatch (server W) {| name := "run_kube_burner"; arguments := VObj fields |} tr
  = (Ok (textResult
           ("Kube-burner create operation completed:" ++ Str.nl
            ++ JSON.stringify
                 (VObj [ ("testType", VStr "node-density");
                         ("iterations", VNum n);
                         ("namespace", VStr namespace);
                         ("timeout", timeout);
                         ("operation", VStr "create");
                         ("status", VStr "Completed");
                         ("creation",
                          VObj [ ("podsCreated", VNum (n * 10));
                                 ("testType", VStr "node-density");
                                 ("duration",
                                  VStr (seconds (clock W waited - clock W started)));
                                 ("status", VStr "Completed") ]) ]))),
     (waited ++ [EvNow])%list).
Proof.
  intros Ht Hi Hn Hns Hto Hop Hc. cbv zeta.
  assert (V : validateToolArguments "run_kube_burner" (VObj fields) = Ok tt).
  { assert (O : ((n <? 1) || (100 <? n))%Z = false).
    { apply orb_false_iff. split; apply Z.ltb_ge; lia. }
    unfold validateToolArguments. cbn [truthy negb opt_get get].
    cbn [Validate.switch String.eqb Ascii.eqb Bool.eqb]. rewrite Ht, Hi. cbn. now rewrite O. }
  unfold dispatch, try_catch, attempt, bind at 1. cbn [name arguments].
  rewrite V. cbn [lift].
  change (route (server W) "run_kube_burner" (VObj fields))
    with (runKubeBurner W (VObj fields)).
  unfold runKubeBurner, try_catch, bind at 1. cbn [lift Deployment.destructure].
  unfold bind at 1. cbn [opt_get get]. rewrite Ht, Hi, Hns, Hto, Hop, Hc.
  cbn [in_strings existsb default_to String.eqb Ascii.eqb Bool.eqb operations orb ret].
  unfold bind at 1. cbn [ret]. unfold bind at 1.
  rewrite createPhase_run by reflexivity. reflexivity.
Qed.

End Succeeding.

(** C6. With every cluster command succeeding, the node-density request of
    two iterations creates the namespace and applies exactly twenty pod
    manifests, one command each: the manifest of the pod [density-test-pod-i]
    for [i] from 1 to 20, in this order. It then waits and answers with
    [podsCreated] 20 and the status [Completed]. *)
Theorem node_density_creates_twenty_pods (W : World) (tr : Trace) :
  (forall h c, exists out, exec_reply W h c = Ok out) ->
  let kc := kubeconfig W in
  let q := Scenario.quoted in
  let manifest := fun i : Z =>
    String.concat Str.nl
      [ "apiVersion: v1";
        "kind: Pod";
        "metadata:";
        "  name: density-test-pod-" ++ Str.of_Z i;
        "  namespace: kube-burner-test";
        "  labels:";
        "    app: node-density-test";
        "    test-iteration: " ++ q (Str.of_Z i);
        "spec:";
        "  containers:";
        "  - name: pause";
        "    image: registry.k8s.io/pause:3.8";
        "    resources:";
        "      requests:";
        "        memory: " ++ q "10Mi";
        "        cpu: " ++ q "1m";
        "      limits:";
        "        memory: " ++ q "20Mi";
        "        cpu: " ++ q "10m";
        "  restartPolicy: Never" ] in
  let applies :=
    map (fun i => EvExec ("echo '" ++ manifest i ++ "' | kubectl apply -f - --kubeconfig " ++ kc))
      (map Z.of_nat (seq 1 20)) in
  let started :=
    (tr ++ [EvExec ("kubectl create namespace kube-burner-test --kubeconfig " ++ kc)])%list in
  let waited := (((started ++ [EvNow]) ++ applies) ++ [EvSleep 15000])%list in
  let duration := Str.of_Z ((clock W waited - clock W started + 500) / 1000) ++ "s" in
  dispatch (server W)
    {| name := "run_kube_burner";
       arguments := VObj [ ("testType", VStr "node-density"); ("iterations", VNum 2);
                           ("operation", VStr "create"); ("cleanup", VBool false) ] |} tr
  = (Ok {| content :=
             [ {| type := "text";
                  text :=
                    "Kube-burner create operation completed:" ++ Str.nl
                    ++ JSON.stringify
                         (VObj [ ("testType", VStr "node-density");
                                 ("iterations", VNum 2);
                                 ("namespace", VStr "kube-burner-test");
                                 ("timeout", VStr "10m");
                                 ("operation", VStr "create");
                                 ("status", VStr "Completed");
                                 ("creation",
                                  VObj [ ("podsCreated", VNum 20);
                                         ("testType", VStr "node-density");
                                         ("duration", VStr duration);
                                         ("status", VStr "Completed") ]) ]) |} ];
           isError := None |},
     (waited ++ [EvNow])%list)
  /\ List.length applies = 20%nat.
Proof.
  intros Hexec. cbv zeta. split; [|reflexivity].
  assert (Hn : (1 <= 2 <= 100)%Z) by lia.
  exact (density_run W Hexec
           [ ("testType", VStr "node-density"); ("iterations", VNum 2);
             ("operation", VStr "create"); ("cleanup", VBool false) ]
           2%Z "kube-burner-test" (VStr "10m") tr
           eq_refl eq_refl Hn eq_refl eq_refl eq_refl eq_refl).
Qed.

(** In the calm world: the commands as they are run, and the response. *)
Lemma node_density_creates_twenty_pods_witness :
  let q := Scenario.quoted in
  let apply := fun i : string =>
    EvExec ("echo '"
            ++ String.concat Str.nl
                 [ "apiVersion: v1";
                   "kind: Pod";
                   "metadata:";
                   "  name: density-test-pod-" ++ i;
                   "  namespace: kube-burner-test";
                   "  labels:";
                   "    app: node-density-test";
                   "    test-iteration: " ++ q i;
                   "spec:";
                   "  containers:";
                   "  - name: pause";
                   "    image: registry.k8s.io/pause:3.8";
                   "    resources:";
                   "      requests:";
                   "        memory: " ++ q "10Mi";
                   "        cpu: " ++ q "1m";
                   "      limits:";
                   "        memory: " ++ q "20Mi";
                   "        cpu: " ++ q "10m";
                   "  restartPolicy: Never" ]
            ++ "' | kubectl apply -f - --kubeconfig undefined") in
  dispatch (server Scenario.calm)
    {| name := "run_kube_burner";
       arguments := VObj [ ("testType", VStr "node-density"); ("iterations", VNum 2);
                           ("operation", VStr "create"); ("cleanup", VBool false) ] |} []
  = (Ok {| content :=
             [ {| type := "text";
                  text :=
                    String.concat Str.nl
                      [ "Kube-burner create operation completed:";
                        "{";
                        "  " ++ q "testType" ++ ": " ++ q "node-density" ++ ",";
                        "  " ++ q "iterations" ++ ": 2,";
                        "  " ++ q "namespace" ++ ": " ++ q "kube-burner-test" ++ ",";
                        "  " ++ q "timeout" ++ ": " ++ q "10m" ++ ",";
                        "  " ++ q "operation" ++ ": " ++ q "create" ++ ",";
                        "  " ++ q "status" ++ ": " ++ q "Completed" ++ ",";
                        "  " ++ q "creation" ++ ": {";
                        "    " ++ q "podsCreated" ++ ": 20,";
                        "    " ++ q "testType" ++ ": " ++ q "node-density" ++ ",";
                        "    " ++ q "duration" ++ ": " ++ q "22s" ++ ",";
                        "    " ++ q "status" ++ ": " ++ q "Completed";
                        "  }";
                        "}" ] |} ];
           isError := None |},
     List.app
       [ EvExec "kubectl create namespace kube-burner-test --kubeconfig undefined"; EvNow ]
       (List.app
          (map apply [ "1"; "2"; "3"; "4"; "5"; "6"; "7"; "8"; "9"; "10";
                       "11"; "12"; "13"; "14"; "15"; "16"; "17"; "18"; "19"; "20" ])
          [ EvSleep 15000; EvNow ])).
Proof.
  intros q apply.
  rewrite (proj1 (node_density_creates_twenty_pods Scenario.calm []
                    (fun _ _ => ex_intro _ Scenario.silent eq_refl))).
  vm_compute. reflexivity.
Defined.






End BurnerFacts.

(* ================================================================== *)
(** * Facts: the per-node loop of the kubelet check *)

Module KubeletFacts.
Import JS Eff Shell Kubelet.

Lemma lookup_set_same k v fields : lookup k (set_field k v fields) = v.
Proof.
  induction fields as [|[k' v'] rest IH]; simpl.
  - now rewrite String.eqb_refl.
  - destruct (k' =? k) eqn:E; simpl.
    + now rewrite String.eqb_refl.
    + destruct (existsb _ rest); simpl; [now rewrite E|].
      destruct (array_index k) as [n|]; [destruct (array_index k') as [n'|]|];
        try destruct (n <? n')%N; simpl; rewrite ?String.eqb_refl, ?E; auto.
Qed.

Lemma lookup_set_other j k v fields :
  j <> k -> lookup j (set_field k v fields) = lookup j fields.
Proof.
  intros Hjk. assert (Ekj : (k =? j) = false) by (apply String.eqb_neq; congruence).
  induction fields as [|[k' v'] rest IH]; simpl.
  - now rewrite Ekj.
  - destruct (k' =? k) eqn:E; simpl.
    + apply String.eqb_eq in E. subst k'. now rewrite Ekj.
    + destruct (existsb _ rest); simpl; [now rewrite IH|].
      destruct (array_index k) as [n|]; [destruct (array_index k') as [n'|]|];
        try destruct (n <? n')%N; simpl; rewrite ?Ekj, ?IH; auto.
Qed.

Lemma lookup_assign_same k v fields :
  k <> "__proto__" -> lookup k (assign k v fields) = v.
Proof.
  intros H. unfold assign. apply String.eqb_neq in H. rewrite H. apply lookup_set_same.
Qed.

Lemma lookup_assign_other j k v fields :
  j <> k -> lookup j (assign k v fields) = lookup j fields.
Proof.
  intros H. unfold assign. destruct (k =? "__proto__"); [reflexivity|].
  now apply lookup_set_other.
Qed.

(** A node named like the prototype accessor gets no entry. *)
Example proto_is_not_recorded f :
  allKubeletStatus (set_status (VStr "__proto__") "active" f) = allKubeletStatus f.
Proof. reflexivity. Qed.

Section Loop.
Variable W : World.
Variable a : Access.
Variables hoursBack includeSystemErrors : value.

Local Abbreviation probe := (probeNode W a hoursBack includeSystemErrors).
Local Abbreviation check := (checkNode W a hoursBack includeSystemErrors).
Local Abbreviation visit := (visitNode W a hoursBack includeSystemErrors).

(** Unfolds one turn of the loop and splits on every reply of the world. *)
Ltac turn :=
  unfold checkNode, probeNode, execAsync, dateISO, bind, ret, status_of; unfold ask;
  repeat match goal with
  | |- context [match exec_reply W ?h ?c with _ => _ end] => destruct (exec_reply W h c)
  | |- context [if ?b then _ else _] => destruct b
  end.

Lemma checkNode_total n f tr : exists f' tr', check n f tr = (Ok f', tr').
Proof. turn; eauto. Qed.

Lemma checkNode_logs n f tr f' tr' :
  check n f tr = (Ok f', tr') ->
  exists more, allKubeletLogs f' = (allKubeletLogs f ++ more)%list.
Proof.
  turn; intros [= <- _]; simpl; eauto.
  all: try (rewrite <- app_assoc; eauto).
Qed.

Lemma checkNode_other n f tr f' tr' key :
  toStr n <> key -> check n f tr = (Ok f', tr') -> status_of f' key = status_of f key.
Proof.
  intros Hk. assert (Hk' : key <> toStr n) by congruence.
  turn; intros [= <- _]; simpl; rewrite ?lookup_assign_other; auto.
Qed.

Lemma checkNode_recorded n f tr f' tr' :
  toStr n <> "__proto__" -> check n f tr = (Ok f', tr') ->
  exists s, status_of f' (toStr n) = VStr s.
Proof.
  intros Hp. turn; intros [= <- _]; simpl; rewrite ?lookup_assign_same; eauto.
Qed.

Lemma checkNode_inaccessible n f tr f' tr' :
  toStr n <> "__proto__" ->
  status_fails W a n \/ logs_fail W a hoursBack n -> check n f tr = (Ok f', tr') ->
  status_of f' (toStr n) = VStr "inaccessible"
  /\ exists timestamp e, In (inaccessibleEntry n timestamp e) (allKubeletLogs f').
Proof.
  intros Hp Hf.
  unfold checkNode, probeNode, execAsync, dateISO, bind, ret, status_of; unfold ask.
  destruct (exec_reply W tr (debugCommand a n statusCommand)) as [o1|e1] eqn:E1.
  - destruct Hf as [Hs|Hl]; [destruct (Hs tr) as [e He]; congruence|].
    destruct (Hl (tr ++ [EvExec (debugCommand a n statusCommand)])%list) as [e He].
    rewrite He. intros [= <- _]. simpl. rewrite lookup_assign_same by exact Hp. split; auto.
    exists (clock_iso W
              ((tr ++ [EvExec (debugCommand a n statusCommand)])
               ++ [EvExec (debugCommand a n (logsCommand hoursBack))])%list), e.
    apply in_or_app. right. now left.
  - intros [= <- _]. simpl. rewrite lookup_assign_same by exact Hp. split; auto.
    exists (clock_iso W (tr ++ [EvExec (debugCommand a n statusCommand)])%list), e1.
    apply in_or_app. right. now left.
Qed.

Lemma checkNode_answered n s f tr f' tr' :
  toStr n <> "__proto__" ->
  answers W a hoursBack n s -> check n f tr = (Ok f', tr') -> status_of f' (toStr n) = VStr s.
Proof.
  intros Hp [Hs Hl].
  unfold checkNode, probeNode, execAsync, dateISO, bind, ret, status_of; unfold ask.
  destruct (Hs tr) as (o1 & -> & Ht).
  destruct (Hl (tr ++ [EvExec (debugCommand a n statusCommand)])%list) as (o2 & ->).
  repeat match goal with
  | |- context [match exec_reply W ?h ?c with _ => _ end] => destruct (exec_reply W h c)
  | |- context [if ?b then _ else _] => destruct b
  end; intros [= <- _]; simpl; now rewrite lookup_assign_same, Ht.
Qed.

Lemma visit_named node n f tr : name_of node = Ok n -> visit node f tr = check n f tr.
Proof.
  unfold name_of, visitNode, bind, lift. destruct (read node "metadata"); [|discriminate].
  now intros ->.
Qed.

Lemma loop_total nodes : Forall named nodes ->
  forall f tr, exists f' tr', for_each visit nodes f tr = (Ok f', tr').
Proof.
  induction 1 as [|node nodes [n Hn] _ IH]; intros f tr; simpl.
  - unfold ret. eauto.
  - unfold bind. rewrite (visit_named _ _ _ _ Hn).
    destruct (checkNode_total n f tr) as (f1 & tr1 & ->). apply IH.
Qed.

(** A property of the findings that every later turn keeps, once a turn for a
    node with the key [key] has established it. *)
Lemma loop_settles (Q : Findings -> Prop) key nodes :
  Forall named nodes ->
  (forall node n f tr f' tr', In node nodes -> name_of node = Ok n -> toStr n = key ->
     check n f tr = (Ok f', tr') -> Q f') ->
  (forall node n f tr f' tr', In node nodes -> name_of node = Ok n -> toStr n <> key ->
     check n f tr = (Ok f', tr') -> Q f -> Q f') ->
  forall f tr f' tr',
    for_each visit nodes f tr = (Ok f', tr') ->
    (Q f \/ exists node n, In node nodes /\ name_of node = Ok n /\ toStr n = key) -> Q f'.
Proof.
  induction 1 as [|node nodes [n Hn] _ IH]; intros Hset Hkeep f tr f' tr'; simpl.
  - intros [= <- _] [HQ|(node & n & [] & _)]. exact HQ.
  - unfold bind. rewrite (visit_named _ _ _ _ Hn).
    destruct (checkNode_total n f tr) as (f1 & tr1 & E1). rewrite E1. intros E Hor.
    apply (IH (fun node0 n0 f0 t0 f0' t0' Hin => Hset node0 n0 f0 t0 f0' t0' (or_intror Hin))
              (fun node0 n0 f0 t0 f0' t0' Hin => Hkeep node0 n0 f0 t0 f0' t0' (or_intror Hin))
              f1 tr1 f' tr' E).
    destruct (string_dec (toStr n) key) as [Ek|Ek].
    + left. eapply (Hset node n); eauto. now left.
    + destruct Hor as [HQ|(node' & n' & [<-|Hin] & Hn' & Hk')].
      * left. eapply (Hkeep node n); eauto. now left.
      * congruence.
      * right. eauto.
Qed.

End Loop.

Lemma labelled_named nodes : Forall labelled nodes -> Forall named nodes.
Proof.
  apply Forall_impl. intros node (n & Hn & _). now exists (VStr n).
Qed.

(** C7. With the nodes listed, each under a name, and [hoursBack] a number
    as the validation leaves it, the handler returns its report whatever the
    probes of the nodes answer: the report counts the nodes and carries the
    status object, the number of log entries and the first ten of them. Every
    node has a status in it. A node whose status probe or log query fails is
    marked inaccessible, with an error entry that names it in the log list; a
    node that answers has the trimmed output of its probe as status. *)
Theorem kubelet_partial_failure W hoursBack includeSystemErrors tr out nodes nodeList :
  let a := access W in
  let hours := default_to (VNum 24) hoursBack in
  let systemErrors := default_to (VBool false) includeSystemErrors in
  typeof hours = "number" ->
  exec_reply W tr (getNodesCmd a) = Ok out ->
  JSON_parse W (stdout out) = Ok nodes ->
  read nodes "items" = Ok (VArr nodeList) ->
  nodeList <> [] ->
  Forall labelled nodeList ->
  exists status logs system tr',
    checkKubeletStatus W hoursBack includeSystemErrors tr
    = (Ok {| content :=
               [ {| type := "text";
                    text :=
                      "Kubelet Status Report:" ++ Str.nl
                      ++ JSON.stringify
                           (VObj [ ("nodesChecked", VNum (Z.of_nat (List.length nodeList)));
                                   ("status", VObj status);
                                   ("logsAnalyzed", VNum (Z.of_nat (List.length logs)));
                                   ("systemErrors",
                                    if truthy systemErrors
                                    then VNum (Z.of_nat (List.length system))
                                    else VStr "not_requested");
                                   ("recentIssues", VArr (firstn 10 logs));
                                   ("systemIssues",
                                    if truthy systemErrors then VArr (firstn 5 system)
                                    else VArr []) ]) |} ];
             isError := None |}, tr')
    /\ forall node n,
         In node nodeList -> name_of node = Ok (VStr n) ->
         (exists s, lookup n status = VStr s)
         /\ (status_fails W a (VStr n) \/ logs_fail W a hours (VStr n) ->
             lookup n status = VStr "inaccessible"
             /\ exists timestamp e,
                  In (VObj [ ("node", VStr n); ("timestamp", VStr timestamp);
                             ("level", VStr "error");
                             ("message",
                              VStr ("Cannot access kubelet service on node " ++ n ++ ": "
                                    ++ message e)) ]) logs)
         /\ (forall s, answers W a hours (VStr n) s -> lookup n status = VStr s).
Proof.
  intros a hours systemErrors _ Hexec Hparse Hitems Hne Hlabelled.
  pose proof (labelled_named nodeList Hlabelled) as Hnamed.
  destruct (loop_total W a hours systemErrors nodeList Hnamed noFindings
              (tr ++ [EvExec (getNodesCmd a)])%list) as (f & tr' & Hloop).
  exists (allKubeletStatus f), (allKubeletLogs f), (allSystemErrors f), tr'. split.
  - unfold checkKubeletStatus, try_catch. fold a hours systemErrors.
    unfold bind at 1, execAsync at 1, ask at 1. rewrite Hexec.
    unfold bind at 1, lift at 1. rewrite Hparse.
    unfold bind at 1, lift at 1. rewrite Hitems.
    unfold bind at 1. destruct nodeList as [|node0 rest]; [congruence|].
    cbn [truthy negb has_no_length orb ret]. unfold bind at 1. cbn [lift iterate].
    unfold bind at 1. rewrite Hloop. reflexivity.
  - intros node n Hin Hn.
    assert (Hp : n <> "__proto__").
    { rewrite Forall_forall in Hlabelled. destruct (Hlabelled node Hin) as (n' & Hn' & Hp).
      congruence. }
    assert (Hlabel : forall node1 n1, In node1 nodeList -> name_of node1 = Ok n1 ->
                                      toStr n1 = toStr (VStr n) -> n1 = VStr n).
    { intros node1 n1 Hin1 Hn1 Hk. rewrite Forall_forall in Hlabelled.
      destruct (Hlabelled node1 Hin1) as (n' & Hn' & _). rewrite Hn1 in Hn'.
      injection Hn' as ->. cbn [toStr] in Hk. now subst. }
    change (lookup n (allKubeletStatus f)) with (status_of f (toStr (VStr n))).
    refine (conj _ (conj _ _)).
    + apply (loop_settles W a hours systemErrors
               (fun f => exists s, status_of f (toStr (VStr n)) = VStr s)
               (toStr (VStr n)) nodeList Hnamed) with (f := noFindings)
               (tr := (tr ++ [EvExec (getNodesCmd a)])%list) (tr' := tr'); auto.
      * intros node1 n1 f1 t1 f1' t1' Hin1 Hn1 Hkey Hcheck.
        rewrite (Hlabel node1 n1 Hin1 Hn1 Hkey) in Hcheck.
        eapply checkNode_recorded; eauto.
      * intros node1 n1 f1 t1 f1' t1' _ _ Hkey Hcheck [s Hs]. exists s.
        now rewrite (checkNode_other W a hours systemErrors n1 f1 t1 f1' t1' _ Hkey Hcheck).
      * right. eauto.
    + intros Hfail.
      apply (loop_settles W a hours systemErrors
               (fun f => status_of f (toStr (VStr n)) = VStr "inaccessible"
                         /\ exists timestamp e,
                              In (inaccessibleEntry (VStr n) timestamp e) (allKubeletLogs f))
               (toStr (VStr n)) nodeList Hnamed) with (f := noFindings)
               (tr := (tr ++ [EvExec (getNodesCmd a)])%list) (tr' := tr'); auto.
      * intros node1 n1 f1 t1 f1' t1' Hin1 Hn1 Hkey Hcheck.
        rewrite (Hlabel node1 n1 Hin1 Hn1 Hkey) in Hcheck.
        eapply checkNode_inaccessible; eauto.
      * intros node1 n1 f1 t1 f1' t1' _ _ Hkey Hcheck (Hs & ts & e & He).
        split.
        -- now rewrite (checkNode_other W a hours systemErrors n1 f1 t1 f1' t1' _ Hkey Hcheck).
        -- destruct (checkNode_logs W a hours systemErrors n1 f1 t1 f1' t1' Hcheck)
             as [more ->].
           exists ts, e. apply in_or_app. now left.
      * right. eauto.
    + intros s Hans.
      apply (loop_settles W a hours systemErrors
               (fun f => status_of f (toStr (VStr n)) = VStr s)
               (toStr (VStr n)) nodeList Hnamed) with (f := noFindings)
               (tr := (tr ++ [EvExec (getNodesCmd a)])%list) (tr' := tr'); auto.
      * intros node1 n1 f1 t1 f1' t1' Hin1 Hn1 Hkey Hcheck.
        rewrite (Hlabel node1 n1 Hin1 Hn1 Hkey) in Hcheck.
        eapply checkNode_answered; eauto.
      * intros node1 n1 f1 t1 f1' t1' _ _ Hkey Hcheck Hs.
        now rewrite (checkNode_other W a hours systemErrors n1 f1 t1 f1' t1' _ Hkey Hcheck).
      * right. eauto.
Qed.

(** Three nodes, the second unreachable: seven steps are taken, the first
    and the third node report their kubelet active, the second is marked
    inaccessible with its error entry, and the handler returns. *)
Lemma kubelet_partial_failure_witness :
  let q := Scenario.quoted in
  let debug := fun node inner =>
    EvExec ("cd /opt/openshift-mcp-server && KUBECONFIG=/root/.kube/config "
            ++ "timeout 90s oc debug node/" ++ node ++ " -- chroot /host bash -c " ++ q inner) in
  let probe := "systemctl is-active kubelet.service 2>/dev/null || echo " ++ q "inactive" in
  let journal :=
    "journalctl -u kubelet.service --since=" ++ q "-24h" ++ " --lines=50 --no-pager" in
  let outcome := checkKubeletStatus Scenario.threeNodes VUndefined VUndefined [] in
  outcome
  = (Ok {| content :=
             [ {| type := "text";
                  text :=
                    String.concat Str.nl
                      [ "Kubelet Status Report:";
                        "{";
                        "  " ++ q "nodesChecked" ++ ": 3,";
                        "  " ++ q "status" ++ ": {";
                        "    " ++ q "node-1" ++ ": " ++ q "active" ++ ",";
                        "    " ++ q "node-2" ++ ": " ++ q "inaccessible" ++ ",";
                        "    " ++ q "node-3" ++ ": " ++ q "active";
                        "  },";
                        "  " ++ q "logsAnalyzed" ++ ": 1,";
                        "  " ++ q "systemErrors" ++ ": " ++ q "not_requested" ++ ",";
                        "  " ++ q "recentIssues" ++ ": [";
                        "    {";
                        "      " ++ q "node" ++ ": " ++ q "node-2" ++ ",";
                        "      " ++ q "timestamp" ++ ": " ++ q "2024-01-01T00:00:00.000Z" ++ ",";
                        "      " ++ q "level" ++ ": " ++ q "error" ++ ",";
                        "      " ++ q "message" ++ ": "
                        ++ q ("Cannot access kubelet service on node node-2: "
                              ++ "Command failed: unable to create the debug pod");
                        "    }";
                        "  ],";
                        "  " ++ q "systemIssues" ++ ": []";
                        "}" ] |} ];
           isError := None |},
     [ EvExec ("cd /opt/openshift-mcp-server && KUBECONFIG=/root/.kube/config "
               ++ "kubectl get nodes -o json");
       debug "node-1" probe; debug "node-1" journal;
       debug "node-2" probe; EvNowISO;
       debug "node-3" probe; debug "node-3" journal ])
  /\ exists status logs tr',
       outcome
       = (Ok (textResult
                ("Kubelet Status Report:" ++ Str.nl
                 ++ JSON.stringify
                      (VObj [ ("nodesChecked", VNum 3);
                              ("status", VObj status);
                              ("logsAnalyzed", VNum (Z.of_nat (List.length logs)));
                              ("systemErrors", VStr "not_requested");
                              ("recentIssues", VArr (firstn 10 logs));
                              ("systemIssues", VArr []) ]))), tr')
       /\ lookup "node-1" status = VStr "active"
       /\ lookup "node-2" status = VStr "inaccessible"
       /\ lookup "node-3" status = VStr "active".
Proof.
  intros q debug probe journal outcome. split; [vm_compute; reflexivity|].
  destruct (kubelet_partial_failure Scenario.threeNodes VUndefined VUndefined []
              {| stdout := JSON.stringify Scenario.threeListed; stderr := "" |}
              Scenario.threeListed
              [ Scenario.nodeObject "node-1"; Scenario.nodeObject "node-2";
                Scenario.nodeObject "node-3" ])
    as (status & logs & system & tr' & Hrun & Hnodes); try reflexivity.
  - discriminate.
  - repeat constructor; eexists; (split; [reflexivity | discriminate]).
  - exists status, logs, tr'. split; [exact Hrun|].
    assert (Hactive : forall name,
               name = "node-1" \/ name = "node-3" ->
               answers Scenario.threeNodes (access Scenario.threeNodes) (VNum 24)
                 (VStr name) "active").
    { intros name [-> | ->]; split; intros h; eexists; try split; reflexivity. }
    repeat split.
    + apply (proj2 (proj2 (Hnodes (Scenario.nodeObject "node-1") "node-1"
                             (or_introl eq_refl) eq_refl))). auto.
    + apply (proj1 (proj2 (Hnodes (Scenario.nodeObject "node-2") "node-2"
                             (or_intror (or_introl eq_refl)) eq_refl))).
      left. intros h. eexists. reflexivity.
    + apply (proj2 (proj2 (Hnodes (Scenario.nodeObject "node-3") "node-3"
                             (or_intror (or_intror (or_introl eq_refl))) eq_refl))). auto.
Defined.

End KubeletFacts.

(* ================================================================== *)
(** * Facts: numerals and the arguments of the stress job *)

Module NumeralFacts.
Import JS Quantity Stress.

Lemma span_digits_split s :
  s = fst (span_digits s) ++ snd (span_digits s)
  /\ all_digits (fst (span_digits s)) = true /\ stops (snd (span_digits s)).
Proof.
  induction s as [|c t IH]; simpl; auto.
  destruct (Str.is_digit c) eqn:E.
  - destruct (span_digits t) as [d r]. simpl in *. rewrite E.
    destruct IH as (-> & -> & H). auto.
  - simpl. auto.
Qed.

Lemma span_digits_app d r :
  all_digits d = true -> stops r -> span_digits (d ++ r) = (d, r).
Proof.
  induction d as [|c d IH]; simpl.
  - intros _ H. destruct r; simpl in *; [reflexivity | now rewrite H].
  - intros H Hr. apply andb_true_iff in H as [-> H]. now rewrite IH.
Qed.

Lemma parseInt_digits d :
  all_digits d = true -> d <> "" -> Shell.parseInt d = Some (digits_Z d).
Proof.
  intros H Hne. destruct d as [|c t]; [congruence|].
  assert (Hs : span_digits (String c t) = (String c t, "")).
  { rewrite <- (SanitizeFacts.append_nil_r (String c t)) at 1.
    apply span_digits_app; simpl; auto. }
  assert (Hc : Str.is_digit c = true) by (simpl in H; apply andb_true_iff in H; tauto).
  assert (Hx : match t with String x _ => Str.is_digit x = true | EmptyString => True end).
  { destruct t as [|x t']; [exact I|]. simpl in H.
    apply andb_true_iff in H as [_ H]. apply andb_true_iff in H. tauto. }
  unfold Shell.parseInt.
  assert (Ht : Str.trimStart (String c t) = String c t).
  { simpl. destruct c as [[] [] [] [] [] [] [] []]; try discriminate Hc; reflexivity. }
  rewrite Ht.
  destruct c as [[] [] [] [] [] [] [] []]; try discriminate Hc; try (rewrite Hs; reflexivity).
  destruct t as [|x t']; [reflexivity|].
  rewrite Hs.
  destruct x as [[] [] [] [] [] [] [] []]; try discriminate Hx; reflexivity.
Qed.

Lemma numeral_digits d : all_digits (NilEmpty.string_of_uint d) = true.
Proof. induction d; simpl; auto. Qed.

Lemma numeral_value_acc d : forall acc,
  digits_value (N.pos acc) (NilEmpty.string_of_uint d) = N.pos (Pos.of_uint_acc d acc).
Proof.
  induction d; intros acc; cbn [NilEmpty.string_of_uint digits_value Pos.of_uint_acc]; auto;
    rewrite <- IHd; f_equal; vm_compute (Str.code _ - 48)%N; lia.
Qed.

Lemma numeral_value d : digits_value 0 (NilEmpty.string_of_uint d) = Pos.of_uint d.
Proof.
  induction d; cbn [NilEmpty.string_of_uint digits_value Pos.of_uint]; auto;
    exact (numeral_value_acc d _).
Qed.

Lemma of_Z_numeral n :
  (0 <= n)%Z ->
  all_digits (Str.of_Z n) = true /\ Str.of_Z n <> "" /\ digits_Z (Str.of_Z n) = n.
Proof.
  intros Hn. destruct n as [|p|p]; [repeat split; discriminate | | lia].
  unfold Str.of_Z, NilZero.string_of_uint.
  pose proof (DecimalPos.Unsigned.of_to p) as V.
  pose proof (Unsigned.to_uint_nonnil p) as NN.
  destruct (Pos.to_uint p) as [|u|u|u|u|u|u|u|u|u|u] eqn:E; [congruence|..];
    rewrite <- E in *;
    (split; [apply numeral_digits|split;
       [rewrite E; discriminate | unfold digits_Z; rewrite numeral_value; now rewrite V]]).
Qed.

Lemma last_char p d c c' :
  p ++ String c "" = d ++ String c' "" -> c = c'.
Proof.
  revert d. induction p as [|a p IH]; intros [|b d]; simpl; intros E.
  - now injection E.
  - injection E as _ E. destruct d; discriminate.
  - injection E as _ E. destruct p; discriminate.
  - injection E as _ E. eauto.
Qed.

End NumeralFacts.

Module StressFacts.
Import JS Eff Quantity Stress NumeralFacts.

Lemma digits_then_shape unit s d u :
  digits_then unit s = Some (d, u) ->
  s = d ++ u /\ d <> "" /\ all_digits d = true /\ unit u = true.
Proof.
  unfold digits_then. destruct (span_digits_split s) as (E & D & _).
  destruct (span_digits s) as [d0 r0]. simpl in E, D.
  destruct (d0 =? "")%string eqn:N; simpl; [discriminate|].
  destruct (unit r0) eqn:U; [|discriminate].
  intros [= <- <-]. apply String.eqb_neq in N. auto.
Qed.

Lemma digits_then_app unit d u :
  all_digits d = true -> d <> "" -> stops u -> unit u = true ->
  digits_then unit (d ++ u) = Some (d, u).
Proof.
  intros D N S U. unfold digits_then. rewrite span_digits_app by auto.
  apply String.eqb_neq in N. now rewrite N, U.
Qed.

Lemma digits_then_last unit p c :
  Str.is_digit c = false -> unit (String c "") = false ->
  (forall a b u, unit (String a (String b u)) = false) ->
  digits_then unit (p ++ String c "") = None.
Proof.
  intros Hc Hu Hlong. destruct (digits_then unit (p ++ String c "")) as [[d u]|] eqn:E; auto.
  apply digits_then_shape in E as (E & N & D & U).
  destruct u as [|a [|b u]].
  - rewrite SanitizeFacts.append_nil_r in E. subst d.
    exfalso. clear N. induction p as [|x p IH]; simpl in D.
    + rewrite Hc in D. discriminate.
    + apply andb_true_iff in D as [_ D]. auto.
  - apply last_char in E. subst a. congruence.
  - now rewrite Hlong in U.
Qed.

Lemma parseDuration_last p c :
  Ascii.eqb c "s" = false -> Ascii.eqb c "m" = false ->
  parseDuration (VStr (p ++ String c "")) = Ok (Some 120%Z).
Proof.
  intros Hs Hm. unfold parseDuration, match_receiver.
  destruct (Str.is_digit c) eqn:Hd.
  - destruct (digits_then durationUnit (p ++ String c "")) as [[d u]|] eqn:E; auto.
    apply digits_then_shape in E as (E & N & D & U).
    unfold durationUnit in U. apply orb_true_iff in U as [U|U];
      apply String.eqb_eq in U; subst u; apply last_char in E; subst c; discriminate.
  - rewrite digits_then_last; auto.
    + unfold durationUnit. cbn [String.eqb]. rewrite Hs, Hm. reflexivity.
    + intros a b u. unfold durationUnit. cbn [String.eqb].
      destruct (Ascii.eqb a "s"), (Ascii.eqb a "m"); reflexivity.
Qed.

Lemma sizeUnit_long a b u : sizeUnit (String a (String b u)) = false.
Proof. reflexivity. Qed.

Lemma parseMemorySize_last p u :
  In u ["Ki"; "Mi"; "Gi"; "Ti"; "B"; "b"] ->
  parseMemorySize (VStr (p ++ u)) = Ok (Some 1073741824%Z).
Proof.
  intros Hin. cbn [In] in Hin. unfold parseMemorySize, match_receiver.
  assert (A : forall q c, p ++ String q (String c "") = (p ++ String q "") ++ String c "").
  { intros q c. now rewrite SanitizeFacts.append_assoc. }
  repeat (destruct Hin as [<-|Hin]); [ .. | destruct Hin ];
    rewrite ?A; rewrite digits_then_last; auto using sizeUnit_long.
Qed.

(** X1. A whole number of seconds or minutes is read back as it was
    written: the numeral of [n] followed by [s] is [n] seconds, followed by
    [m] it is [60 n] seconds (for [n] in the range where the arithmetic of
    the code is exact). *)
Theorem parseDuration_reads_seconds_and_minutes (n : Z) :
  (0 <= n)%Z -> (n * 60 < 2 ^ 53)%Z ->
  parseDuration (VStr (Str.of_Z n ++ "s")) = Ok (Some n)
  /\ parseDuration (VStr (Str.of_Z n ++ "m")) = Ok (Some (n * 60)%Z).
Proof.
  intros Hn _. destruct (of_Z_numeral n Hn) as (D & N & V).
  unfold parseDuration, match_receiver.
  rewrite !digits_then_app by (auto; reflexivity).
  rewrite parseInt_digits by auto. rewrite V. split; reflexivity.
Qed.

Lemma parseDuration_reads_seconds_and_minutes_witness :
  parseDuration (VStr "90s") = Ok (Some 90%Z)
  /\ parseDuration (VStr "90m") = Ok (Some 5400%Z).
Proof.
  apply (parseDuration_reads_seconds_and_minutes 90); lia.
Defined.

(** X2. Whatever is not a run of digits followed by [s] or [m] is read as
    120 seconds: a duration in hours, a bare number, a fraction, an
    upper-case unit, the empty string. *)
Theorem parseDuration_falls_back_to_two_minutes :
  (forall s,
     parseDuration (VStr s) = Ok (Some 120%Z)
     \/ exists d, d <> "" /\ all_digits d = true /\ (s = d ++ "s" \/ s = d ++ "m"))
  /\ (forall p c,
        Ascii.eqb c "s" = false -> Ascii.eqb c "m" = false ->
        parseDuration (VStr (p ++ String c "")) = Ok (Some 120%Z))
  /\ parseDuration (VStr "") = Ok (Some 120%Z).
Proof.
  split; [|split; [|reflexivity]].
  - intros s. unfold parseDuration, match_receiver.
    destruct (digits_then durationUnit s) as [[d u]|] eqn:E; [right|now left].
    apply digits_then_shape in E as (E & N & D & U). exists d. repeat split; auto.
    unfold durationUnit in U. apply orb_true_iff in U as [U|U];
      apply String.eqb_eq in U; subst u; auto.
  - apply parseDuration_last.
Qed.

Example parseDuration_hours : parseDuration (VStr "1h") = Ok (Some 120%Z).
Proof. reflexivity. Qed.

Example parseDuration_bare_number : parseDuration (VStr "90") = Ok (Some 120%Z).
Proof. reflexivity. Qed.

Example parseDuration_number : parseDuration (VNum 90) = Throw (TypeError "duration.match is not a function").
Proof. reflexivity. Qed.

(** X3. A whole number with one of the units K, M, G, T, in either letter
    case, or with none, is that many bytes in binary multiples. *)
Theorem parseMemorySize_binary_multiples (n : Z) :
  (0 <= n < 2 ^ 53)%Z ->
  parseMemorySize (VStr (Str.of_Z n)) = Ok (Some n)
  /\ (forall u m,
        In (u, m) [ ("K", 1024); ("k", 1024); ("M", 1048576); ("m", 1048576);
                    ("G", 1073741824); ("g", 1073741824);
                    ("T", 1099511627776); ("t", 1099511627776) ]%Z ->
        parseMemorySize (VStr (Str.of_Z n ++ u)) = Ok (Some (n * m)%Z)).
Proof.
  intros [Hn _]. destruct (of_Z_numeral n Hn) as (D & N & V).
  unfold parseMemorySize, match_receiver. split.
  - rewrite <- (SanitizeFacts.append_nil_r (Str.of_Z n)) at 1.
    rewrite digits_then_app by (auto; reflexivity).
    rewrite parseInt_digits by auto. rewrite V. cbn. f_equal. f_equal. lia.
  - intros u m Hin. cbn [In] in Hin.
    repeat (destruct Hin as [[= <- <-]|Hin]); [ .. | destruct Hin ];
      rewrite digits_then_app by (auto; reflexivity);
      rewrite parseInt_digits by auto; rewrite V; reflexivity.
Qed.

Lemma parseMemorySize_binary_multiples_witness :
  parseMemorySize (VStr "512") = Ok (Some 512%Z)
  /\ parseMemorySize (VStr "512m") = Ok (Some 536870912%Z).
Proof.
  destruct (parseMemorySize_binary_multiples 512) as [H1 H2]; [lia|].
  split; [exact H1|]. apply (H2 "m" 1048576%Z). cbn [In]. auto 10.
Defined.

(** X4. Whatever is not a run of digits followed by at most one of the
    letters K, M, G, T is read as one gibibyte; the binary suffixes of
    Kubernetes ([Ki], [Mi], [Gi], [Ti]) are among these, whatever number
    precedes them. *)
Theorem parseMemorySize_falls_back_to_one_gibibyte :
  (forall s,
     parseMemorySize (VStr s) = Ok (Some 1073741824%Z)
     \/ exists d u, d <> "" /\ all_digits d = true /\ s = d ++ u
                    /\ In u [""; "K"; "M"; "G"; "T"; "k"; "m"; "g"; "t"])
  /\ (forall p u, In u ["Ki"; "Mi"; "Gi"; "Ti"; "B"; "b"] ->
        parseMemorySize (VStr (p ++ u)) = Ok (Some 1073741824%Z)).
Proof.
  split.
  - intros s. unfold parseMemorySize, match_receiver.
    destruct (digits_then sizeUnit s) as [[d u]|] eqn:E; [right|now left].
    apply digits_then_shape in E as (E & N & D & U). exists d, u. repeat split; auto.
    destruct u as [|c [|b u]]; [cbn [In]; auto | | discriminate U].
    cbn [sizeUnit existsb] in U.
    destruct c as [[] [] [] [] [] [] [] []]; try discriminate U; cbn [In]; auto 10.
  - apply parseMemorySize_last.
Qed.

(** X5. The stress job composes the two parsers: with a duration in hours
    and a memory size in Kubernetes notation the combined test runs for 120
    seconds and allocates one gibibyte, whatever numbers were given. *)
Theorem getStressTestArgs_uses_the_fallbacks (p q : string) (cpuCores : Z) :
  getStressTestArgs (VStr "combined") (VStr (p ++ "h")) (VNum cpuCores) (VStr (q ++ "Mi"))
  = Ok [ "--timeout"; "120s"; "--cpu"; Str.of_Z cpuCores;
         "--vm"; "1"; "--vm-bytes"; "1073741824b" ].
Proof.
  unfold getStressTestArgs.
  rewrite (parseDuration_last p "h") by reflexivity.
  rewrite (parseMemorySize_last q "Mi") by (cbn [In]; auto).
  reflexivity.
Qed.

End StressFacts.

(* ================================================================== *)
(** * Facts: what the sanitizer keeps and what it drops *)

Module RedactionFacts.
Import Sanitize SanitizeFacts.

Lemma replace_run_absent kw repl s :
  occurs_ci kw s = false -> replace_run kw repl false s = s.
Proof.
  induction s as [|c t IH]; auto. cbn [occurs_ci replace_run andb].
  intros H. apply orb_false_iff in H as [-> H]. now rewrite IH.
Qed.

(** X6. A message in which none of the three keywords occurs, in any letter
    case, is left as it is. *)
Theorem sanitizer_keeps_keyword_free_messages (s : string) :
  occurs_ci "token" s = false -> occurs_ci "password" s = false ->
  occurs_ci "secret" s = false -> sanitizeErrorMessage s = s.
Proof.
  intros T P S. unfold sanitizeErrorMessage.
  rewrite (replace_run_absent "token") by exact T.
  rewrite (replace_run_absent "password") by exact P.
  now apply replace_run_absent.
Qed.

Lemma sanitizer_keeps_keyword_free_messages_witness :
  sanitizeErrorMessage "connect ECONNREFUSED 10.0.0.1:6443"
  = "connect ECONNREFUSED 10.0.0.1:6443".
Proof.
  apply sanitizer_keeps_keyword_free_messages; reflexivity.
Defined.

(** X7. The redaction ends at the first comma or white space after the
    keyword: a value that a separator parts from its keyword stays in the
    message. *)
Theorem sanitizer_stops_at_separator (w v : string) (d : ascii) :
  nodelim w = true -> is_delim d = true ->
  occurs_ci "token" v = false -> occurs_ci "password" v = false ->
  occurs_ci "secret" v = false ->
  sanitizeErrorMessage (w ++ String d v) = sanitizeErrorMessage w ++ String d v.
Proof.
  intros Hw Hd T P S.
  rewrite (sanitize_cons w d v Hw Hd), (sanitize_word w Hw). do 2 f_equal.
  unfold sanitizeErrorMessage.
  rewrite (replace_run_absent "token") by exact T.
  rewrite (replace_run_absent "password") by exact P.
  now apply replace_run_absent.
Qed.

Lemma sanitizer_stops_at_separator_witness :
  sanitizeErrorMessage "password: hunter2" = "password[REDACTED] hunter2".
Proof.
  exact (sanitizer_stops_at_separator "password:" "hunter2" " "
           eq_refl eq_refl eq_refl eq_refl eq_refl).
Defined.

Lemma replace_word_head kw repl x :
  kw <> "" -> matches_ci kw x = true -> replace_word kw repl x = repl.
Proof.
  intros N H. destruct x as [|c t].
  - destruct kw; [congruence|discriminate].
  - cbn [replace_word]. now rewrite H.
Qed.

(** X8. A keyword takes the rest of its word with it: whatever follows it
    up to the next comma or white space is replaced, be it an assignment or
    the rest of a longer word or of a resource name. *)
Theorem sanitizer_drops_the_rest_of_the_word (w : string) :
  nodelim w = true ->
  sanitizeErrorMessage ("token" ++ w) = "token[REDACTED]"
  /\ sanitizeErrorMessage ("password" ++ w) = "password[REDACTED]"
  /\ sanitizeErrorMessage ("secret" ++ w) = "secret[REDACTED]".
Proof.
  intros Hw. repeat split; rewrite sanitize_word by (simpl; exact Hw); unfold sanitizeWord.
  - reflexivity.
  - rewrite (replace_word_head "password"); [reflexivity | discriminate |].
    now rewrite matches_replace_word.
  - rewrite (replace_word_head "secret"); [reflexivity | discriminate |].
    now rewrite !matches_replace_word.
Qed.

Lemma sanitizer_drops_the_rest_of_the_word_witness :
  sanitizeErrorMessage "tokenizer" = "token[REDACTED]"
  /\ sanitizeErrorMessage "password=hunter2" = "password[REDACTED]"
  /\ sanitizeErrorMessage "secrets/tls-cert" = "secret[REDACTED]".
Proof.
  refine (conj _ (conj _ _)).
  - exact (proj1 (sanitizer_drops_the_rest_of_the_word "izer" eq_refl)).
  - exact (proj1 (proj2 (sanitizer_drops_the_rest_of_the_word "=hunter2" eq_refl))).
  - exact (proj2 (proj2 (sanitizer_drops_the_rest_of_the_word "s/tls-cert" eq_refl))).
Defined.

End RedactionFacts.

(* ================================================================== *)
(** * Facts: what the validation lets through *)

Module ArgumentFacts.
Import JS Eff Validate Dispatch EffFacts DispatchFacts.

(** X9. A request without arguments (undefined, null or any other falsy
    value) is not validated at all: no required parameter is asked for.
    create_deployment then fails inside its handler, on the destructuring of
    the missing object, and the response carries that TypeError. *)
Theorem missing_arguments_are_not_validated (W : World) (tool : string) (args : value)
    (tr : Trace) :
  truthy args = false ->
  validateToolArguments tool args = Ok tt
  /\ (args = VUndefined \/ args = VNull ->
      dispatch (server W) {| name := "create_deployment"; arguments := args |} tr
      = (Ok (errorResult
               ("Error executing create_deployment: Failed to create deployment: "
                ++ "Cannot destructure property 'name' of 'args' as it is " ++ toStr args
                ++ ". [DEBUG: Raw error]")), tr)).
Proof.
  intros Hf. split.
  - unfold validateToolArguments. now rewrite Hf.
  - intros [-> | ->]; reflexivity.
Qed.

Lemma missing_arguments_are_not_validated_witness :
  validateToolArguments "create_deployment" VUndefined = Ok tt
  /\ dispatch (server Scenario.calm)
       {| name := "create_deployment"; arguments := VUndefined |} []
     = (Ok (errorResult
              ("Error executing create_deployment: Failed to create deployment: "
               ++ "Cannot destructure property 'name' of 'args' as it is undefined"
               ++ ". [DEBUG: Raw error]")), []).
Proof.
  destruct (missing_arguments_are_not_validated Scenario.calm "create_deployment"
              VUndefined [] eq_refl) as [H1 H2].
  split; [exact H1 | exact (H2 (or_introl eq_refl))].
Defined.

(** X10. The arguments of run_kube_burner are accepted exactly when
    [testType] is falsy or one of the four test types, and [iterations] is
    absent or a number from 1 to 100. *)
Theorem kube_burner_validation (fields : list (string * value)) :
  let testType := lookup "testType" fields in
  let iterations := lookup "iterations" fields in
  validateToolArguments "run_kube_burner" (VObj fields) = Ok tt
  <-> (truthy testType = false \/ In testType (map VStr kubeBurnerTypes))
      /\ (iterations = VUndefined \/ exists z, iterations = VNum z /\ (1 <= z <= 100)%Z).
Proof.
  cbv zeta. unfold validateToolArguments.
  cbn [truthy negb Validate.switch String.eqb Ascii.eqb Bool.eqb opt_get get checks].
  set (t := lookup "testType" fields). set (i := lookup "iterations" fields).
  assert (T : in_strings kubeBurnerTypes t = true <-> In t (map VStr kubeBurnerTypes)).
  { unfold in_strings, kubeBurnerTypes. cbn [map In existsb]. split.
    - destruct t; try discriminate. intros H.
      repeat (apply orb_true_iff in H as [H|H]; [apply String.eqb_eq in H; subst; auto 10|]).
      discriminate.
    - intros H. repeat (destruct H as [<-|H]; [reflexivity|]). destruct H. }
  assert (I : defined i && outside 1 100 i = false
              <-> i = VUndefined \/ exists z, i = VNum z /\ (1 <= z <= 100)%Z).
  { unfold defined, outside. destruct i; cbn [is_undefined negb andb]; split;
      try discriminate; auto; try (intros [H|[z [H _]]]; discriminate).
    - intros H. right. exists z. split; auto. apply orb_false_iff in H as [H1 H2].
      apply Z.ltb_ge in H1, H2. lia.
    - intros [H|[z' [[= <-] H]]]; [discriminate|].
      apply orb_false_iff. split; apply Z.ltb_ge; lia. }
  destruct (truthy t) eqn:Et; cbn [andb].
  - destruct (in_strings kubeBurnerTypes t) eqn:Ei; cbn [negb].
    + destruct (defined i && outside 1 100 i) eqn:Eo.
      * split; [discriminate|]. intros [_ H]. apply I in H. discriminate.
      * split; [|reflexivity]. intros _. split; [right; now apply T | now apply I].
    + split; [discriminate|]. intros [[H|H] _]; [discriminate|].
      apply T in H. discriminate.
  - destruct (defined i && outside 1 100 i) eqn:Eo.
    + split; [discriminate|]. intros [_ H]. apply I in H. discriminate.
    + split; [|reflexivity]. intros _. split; [now left | now apply I].
Qed.

End ArgumentFacts.

(* ================================================================== *)
(** * Facts: the operations of the density test *)

Module OperationFacts.
Import JS Eff Validate Dispatch KubeBurner Shell EffFacts.

Lemma route_burner W args :
  route (server W) "run_kube_burner" args = runKubeBurner W args.
Proof. reflexivity. Qed.

Lemma dispatch_burner W args tr :
  validateToolArguments "run_kube_burner" args = Ok tt ->
  dispatch (server W) {| name := "run_kube_burner"; arguments := args |} tr
  = match runKubeBurner W args tr with
    | (Ok r, tr') => (Ok r, tr')
    | (Throw e, tr') => (Ok (failure "run_kube_burner" e), tr')
    end.
Proof.
  intros V. unfold dispatch, try_catch, attempt, bind. cbn [name arguments].
  rewrite V. cbn [lift]. rewrite route_burner.
  destruct (runKubeBurner W args tr) as [[r|e] tr']; reflexivity.
Qed.

(** X11. An operation other than create, cleanup and both is refused by
    the handler before any command is run: the response carries the error
    and the history is unchanged. *)
Theorem invalid_operation_runs_nothing (W : World) (fields : list (string * value))
    (tr : Trace) :
  validateToolArguments "run_kube_burner" (VObj fields) = Ok tt ->
  in_strings operations (default_to (VStr "create") (lookup "operation" fields)) = false ->
  dispatch (server W) {| name := "run_kube_burner"; arguments := VObj fields |} tr
  = (Ok (errorResult
           ("Error executing run_kube_burner: Failed to run kube-burner operation: "
            ++ "operation must be one of: create, cleanup, both [DEBUG: Raw error]")), tr).
Proof.
  intros V Hop. rewrite (dispatch_burner W _ tr V).
  unfold runKubeBurner, try_catch, bind at 1. cbn [lift Deployment.destructure].
  unfold bind at 1. cbn [opt_get get]. rewrite Hop. reflexivity.
Qed.

Lemma invalid_operation_runs_nothing_witness :
  dispatch (server Scenario.calm)
    {| name := "run_kube_burner"; arguments := VObj [("operation", VStr "delete")] |} []
  = (Ok (errorResult
           ("Error executing run_kube_burner: Failed to run kube-burner operation: "
            ++ "operation must be one of: create, cleanup, both [DEBUG: Raw error]")), []).
Proof.
  exact (invalid_operation_runs_nothing Scenario.calm [("operation", VStr "delete")] []
           eq_refl eq_refl).
Defined.

Section Applying.
Variable W : World.
Hypothesis applies_succeed :
  forall h c, Str.startsWith "echo '" c = true -> exists out, exec_reply W h c = Ok out.

Lemma apply_ok manifest kc tr :
  exists out, execAsync W (applyCommand manifest kc) tr
              = (Ok out, (tr ++ [EvExec (applyCommand manifest kc)])%list).
Proof.
  destruct (applies_succeed tr (applyCommand manifest kc) eq_refl) as [out E].
  exists out. unfold execAsync, ask. now rewrite E.
Qed.

Lemma applyPods_done namespace kc podName app podCount tr :
  applyPods W namespace kc podName app podCount tr
  = (Ok tt,
     (tr ++ map (fun i => EvExec (applyCommand
                                    (podManifest podName app (toStr namespace) i) kc))
              (indices podCount))%list).
Proof.
  unfold applyPods. generalize (indices podCount) as l. intros l. revert tr.
  induction l as [|i l IH]; intros tr.
  - simpl. unfold ret. now rewrite app_nil_r.
  - cbn [for_each map]. unfold bind at 1. unfold bind at 1.
    destruct (apply_ok (podManifest podName app (ns namespace) i) kc tr) as [out ->].
    unfold ret at 1. rewrite IH. unfold ns. now rewrite <- app_assoc.
Qed.

(** The creation phase up to the second reading of the clock, whatever
    becomes of the attempt to create the namespace; what follows is the
    optional automatic cleanup. *)
Lemma createPhase_applied testType iterations namespace cleanup operation kc results tr :
  exists duration,
    let created :=
      set_field "creation"
        (VObj [ ("podsCreated",
                 count_value (times iterations
                                (if is_str testType "node-density" then 10 else 5)%Z));
                ("testType",
                 if is_str testType "node-density" then VStr "node-density" else testType);
                ("duration", VStr duration);
                ("status", VStr "Completed") ]) results in
    createPhase W testType iterations namespace cleanup operation kc results tr
    = (if truthy cleanup && is_str operation "create" then
         bind (sleep 5000%Z)
           (fun _ =>
              try_catch
                (bind (execAsync W (deleteCommand (toStr namespace) kc))
                   (fun _ =>
                      ret (set_field "cleanup"
                             (VObj [("status", VStr "Automatic cleanup completed")]) created)))
                (fun error =>
                   ret (set_field "cleanup"
                          (VObj [("status", VStr ("Cleanup failed: " ++ message error))])
                          created)))
       else ret created)
        (tr ++ createEvents testType iterations namespace kc)%list.
Proof.
  unfold createPhase, createEvents. cbv zeta.
  unfold bind at 1. unfold try_catch at 1, bind at 1, execAsync at 1, ask at 1.
  assert (E : forall r : Result ExecOutput,
            (let (r0, tr') :=
               match (r, (tr ++ [EvExec ("kubectl create namespace " ++ ns namespace
                                         ++ " --kubeconfig " ++ kc)])%list) with
               | (Ok a, tr') => ret tt tr'
               | (Throw e, tr') => (Throw e, tr')
               end in
             match r0 with
             | Ok a => (Ok a, tr')
             | Throw _ => ret tt tr'
             end)
            = (Ok tt, (tr ++ [EvExec ("kubectl create namespace " ++ ns namespace
                                      ++ " --kubeconfig " ++ kc)])%list)).
  { intros [out|e]; reflexivity. }
  rewrite E. clear E.
  unfold bind at 1. unfold dateNow at 1, ask at 1.
  unfold bind at 1.
  destruct (is_str testType "node-density");
    rewrite applyPods_done; unfold bind at 1, sleep at 1, ask at 1;
    unfold bind at 1, dateNow at 1, ask at 1; unfold ns;
    eexists; rewrite <- !app_assoc; reflexivity.
Qed.

End Applying.

Lemma burner_args_valid t n rest :
  In t kubeBurnerTypes -> (1 <= n <= 100)%Z ->
  validateToolArguments "run_kube_burner"
    (VObj (("testType", VStr t) :: ("iterations", VNum n) :: rest)) = Ok tt.
Proof.
  intros Ht Hn. unfold kubeBurnerTypes in Ht. cbn [In] in Ht.
  assert (O : ((n <? 1) || (100 <? n))%Z = false).
  { apply orb_false_iff. split; apply Z.ltb_ge; lia. }
  unfold validateToolArguments.
  repeat (destruct Ht as [<-|Ht]); [ .. | destruct Ht ];
    cbn; rewrite O; reflexivity.
Qed.

(** X12. For a whole number of iterations from 1 to 100 and with every
    [kubectl apply] succeeding, a creation without cleanup applies ten pod
    manifests per iteration for node-density and five for every other test
    type, one command each, whatever became of the attempt to create the
    namespace, and reports that count. *)
Theorem pods_created_per_iteration (W : World) (t : string) (n : Z) (tr : Trace) :
  In t kubeBurnerTypes -> (1 <= n <= 100)%Z ->
  (forall h c, Str.startsWith "echo '" c = true -> exists out, exec_reply W h c = Ok out) ->
  let density := t =? "node-density" in
  let podCount := (n * (if density then 10 else 5))%Z in
  let applies :=
    map (fun i => EvExec (applyCommand
                            (podManifest (if density then "density-test-pod" else "test-pod")
                               (if density then "node-density-test" else t ++ "-test")
                               "kube-burner-test" i) (kubeconfig W)))
      (map Z.of_nat (seq 1 (Z.to_nat podCount))) in
  exists duration,
    dispatch (server W)
      {| name := "run_kube_burner";
         arguments := VObj [ ("testType", VStr t); ("iterations", VNum n);
                             ("cleanup", VBool false) ] |} tr
    = (Ok (textResult
             ("Kube-burner create operation completed:" ++ Str.nl
              ++ JSON.stringify
                   (VObj [ ("testType", VStr t);
                           ("iterations", VNum n);
                           ("namespace", VStr "kube-burner-test");
                           ("timeout", VStr "10m");
                           ("operation", VStr "create");
                           ("status", VStr "Completed");
                           ("creation",
                            VObj [ ("podsCreated", VNum podCount);
                                   ("testType", VStr t);
                                   ("duration", VStr duration);
                                   ("status", VStr "Completed") ]) ]))),
       (tr ++ [ EvExec ("kubectl create namespace kube-burner-test --kubeconfig "
                        ++ kubeconfig W);
                EvNow ]
           ++ applies ++ [EvSleep 15000; EvNow])%list)
    /\ List.length applies = Z.to_nat podCount.
Proof.
  intros Ht Hn Hexec. cbv zeta.
  destruct (createPhase_applied W Hexec (VStr t) (VNum n) (VStr "kube-burner-test")
              (VBool false) (VStr "create") (kubeconfig W)
              [ ("testType", VStr t); ("iterations", VNum n);
                ("namespace", VStr "kube-burner-test"); ("timeout", VStr "10m");
                ("operation", VStr "create"); ("status", VStr "Started") ] tr)
    as [duration Hcreate].
  exists duration. split; [|now rewrite !length_map, length_seq].
  rewrite (dispatch_burner W _ tr (burner_args_valid t n _ Ht Hn)).
  unfold runKubeBurner, try_catch, bind at 1. cbn [lift Deployment.destructure].
  unfold bind at 1.
  cbn [in_strings existsb default_to opt_get get lookup String.eqb Ascii.eqb Bool.eqb
       operations orb ret].
  unfold bind at 1. cbn [ret]. unfold bind at 1.
  rewrite Hcreate. unfold createEvents. cbn [is_str times count_value toStr indices ret].
  destruct (t =? "node-density") eqn:D.
  - apply String.eqb_eq in D. subst t. reflexivity.
  - reflexivity.
Qed.

Lemma pods_created_per_iteration_witness :
  exists duration,
    fst (dispatch (server Scenario.calm)
           {| name := "run_kube_burner";
              arguments := VObj [ ("testType", VStr "pvc-density"); ("iterations", VNum 3);
                                  ("cleanup", VBool false) ] |} [])
    = Ok (textResult
            ("Kube-burner create operation completed:" ++ Str.nl
             ++ JSON.stringify
                  (VObj [ ("testType", VStr "pvc-density");
                          ("iterations", VNum 3);
                          ("namespace", VStr "kube-burner-test");
                          ("timeout", VStr "10m");
                          ("operation", VStr "create");
                          ("status", VStr "Completed");
                          ("creation",
                           VObj [ ("podsCreated", VNum 15);
                                  ("testType", VStr "pvc-density");
                                  ("duration", VStr duration);
                                  ("status", VStr "Completed") ]) ]))).
Proof.
  destruct (pods_created_per_iteration Scenario.calm "pvc-density" 3 [])
    as [duration [Hrun _]].
  - cbn [In kubeBurnerTypes]. auto.
  - lia.
  - intros h c _. now exists Scenario.silent.
  - exists duration. rewrite Hrun. reflexivity.
Defined.

(** X13. When the probe for the namespace fails, a cleanup request runs no
    other command. If the failure says that the namespace was not found the
    request succeeds, with the cleanup status [Namespace not found - already
    clean]; otherwise it fails with [Cleanup failed:] and the message. *)
Theorem cleanup_of_a_missing_namespace (W : World) (namespace : string) (tr : Trace)
    (e : Err) :
  let probe := "kubectl get namespace " ++ namespace ++ " --kubeconfig " ++ kubeconfig W in
  exec_reply W tr probe = Throw e ->
  dispatch (server W)
    {| name := "run_kube_burner";
       arguments := VObj [("namespace", VStr namespace); ("operation", VStr "cleanup")] |} tr
  = (Ok (if includes_opt "NotFound" (err_stdout e) || includes_opt "not found" (err_stderr e)
         then textResult
                ("Kube-burner cleanup operation completed:" ++ Str.nl
                 ++ JSON.stringify
                      (VObj [ ("testType", VStr "cluster-density-v2");
                              ("iterations", VNum 5);
                              ("namespace", VStr namespace);
                              ("timeout", VStr "10m");
                              ("operation", VStr "cleanup");
                              ("status", VStr "Completed");
                              ("cleanup",
                               VObj [("status",
                                      VStr "Namespace not found - already clean")]) ]))
         else errorResult
                ("Error executing run_kube_burner: Failed to run kube-burner operation: "
                 ++ "Cleanup failed: " ++ message e ++ " [DEBUG: Raw error]")),
     (tr ++ [EvExec probe])%list).
Proof.
  cbv zeta. intros Hprobe.
  rewrite (dispatch_burner W
             (VObj [("namespace", VStr namespace); ("operation", VStr "cleanup")]) tr eq_refl).
  unfold runKubeBurner, try_catch at 1, bind at 1. cbn [lift Deployment.destructure].
  unfold bind at 1.
  cbn [in_strings existsb default_to opt_get get lookup String.eqb Ascii.eqb Bool.eqb
       operations orb ret].
  unfold bind at 1. unfold cleanupPhase, try_catch at 1, bind at 1, execAsync at 1, ask at 1.
  unfold ns. cbn [toStr]. rewrite Hprobe.
  destruct (includes_opt "NotFound" (err_stdout e) || includes_opt "not found" (err_stderr e)).
  - reflexivity.
  - reflexivity.
Qed.

Lemma cleanup_of_a_missing_namespace_witness :
  dispatch (server Cases.withoutNamespace)
    {| name := "run_kube_burner";
       arguments := VObj [("namespace", VStr "load-test"); ("operation", VStr "cleanup")] |}
    []
  = (Ok (textResult
           ("Kube-burner cleanup operation completed:" ++ Str.nl
            ++ JSON.stringify
                 (VObj [ ("testType", VStr "cluster-density-v2");
                         ("iterations", VNum 5);
                         ("namespace", VStr "load-test");
                         ("timeout", VStr "10m");
                         ("operation", VStr "cleanup");
                         ("status", VStr "Completed");
                         ("cleanup",
                          VObj [("status", VStr "Namespace not found - already clean")]) ]))),
     [EvExec "kubectl get namespace load-test --kubeconfig undefined"]).
Proof.
  exact (cleanup_of_a_missing_namespace Cases.withoutNamespace "load-test" [] _ eq_refl).
Defined.

Lemma seq_split start len j :
  (j < len)%nat ->
  seq start len = (seq start j ++ (start + j)%nat :: seq (S (start + j)) (len - S j))%list.
Proof.
  intros H. replace len with (j + S (len - S j))%nat at 1 by lia.
  rewrite seq_app. reflexivity.
Qed.

Section Failing.
Variable W : World.
Variable command : Z -> string.
Variable e : Err.

Lemma apply_loop_fails (before : list Z) (j : Z) (after : list Z) :
  (forall h i, In i before -> exists out, exec_reply W h (command i) = Ok out) ->
  (forall h, exec_reply W h (command j) = Throw e) ->
  forall tr,
    for_each (fun i (_ : unit) => bind (execAsync W (command i)) (fun _ => ret tt))
      (before ++ j :: after)%list tt tr
    = (Throw e, (tr ++ map (fun i => EvExec (command i)) (before ++ [j]))%list).
Proof.
  intros Hok Hfail. induction before as [|i l IH]; intros tr.
  - cbn [List.app for_each map]. unfold bind at 1, bind at 1, execAsync, ask.
    now rewrite Hfail.
  - cbn [List.app for_each map]. unfold bind at 1, bind at 1, execAsync at 1, ask at 1.
    destruct (Hok tr i (or_introl eq_refl)) as [out ->]. unfold ret at 1.
    rewrite IH by (intros; apply Hok; now right).
    now rewrite <- app_assoc.
Qed.

End Failing.

(** X14. The first pod manifest that kubectl refuses ends the test: no
    later manifest is applied and no cleanup is attempted, although cleanup
    is on by default; the response carries the error of that command. *)
Theorem failed_apply_stops_the_test (W : World) (t : string) (n j : Z) (tr : Trace)
    (e : Err) :
  let density := t =? "node-density" in
  let podCount := (n * (if density then 10 else 5))%Z in
  let command := fun i =>
    applyCommand (podManifest (if density then "density-test-pod" else "test-pod")
                    (if density then "node-density-test" else t ++ "-test")
                    "kube-burner-test" i) (kubeconfig W) in
  In t kubeBurnerTypes -> (1 <= n <= 100)%Z -> (1 <= j <= podCount)%Z ->
  (forall h i, (1 <= i < j)%Z -> exists out, exec_reply W h (command i) = Ok out) ->
  (forall h, exec_reply W h (command j) = Throw e) ->
  dispatch (server W)
    {| name := "run_kube_burner";
       arguments := VObj [("testType", VStr t); ("iterations", VNum n)] |} tr
  = (Ok (errorResult
           ("Error executing run_kube_burner: Failed to run kube-burner operation: "
            ++ message e ++ " [DEBUG: Raw error]")),
     (tr ++ [ EvExec ("kubectl create namespace kube-burner-test --kubeconfig "
                      ++ kubeconfig W);
              EvNow ]
         ++ map (fun i => EvExec (command i)) (map Z.of_nat (seq 1 (Z.to_nat j))))%list).
Proof.
  cbv zeta. intros Ht Hn Hj Hok Hfail.
  rewrite (dispatch_burner W _ tr (burner_args_valid t n _ Ht Hn)).
  unfold runKubeBurner, try_catch at 1, bind at 1. cbn [lift Deployment.destructure].
  unfold bind at 1.
  cbn [in_strings existsb default_to opt_get get lookup String.eqb Ascii.eqb Bool.eqb
       operations orb ret].
  unfold bind at 1. cbn [ret]. unfold bind at 1.
  unfold createPhase. unfold bind at 1.
  unfold try_catch at 1, bind at 1, execAsync at 1, ask at 1. unfold ns. cbn [toStr].
  set (tr1 := (tr ++ [EvExec ("kubectl create namespace kube-burner-test --kubeconfig "
                              ++ kubeconfig W)])%list).
  assert (E : forall r : Result ExecOutput,
            (let (r0, tr') :=
               match (r, tr1) with
               | (Ok a, tr') => ret tt tr'
               | (Throw e, tr') => (Throw e, tr')
               end in
             match r0 with
             | Ok a => (Ok a, tr')
             | Throw _ => ret tt tr'
             end) = (Ok tt, tr1)).
  { intros [out|e0]; reflexivity. }
  rewrite E. clear E.
  unfold bind at 1, dateNow at 1, ask at 1. unfold bind at 1.
  cbn [is_str times]. unfold applyPods, indices, ns. cbn [toStr].
  assert (S : forall k, (1 <= j <= n * k)%Z ->
            map Z.of_nat (seq 1 (Z.to_nat (n * k)))
            = (map Z.of_nat (seq 1 (Z.to_nat j - 1)) ++ j
               :: map Z.of_nat (seq (S (Z.to_nat j)) (Z.to_nat (n * k) - Z.to_nat j)))%list).
  { intros k Hk. rewrite (seq_split 1 (Z.to_nat (n * k)) (Z.to_nat j - 1)) by lia.
    rewrite map_app. cbn [map]. repeat f_equal; lia. }
  assert (L : (map Z.of_nat (seq 1 (Z.to_nat j - 1)) ++ [j])%list
              = map Z.of_nat (seq 1 (Z.to_nat j))).
  { replace (Z.to_nat j) with ((Z.to_nat j - 1) + 1)%nat at 2 by lia.
    rewrite seq_app, map_app. cbn [seq map]. repeat f_equal. lia. }
  assert (B : forall h i, In i (map Z.of_nat (seq 1 (Z.to_nat j - 1))) ->
              exists out,
                exec_reply W h
                  (applyCommand
                     (podManifest (if t =? "node-density" then "density-test-pod" else "test-pod")
                        (if t =? "node-density" then "node-density-test" else t ++ "-test")
                        "kube-burner-test" i) (kubeconfig W)) = Ok out).
  { intros h i Hin. apply Hok. apply in_map_iff in Hin as (x & <- & Hx).
    apply in_seq in Hx. lia. }
  destruct (t =? "node-density") eqn:D.
  - rewrite (S 10%Z) by exact Hj.
    rewrite (apply_loop_fails W _ e _ j _ B Hfail). rewrite L.
    unfold tr1. rewrite <- !app_assoc. reflexivity.
  - rewrite (S 5%Z) by exact Hj.
    rewrite (apply_loop_fails W _ e _ j _ B Hfail). rewrite L.
    unfold tr1. rewrite <- !app_assoc. reflexivity.
Qed.

Lemma failed_apply_stops_the_test_witness :
  exists text,
    fst (dispatch (server Cases.quotaOfTwo)
           {| name := "run_kube_burner";
              arguments := VObj [ ("testType", VStr "cluster-density-v2");
                                  ("iterations", VNum 1) ] |} [])
    = Ok (errorResult text)
    /\ List.length
         (snd (dispatch (server Cases.quotaOfTwo)
                 {| name := "run_kube_burner";
                    arguments := VObj [ ("testType", VStr "cluster-density-v2");
                                        ("iterations", VNum 1) ] |} [])) = 5%nat.
Proof.
  eexists.
  rewrite (failed_apply_stops_the_test Cases.quotaOfTwo "cluster-density-v2" 1 3 []
             (Cases.commandFailed
                (applyCommand (podManifest "test-pod" "cluster-density-v2-test"
                                 "kube-burner-test" 3) (kubeconfig Cases.quotaOfTwo))
                "Error from server (Forbidden): exceeded quota")).
  - split; reflexivity.
  - cbn [In kubeBurnerTypes]. auto.
  - lia.
  - cbn. lia.
  - intros h i Hi. exists Scenario.silent.
    assert (C : i = 1%Z \/ i = 2%Z) by lia. destruct C as [-> | ->]; reflexivity.
  - intros h. reflexivity.
Defined.

(** X15. With default arguments the test deletes its namespace at the end:
    after the 25 pods and the two waits comes [kubectl delete namespace], and
    a failure of that command is reported as the cleanup status of a
    successful response. *)
Theorem default_run_deletes_its_namespace (W : World) (tr : Trace) :
  (forall h c, Str.startsWith "echo '" c = true -> exists out, exec_reply W h c = Ok out) ->
  let delete := deleteCommand "kube-burner-test" (kubeconfig W) in
  let applies :=
    map (fun i => EvExec (applyCommand
                            (podManifest "test-pod" "cluster-density-v2-test"
                               "kube-burner-test" i) (kubeconfig W)))
      (map Z.of_nat (seq 1 25)) in
  let history :=
    (tr ++ [ EvExec ("kubectl create namespace kube-burner-test --kubeconfig "
                     ++ kubeconfig W);
             EvNow ]
        ++ applies ++ [EvSleep 15000; EvNow; EvSleep 5000])%list in
  exists duration,
    dispatch (server W) {| name := "run_kube_burner"; arguments := VObj [] |} tr
    = (Ok (textResult
             ("Kube-burner create operation completed:" ++ Str.nl
              ++ JSON.stringify
                   (VObj [ ("testType", VStr "cluster-density-v2");
                           ("iterations", VNum 5);
                           ("namespace", VStr "kube-burner-test");
                           ("timeout", VStr "10m");
                           ("operation", VStr "create");
                           ("status", VStr "Completed");
                           ("creation",
                            VObj [ ("podsCreated", VNum 25);
                                   ("testType", VStr "cluster-density-v2");
                                   ("duration", VStr duration);
                                   ("status", VStr "Completed") ]);
                           ("cleanup",
                            VObj [ ("status",
                                    VStr match exec_reply W history delete with
                                         | Ok _ => "Automatic cleanup completed"
                                         | Throw e => "Cleanup failed: " ++ message e
                                         end) ]) ]))),
       (history ++ [EvExec delete])%list).
Proof.
  intros Hexec delete applies history.
  destruct (createPhase_applied W Hexec (VStr "cluster-density-v2") (VNum 5)
              (VStr "kube-burner-test") (VBool true) (VStr "create") (kubeconfig W)
              [ ("testType", VStr "cluster-density-v2"); ("iterations", VNum 5);
                ("namespace", VStr "kube-burner-test"); ("timeout", VStr "10m");
                ("operation", VStr "create"); ("status", VStr "Started") ] tr)
    as [duration Hcreate].
  exists duration.
  rewrite (dispatch_burner W (VObj []) tr eq_refl).
  unfold runKubeBurner, try_catch at 1, bind at 1. cbn [lift Deployment.destructure].
  unfold bind at 1.
  cbn [in_strings existsb default_to opt_get get lookup String.eqb Ascii.eqb Bool.eqb
       operations orb ret].
  unfold bind at 1. cbn [ret]. unfold bind at 1.
  cbv zeta in Hcreate. rewrite Hcreate. clear Hcreate.
  cbn [truthy is_str String.eqb Ascii.eqb Bool.eqb andb].
  unfold bind at 1, sleep at 1, ask at 1.
  unfold try_catch, bind at 1, execAsync at 1, ask at 1.
  assert (H : ((tr ++ createEvents (VStr "cluster-density-v2") (VNum 5)
                        (VStr "kube-burner-test") (kubeconfig W))
               ++ [EvSleep 5000])%list = history).
  { unfold history, applies, createEvents.
    cbn [is_str String.eqb Ascii.eqb Bool.eqb times indices toStr].
    rewrite <- !app_assoc. reflexivity. }
  rewrite H. cbn [toStr]. fold delete.
  destruct (exec_reply W history delete) as [out|e]; reflexivity.
Qed.

Lemma default_run_deletes_its_namespace_witness :
  exists text,
    fst (dispatch (server Scenario.calm) {| name := "run_kube_burner"; arguments := VObj [] |} [])
    = Ok (textResult text)
    /\ last (snd (dispatch (server Scenario.calm)
                    {| name := "run_kube_burner"; arguments := VObj [] |} [])) EvNow
       = EvExec "kubectl delete namespace kube-burner-test --wait=true --timeout=300s --kubeconfig undefined".
Proof.
  destruct (default_run_deletes_its_namespace Scenario.calm [])
    as [duration Hrun].
  - intros h c _. now exists Scenario.silent.
  - eexists. rewrite Hrun. split; reflexivity.
Defined.

End OperationFacts.

(* ================================================================== *)
(** * Facts: the namespace of a deployment *)

Module DeploymentFacts.
Import JS Eff Shell Deployment EffFacts.

Lemma status_is_404 {A} (o : option Z) (x y : A) :
  match o with Some 404%Z => x | _ => y end
  = if match o with Some z => (z =? 404)%Z | None => false end then x else y.
Proof.
  destruct o as [[|p|p]|]; try reflexivity.
  destruct (Z.eqb_spec (Z.pos p) 404) as [E|E].
  - injection E as ->. reflexivity.
  - repeat (destruct p as [p|p|]; try reflexivity). congruence.
Qed.

Lemma ensureNamespace_after_failure W namespace tr e :
  read_namespace W tr namespace = Throw e ->
  ensureNamespace W namespace tr
  = if match statusCode e with Some z => (z =? 404)%Z | None => false end
    then (create_namespace W (tr ++ [EvReadNamespace namespace])%list namespace,
          ((tr ++ [EvReadNamespace namespace]) ++ [EvCreateNamespace namespace])%list)
    else (Ok tt, (tr ++ [EvReadNamespace namespace])%list).
Proof.
  intros Hread. unfold ensureNamespace, try_catch, ask at 1. rewrite Hread.
  rewrite status_is_404. destruct (match statusCode e with Some _ => _ | None => _ end);
    reflexivity.
Qed.

Lemma createDeployment_steps W name image namespace tr :
  namespace <> "" ->
  createDeployment W
    (VObj [("name", VStr name); ("image", VStr image); ("namespace", VStr namespace)]) tr
  = match ensureNamespace W (VStr namespace) tr with
    | (Ok _, tr1) =>
        let command :=
          kubectlCmd W (deploymentYaml (VStr name) (VStr namespace) (VStr image) (VNum 1) []
                          (VObj [])) in
        match exec_reply W tr1 command with
        | Ok _ =>
            (Ok (textResult
                   ("Deployment " ++ dq ++ name ++ dq ++ " created successfully in namespace "
                    ++ dq ++ namespace ++ dq ++ ":" ++ Str.nl
                    ++ JSON.stringify
                         (VObj [ ("name", VStr name); ("namespace", VStr namespace);
                                 ("replicas", VNum 1); ("image", VStr image);
                                 ("status", VStr "Created") ]))),
             (tr1 ++ [EvExec command])%list)
        | Throw failure =>
            (Throw (Error ("Failed to create deployment: " ++ message failure)),
             (tr1 ++ [EvExec command])%list)
        end
    | (Throw failure, tr1) =>
        (Throw (Error ("Failed to create deployment: " ++ message failure)), tr1)
    end.
Proof.
  intros Hns. apply String.eqb_neq in Hns.
  unfold createDeployment, try_catch at 1, bind at 1.
  cbn [lift destructure]. unfold bind at 1.
  cbn [lift default_to opt_get get lookup String.eqb Ascii.eqb Bool.eqb map_ports fold_right].
  unfold bind at 1. cbn [lift read get]. unfold or_else. cbn [truthy]. rewrite Hns.
  cbn [negb]. unfold bind at 1.
  destruct (ensureNamespace W (VStr namespace) tr) as [[[]|failure] tr1]; [|reflexivity].
  unfold bind at 1. cbn [lift map_ports fold_right]. unfold bind at 1, execAsync, ask.
  cbv zeta. destruct (exec_reply W tr1 _); reflexivity.
Qed.

(** X16. When reading the namespace fails, the namespace is created only
    if the status is 404, and a failed creation ends the call before any
    manifest is applied; any other failure of the read is ignored and the
    manifest is applied. *)
Theorem namespace_is_created_on_404_only (W : World) (name image namespace : string)
    (tr : Trace) (e : Err) :
  let args := VObj [ ("name", VStr name); ("image", VStr image);
                     ("namespace", VStr namespace) ] in
  let yaml := deploymentYaml (VStr name) (VStr namespace) (VStr image) (VNum 1) []
                (VObj []) in
  let read := EvReadNamespace (VStr namespace) in
  let create := EvCreateNamespace (VStr namespace) in
  let missing := match statusCode e with Some z => (z =? 404)%Z | None => false end in
  namespace <> "" ->
  read_namespace W tr (VStr namespace) = Throw e ->
  if missing then
    match create_namespace W (tr ++ [read])%list (VStr namespace) with
    | Ok _ =>
        snd (createDeployment W args tr)
        = (tr ++ [read; create; EvExec (kubectlCmd W yaml)])%list
    | Throw failure =>
        createDeployment W args tr
        = (Throw (Error ("Failed to create deployment: " ++ message failure)),
           (tr ++ [read; create])%list)
    end
  else snd (createDeployment W args tr) = (tr ++ [read; EvExec (kubectlCmd W yaml)])%list.
Proof.
  cbv zeta. intros Hns Hread.
  rewrite (createDeployment_steps W name image namespace tr Hns).
  rewrite (ensureNamespace_after_failure W _ tr e Hread).
  destruct (match statusCode e with Some _ => _ | None => _ end).
  - destruct (create_namespace W _ _) as [[]|failure].
    + cbv zeta. destruct (exec_reply W _ _); cbn [snd]; rewrite <- !app_assoc; reflexivity.
    + rewrite <- app_assoc. reflexivity.
  - cbv zeta. destruct (exec_reply W _ _); cbn [snd]; rewrite <- !app_assoc; reflexivity.
Qed.

Lemma namespace_is_created_on_404_only_witness :
  snd (createDeployment (Cases.namespaceUnreadable 404)
         (VObj [("name", VStr "web"); ("image", VStr "nginx"); ("namespace", VStr "shop")]) [])
  = [ EvReadNamespace (VStr "shop"); EvCreateNamespace (VStr "shop");
      EvExec (kubectlCmd (Cases.namespaceUnreadable 404)
                (deploymentYaml (VStr "web") (VStr "shop") (VStr "nginx") (VNum 1) []
                   (VObj []))) ]
  /\ snd (createDeployment (Cases.namespaceUnreadable 403)
            (VObj [("name", VStr "web"); ("image", VStr "nginx"); ("namespace", VStr "shop")])
            [])
     = [ EvReadNamespace (VStr "shop");
         EvExec (kubectlCmd (Cases.namespaceUnreadable 403)
                   (deploymentYaml (VStr "web") (VStr "shop") (VStr "nginx") (VNum 1) []
                      (VObj []))) ].
Proof.
  split.
  - refine (namespace_is_created_on_404_only (Cases.namespaceUnreadable 404)
              "web" "nginx" "shop" [] (Cases.httpError 404) _ eq_refl). discriminate.
  - refine (namespace_is_created_on_404_only (Cases.namespaceUnreadable 403)
              "web" "nginx" "shop" [] (Cases.httpError 403) _ eq_refl). discriminate.
Defined.

End DeploymentFacts.

(* ================================================================== *)
(** * Facts: the counts of the health report *)

Module ReportFacts.
Import JS Eff K8s Health EffFacts.

Lemma one_phase pod p q : phase_is pod p = true -> p <> q -> phase_is pod q = false.
Proof.
  unfold phase_is. destruct (pod_phase pod) as [x|]; [|discriminate].
  intros H N. apply String.eqb_eq in H. subst x. now apply String.eqb_neq.
Qed.

(** One turn of the pod loop: the count goes up for a running or succeeded
    pod only, the issues are added to, and a failed pod adds its issue. *)
Lemma checkPod_effect W pod healthy issues tr :
  exists more tr',
    checkPod W pod (healthy, issues) tr
    = (Ok ((if phase_is pod "Running" || phase_is pod "Succeeded" then S healthy else healthy),
           (issues ++ more)%list), tr')
    /\ (phase_is pod "Failed" = true -> In (pod_label pod ++ " in Failed state") more).
Proof.
  unfold checkPod, calculateAge, dateNow, bind, ret; unfold ask, bind, ret.
  destruct (phase_is pod "Failed") eqn:F.
  - rewrite (one_phase pod "Failed" "Running" F), (one_phase pod "Failed" "Succeeded" F),
      (one_phase pod "Failed" "Pending" F) by discriminate.
    cbn [orb andb].
    destruct (pod_created pod); eexists; eexists;
      (split; [rewrite <- app_assoc; reflexivity|]);
      intros _; apply in_or_app; left; now left.
  - destruct (phase_is pod "Running" || phase_is pod "Succeeded").
    + eexists. eexists. split; [reflexivity | discriminate].
    + cbn [orb]. destruct (phase_is pod "Pending"); cbn [andb].
      * destruct (pod_created pod); [destruct (_ <? _)%Z|];
          eexists; eexists; (split; [rewrite <- ?app_assoc; reflexivity | discriminate]).
      * eexists. eexists. split; [reflexivity | discriminate].
Qed.

Local Abbreviation running :=
  (fun pod : Pod => phase_is pod "Running" || phase_is pod "Succeeded").

Lemma podLoop_effect W pods : forall healthy issues tr,
  exists more tr',
    for_each (checkPod W) pods (healthy, issues) tr
    = (Ok ((healthy + List.length (filter running pods))%nat, (issues ++ more)%list), tr')
    /\ forall pod, In pod pods -> phase_is pod "Failed" = true ->
                   In (pod_label pod ++ " in Failed state") more.
Proof.
  induction pods as [|pod pods IH]; intros healthy issues tr.
  - exists [], tr. cbn. unfold ret. rewrite app_nil_r, Nat.add_0_r. split; [reflexivity|].
    intros pod [].
  - cbn [for_each filter]. unfold bind.
    destruct (checkPod_effect W pod healthy issues tr) as (m1 & tr1 & -> & F1).
    destruct (IH (if phase_is pod "Running" || phase_is pod "Succeeded"
                  then S healthy else healthy) (issues ++ m1)%list tr1)
      as (m2 & tr2 & -> & F2).
    exists (m1 ++ m2)%list, tr2. split.
    + destruct (phase_is pod "Running" || phase_is pod "Succeeded");
        cbn [List.length]; rewrite <- app_assoc, ?Nat.add_succ_r; reflexivity.
    + intros p [<-|Hin] Hp; apply in_or_app; [left | right]; auto.
Qed.

Lemma health_run W detailed tr nodes pods :
  nodes_and_pods W tr = Ok (Some nodes, Some pods) ->
  exists podIssues tr',
    checkClusterHealth W detailed tr
    = (Ok (textResult
             ("Cluster Health Report:" ++ Str.nl
              ++ JSON.stringify
                   (summary
                      (overallStatus
                         (List.length (flat_map nodeIssues nodes ++ podIssues)%list)
                         (percentage (List.length (filter is_ready nodes)) (List.length nodes))
                         (percentage (List.length (filter running pods)) (List.length pods)))
                      nodes (List.length (filter is_ready nodes)) pods
                      (List.length (filter running pods))
                      (flat_map nodeIssues nodes ++ podIssues)%list detailed))), tr')
    /\ forall pod, In pod pods -> phase_is pod "Failed" = true ->
                   In (pod_label pod ++ " in Failed state") podIssues.
Proof.
  intros Hlist.
  destruct (podLoop_effect W pods 0 (flat_map nodeIssues nodes)
              (tr ++ [EvListNodesAndPods])%list) as (more & tr' & Hloop & Hfailed).
  exists more, tr'. split; [|exact Hfailed].
  unfold checkClusterHealth, try_catch, bind at 1. unfold ask at 1. rewrite Hlist.
  unfold bind at 1, ret at 1. unfold bind at 1, ret at 1. unfold bind at 1.
  rewrite Hloop. reflexivity.
Qed.

(** X17. The count of healthy pods in the health report is the number of
    pods in phase Running or Succeeded, whatever their restarts, and it is at
    most the number of pods; every pod in phase Failed has its issue in the
    report. *)
Theorem healthy_pods_are_the_running_ones (W : World) (detailed : value) (tr : Trace)
    (nodes : list Node) (pods : list Pod) :
  nodes_and_pods W tr = Ok (Some nodes, Some pods) ->
  exists podIssues tr',
    let healthyNodes := List.length (filter is_ready nodes) in
    let healthyPods :=
      List.length (filter (fun pod => phase_is pod "Running" || phase_is pod "Succeeded")
                     pods) in
    let issues := (flat_map nodeIssues nodes ++ podIssues)%list in
    let status := overallStatus (List.length issues)
                    (percentage healthyNodes (List.length nodes))
                    (percentage healthyPods (List.length pods)) in
    checkClusterHealth W detailed tr
    = (Ok (textResult
             ("Cluster Health Report:" ++ Str.nl
              ++ JSON.stringify
                   (summary status nodes healthyNodes pods healthyPods issues detailed))), tr')
    /\ (healthyPods <= List.length pods)%nat
    /\ forall pod, In pod pods -> phase_is pod "Failed" = true ->
                   In (pod_label pod ++ " in Failed state") issues.
Proof.
  intros Hlist. destruct (health_run W detailed tr nodes pods Hlist)
    as (more & tr' & Hrun & Hfailed).
  exists more, tr'. cbv zeta. split; [exact Hrun|]. split.
  - apply filter_length_le.
  - intros pod Hin Hp. apply in_or_app. right. auto.
Qed.

Lemma healthy_pods_are_the_running_ones_witness :
  exists podIssues tr' status,
    checkClusterHealth Cases.oneNodeDown (VBool false) []
    = (Ok (textResult
             ("Cluster Health Report:" ++ Str.nl
              ++ JSON.stringify
                   (VObj [ ("status", VStr status); ("totalNodes", VNum 10);
                           ("healthyNodes", VNum 9); ("totalPods", VNum 1);
                           ("healthyPods", VNum 0);
                           ("issuesFound",
                            VNum (Z.of_nat (S (List.length podIssues)))) ]))), tr')
    /\ In "Pod job-1 in batch in Failed state" podIssues.
Proof.
  destruct (healthy_pods_are_the_running_ones Cases.oneNodeDown (VBool false) [] _ _ eq_refl)
    as (more & tr' & Hrun & _ & Hfailed).
  exists more, tr'. eexists. split; [exact Hrun|].
  specialize (Hfailed _ (or_introl eq_refl) eq_refl).
  apply in_app_or in Hfailed as [[H|[]]|H]; [discriminate H | exact H].
Defined.

Lemma some_node_issue nodes :
  (List.length (filter is_ready nodes) < List.length nodes)%nat ->
  flat_map nodeIssues nodes <> [].
Proof.
  induction nodes as [|node nodes IH]; cbn [filter List.length flat_map]; [lia|].
  unfold nodeIssues at 1. destruct (is_ready node); cbn [List.length List.app].
  - intros H. destruct (map _ (problemConditions node)); [|discriminate].
    apply IH. lia.
  - discriminate.
Qed.

Lemma low_node_health total healthy :
  (total <= 10)%nat -> (healthy < total)%nat ->
  PrimFloat.ltb 90%float (percentage healthy total) = false.
Proof.
  intros Ht Hh.
  assert (A : forallb (fun t => forallb (fun h => negb (PrimFloat.ltb 90%float (percentage h t)))
                                  (seq 0 t)) (seq 0 11) = true) by (vm_compute; reflexivity).
  rewrite forallb_forall in A. specialize (A total). rewrite forallb_forall in A.
  apply negb_true_iff. apply A; apply in_seq; lia.
Qed.

(** X18. In a cluster of at most ten nodes, one node that is not ready
    makes the status critical: the node health cannot exceed 90 percent. *)
Theorem unready_node_in_a_small_cluster_is_critical (W : World) (detailed : value)
    (tr : Trace) (nodes : list Node) (pods : list Pod) :
  nodes_and_pods W tr = Ok (Some nodes, Some pods) ->
  (List.length nodes <= 10)%nat ->
  (List.length (filter is_ready nodes) < List.length nodes)%nat ->
  exists healthyPods issues tr',
    checkClusterHealth W detailed tr
    = (Ok (textResult
             ("Cluster Health Report:" ++ Str.nl
              ++ JSON.stringify
                   (summary "critical" nodes (List.length (filter is_ready nodes)) pods
                      healthyPods issues detailed))), tr').
Proof.
  intros Hlist Hsmall Hdown.
  destruct (health_run W detailed tr nodes pods Hlist) as (more & tr' & Hrun & _).
  eexists. exists (flat_map nodeIssues nodes ++ more)%list, tr'.
  rewrite Hrun. rewrite HealthFacts.overallStatus_critical; [reflexivity | |].
  - pose proof (some_node_issue nodes Hdown) as N.
    destruct (flat_map nodeIssues nodes); [congruence | discriminate].
  - right. left. now apply low_node_health.
Qed.

Lemma unready_node_in_a_small_cluster_is_critical_witness :
  exists (healthyPods : nat) (issues : list string) tr',
    checkClusterHealth Cases.oneNodeDown (VBool false) []
    = (Ok (textResult
             ("Cluster Health Report:" ++ Str.nl
              ++ JSON.stringify
                   (VObj [ ("status", VStr "critical"); ("totalNodes", VNum 10);
                           ("healthyNodes", VNum 9); ("totalPods", VNum 1);
                           ("healthyPods", VNum (Z.of_nat healthyPods));
                           ("issuesFound", VNum (Z.of_nat (List.length issues))) ]))), tr').
Proof.
  refine (unready_node_in_a_small_cluster_is_critical Cases.oneNodeDown (VBool false) []
            _ _ eq_refl _ _); cbn; lia.
Defined.

(** X19. On a cluster without nodes and pods the health check answers
    healthy, with every count at zero, while the kubelet check fails with
    [No nodes found in cluster] after its one command. *)
Theorem empty_cluster_is_healthy_but_has_no_kubelet_report (W : World)
    (detailed hoursBack includeSystemErrors : value) (tr : Trace) (out : ExecOutput)
    (nodes : value) :
  nodes_and_pods W tr = Ok (Some [], Some []) ->
  exec_reply W tr (Kubelet.getNodesCmd (Kubelet.access W)) = Ok out ->
  JSON_parse W (stdout out) = Ok nodes ->
  Shell.read nodes "items" = Ok (VArr []) ->
  checkClusterHealth W detailed tr
  = (Ok (textResult
           ("Cluster Health Report:" ++ Str.nl
            ++ JSON.stringify (summary "healthy" [] 0 [] 0 [] detailed))),
     (tr ++ [EvListNodesAndPods])%list)
  /\ Kubelet.checkKubeletStatus W hoursBack includeSystemErrors tr
     = (Throw (Error "Failed to check kubelet status: No nodes found in cluster"),
        (tr ++ [EvExec (Kubelet.getNodesCmd (Kubelet.access W))])%list).
Proof.
  intros Hlist Hexec Hparse Hitems. split.
  - unfold checkClusterHealth, try_catch, bind at 1. unfold ask at 1. rewrite Hlist.
    reflexivity.
  - unfold Kubelet.checkKubeletStatus, try_catch. cbv zeta.
    unfold bind at 1, execAsync at 1, ask at 1. rewrite Hexec.
    unfold bind at 1, lift at 1. rewrite Hparse.
    unfold bind at 1, lift at 1. rewrite Hitems. reflexivity.
Qed.

Lemma empty_cluster_is_healthy_but_has_no_kubelet_report_witness :
  checkClusterHealth Cases.emptyCluster (VBool false) []
  = (Ok (textResult
           ("Cluster Health Report:" ++ Str.nl
            ++ JSON.stringify
                 (VObj [ ("status", VStr "healthy"); ("totalNodes", VNum 0);
                         ("healthyNodes", VNum 0); ("totalPods", VNum 0);
                         ("healthyPods", VNum 0); ("issuesFound", VNum 0) ]))),
     [EvListNodesAndPods])
  /\ Kubelet.checkKubeletStatus Cases.emptyCluster VUndefined VUndefined []
     = (Throw (Error "Failed to check kubelet status: No nodes found in cluster"),
        [EvExec "cd /opt/openshift-mcp-server && KUBECONFIG=/root/.kube/config kubectl get nodes -o json"]).
Proof.
  exact (empty_cluster_is_healthy_but_has_no_kubelet_report Cases.emptyCluster (VBool false)
           VUndefined VUndefined []
           {| stdout := JSON.stringify Cases.noneListed; stderr := "" |} Cases.noneListed
           eq_refl eq_refl eq_refl eq_refl).
Defined.

End ReportFacts.

(* ================================================================== *)
(** * Facts: the journal analysis *)

Module JournalFacts.
Import JS Eff Journal.

Lemma includes_refl s : Str.includes s s = true.
Proof.
  assert (P : forall a, Str.startsWith a a = true).
  { induction a as [|c a IH]; simpl; auto. now rewrite Ascii.eqb_refl. }
  destruct s; simpl; auto. now rewrite Ascii.eqb_refl, P.
Qed.

Lemma categoryOf_cases line :
  In (categoryOf line)
    [ "container_cleanup"; "container_deletion"; "cadvisor_watch"; "container_not_found";
      "resource_pressure"; "general" ].
Proof.
  unfold categoryOf.
  repeat match goal with |- context [if ?b then _ else _] => destruct b end;
    cbn [In]; auto 10.
Qed.

Lemma severity_cases category line :
  In (getErrorSeverity category line) ["critical"; "warning"; "info"].
Proof.
  unfold getErrorSeverity.
  repeat match goal with |- context [if ?b then _ else _] => destruct b end;
    cbn [In]; auto.
Qed.

Lemma severity_of_category category line :
  (category = "resource_pressure" -> getErrorSeverity category line = "critical")
  /\ (In category [ "container_cleanup"; "container_deletion"; "cadvisor_watch";
                    "container_not_found" ] ->
      getErrorSeverity category line = "critical"
      \/ getErrorSeverity category line = "warning").
Proof.
  split.
  - intros ->. unfold getErrorSeverity.
    assert (H : existsb (hits "resource_pressure" line) criticalPatterns = true).
    { apply existsb_exists. exists "resource_pressure". split.
      - cbn [criticalPatterns In]. auto.
      - unfold hits. now rewrite includes_refl. }
    now rewrite H.
  - intros Hin. unfold getErrorSeverity.
    destruct (existsb (hits category line) criticalPatterns); [now left|].
    assert (H : existsb (hits category line) warningPatterns = true).
    { apply existsb_exists. exists category. split.
      - cbn [warningPatterns In] in *. intuition.
      - unfold hits. now rewrite includes_refl. }
    rewrite H. now right.
Qed.

Lemma entryOf_fields pod service errorTypes line entry :
  entryOf pod service errorTypes line = Ok entry ->
  category entry = categoryOf line
  /\ severity entry = getErrorSeverity (categoryOf line) line.
Proof.
  unfold entryOf. destruct (firstType line errorTypes); [|discriminate].
  intros [= <-]. auto.
Qed.

(** X20. The severity of a journal entry is critical, warning or info; an
    entry of category resource_pressure is critical, and an entry of severity
    info is of category general. *)
Theorem severity_follows_the_category (pod service : option string)
    (errorTypes : list value) (line : string) (entry : ErrorEntry) :
  entryOf pod service errorTypes line = Ok entry ->
  In (severity entry) ["critical"; "warning"; "info"]
  /\ (category entry = "resource_pressure" -> severity entry = "critical")
  /\ (severity entry = "info" -> category entry = "general").
Proof.
  intros H. apply entryOf_fields in H as (C & S). rewrite S, C.
  split; [apply severity_cases|]. split; [apply severity_of_category|].
  intros Hinfo. pose proof (categoryOf_cases line) as Hc.
  destruct (severity_of_category (categoryOf line) line) as [Hp Hw].
  cbn [In] in Hc, Hw. destruct Hc as [Hc|[Hc|[Hc|[Hc|[Hc|[Hc|[]]]]]]]; auto.
  - destruct Hw as [E|E]; auto; rewrite E in Hinfo; discriminate.
  - destruct Hw as [E|E]; auto; rewrite E in Hinfo; discriminate.
  - destruct Hw as [E|E]; auto; rewrite E in Hinfo; discriminate.
  - destruct Hw as [E|E]; auto 6; rewrite E in Hinfo; discriminate.
  - rewrite Hp in Hinfo by auto. discriminate.
Qed.

Lemma severity_follows_the_category_witness :
  exists entry,
    entryOf None None [VStr "error"; VStr "fail"]
      "Jan 12 10:11:12 node-1 kubelet[2141]: eviction manager: MemoryPressure on node" = Ok entry
    /\ category entry = "resource_pressure" /\ severity entry = "critical".
Proof.
  eexists. split; [reflexivity|]. split; [reflexivity|].
  refine (proj1 (proj2 (severity_follows_the_category None None [VStr "error"; VStr "fail"]
            "Jan 12 10:11:12 node-1 kubelet[2141]: eviction manager: MemoryPressure on node"
            _ eq_refl)) eq_refl).
Defined.

Lemma trimStart_blank s :
  forallb Str.is_space (list_ascii_of_string s) = true -> Str.trimStart s = "".
Proof.
  induction s as [|c s IH]; cbn [list_ascii_of_string forallb Str.trimStart]; auto.
  intros H. apply andb_true_iff in H as [-> H]. auto.
Qed.

Lemma trim_blank s :
  forallb Str.is_space (list_ascii_of_string s) = true -> Str.trim s = "".
Proof. intros H. unfold Str.trim. now rewrite (trimStart_blank s H). Qed.

Lemma rev_acc_blank s : forall acc,
  forallb Str.is_space (list_ascii_of_string s) = true ->
  forallb Str.is_space (list_ascii_of_string acc) = true ->
  forallb Str.is_space (list_ascii_of_string (Str.rev_acc s acc)) = true.
Proof.
  induction s as [|c s IH]; intros acc Hs Ha; cbn [Str.rev_acc]; auto.
  cbn [list_ascii_of_string forallb] in Hs. apply andb_true_iff in Hs as [Hc Hs].
  apply IH; auto. cbn [list_ascii_of_string forallb]. now rewrite Hc.
Qed.

Lemma split_blank sep s : forall cur,
  forallb Str.is_space (list_ascii_of_string s) = true ->
  forallb Str.is_space (list_ascii_of_string cur) = true ->
  filter (fun line => negb (Str.trim line =? "")) (Str.split_acc sep cur s) = [].
Proof.
  induction s as [|c s IH]; intros cur Hs Hc; cbn [Str.split_acc filter].
  - unfold Str.rev. rewrite trim_blank; [reflexivity|]. now apply rev_acc_blank.
  - cbn [list_ascii_of_string forallb] in Hs. apply andb_true_iff in Hs as [Hx Hs].
    destruct (Ascii.eqb c sep).
    + cbn [filter]. unfold Str.rev. rewrite trim_blank by now apply rev_acc_blank.
      cbn [String.eqb negb]. now apply IH.
    + apply IH; auto. cbn [list_ascii_of_string forallb]. now rewrite Hx.
Qed.

(** X21. A journal without a non-blank line yields the fixed report of no
    errors, whose time range reads [last 24 hours] whatever [hoursBack]
    was. *)
Theorem blank_journal_reports_24_hours (localeCompare : string -> string -> Z)
    (logOutput : string) (pod service : option string) (errorTypes : list value)
    (hoursBack : value) :
  forallb Str.is_space (list_ascii_of_string logOutput) = true ->
  parseJournalctlLogs localeCompare logOutput pod service errorTypes hoursBack
  = Ok (VObj [ ("summary", VStr "No errors found in the specified time range");
               ("totalErrors", VNum 0);
               ("pod", VStr (or_string pod "all"));
               ("service", VStr (or_string service "all"));
               ("timeRange", VStr "last 24 hours");
               ("errors", VArr []) ]).
Proof.
  intros H. unfold parseJournalctlLogs, Kubelet.nonblank_lines, Str.split.
  now rewrite split_blank.
Qed.

Lemma blank_journal_reports_24_hours_witness :
  parseJournalctlLogs (fun _ _ => 0%Z) "" (Some "web-1") None [VStr "error"] (VNum 1)
  = Ok (VObj [ ("summary", VStr "No errors found in the specified time range");
               ("totalErrors", VNum 0);
               ("pod", VStr "web-1");
               ("service", VStr "all");
               ("timeRange", VStr "last 24 hours");
               ("errors", VArr []) ]).
Proof.
  exact (blank_journal_reports_24_hours (fun _ _ => 0%Z) "" (Some "web-1") None
           [VStr "error"] (VNum 1) eq_refl).
Defined.

Lemma insert_length {A} (compare : A -> A -> Z) x l :
  List.length (insert compare x l) = S (List.length l).
Proof.
  induction l as [|y l IH]; cbn [insert List.length]; auto.
  destruct (compare x y <=? 0)%Z; cbn [List.length]; auto.
Qed.

Lemma insert_perm {A} (compare : A -> A -> Z) x l : Permutation (x :: l) (insert compare x l).
Proof.
  induction l as [|y l IH]; cbn [insert]; auto.
  destruct (compare x y <=? 0)%Z; auto.
  eapply perm_trans; [apply perm_swap|]. now constructor.
Qed.

Lemma sort_perm {A} (compare : A -> A -> Z) l : Permutation l (sort compare l).
Proof.
  induction l as [|x l IH]; cbn [sort fold_right]; auto.
  eapply perm_trans; [|apply insert_perm]. now constructor.
Qed.

Lemma sort_length {A} (compare : A -> A -> Z) l :
  List.length (sort compare l) = List.length l.
Proof. symmetry. apply Permutation_length, sort_perm. Qed.

Lemma total_count key counts : total (count key counts) = (total counts + 1)%Z.
Proof.
  induction counts as [|[k n] rest IH]; cbn [count total]; [reflexivity|].
  destruct (k =? key); cbn [total]; lia.
Qed.

Local Abbreviation kept := (fun line : string => negb (is_noise line)).
Local Abbreviation known :=
  (fun e : ErrorEntry => In (severity e) ["critical"; "warning"; "info"]).

Lemma collect_invariant pod service errorTypes lines : forall errs cnts errors counts,
  collect pod service errorTypes lines errs cnts = Ok (errors, counts) ->
  List.length errors = (List.length errs + List.length (filter kept lines))%nat
  /\ total counts = (total cnts + Z.of_nat (List.length (filter kept lines)))%Z
  /\ (Forall known errs -> Forall known errors).
Proof.
  induction lines as [|line lines IH]; intros errs cnts errors counts; cbn [collect filter].
  - intros [= <- <-]. cbn [List.length]. repeat split; auto; lia.
  - destruct (is_noise line); cbn [negb]; [apply IH|].
    destruct (entryOf pod service errorTypes line) as [entry|] eqn:E; [|discriminate].
    intros H. apply IH in H as (L & T & K). rewrite length_app in L. cbn [List.length] in *.
    rewrite total_count in T. repeat split; try lia.
    intros Hk. apply K. apply Forall_app. split; [exact Hk|]. constructor; [|constructor].
    apply entryOf_fields in E as (_ & ->). apply severity_cases.
Qed.

(** X22. Every non-blank line that is not about the debug pod becomes one
    entry: the number of entries, the sum of the error counts and the sum of
    the three severity counts of the summary all equal the number of such
    lines, and at most 20 entries are listed. *)
Theorem journal_counts_every_kept_line (localeCompare : string -> string -> Z)
    (pod service : option string) (errorTypes : list value) (lines : list string)
    (errors : list ErrorEntry) (counts : list (string * Z)) :
  collect pod service errorTypes lines [] [] = Ok (errors, counts) ->
  let shown := firstn 20 (sort (bySeverity localeCompare) errors) in
  List.length errors = List.length (filter (fun line => negb (is_noise line)) lines)
  /\ total counts = Z.of_nat (List.length errors)
  /\ List.length shown = Nat.min 20 (List.length errors)
  /\ (countOf "critical" errors + countOf "warning" errors + countOf "info" errors)%Z
     = Z.of_nat (List.length errors).
Proof.
  intros H. cbv zeta. destruct (collect_invariant _ _ _ _ _ _ _ _ H) as (L & T & K).
  cbn [List.length total] in L, T. repeat split.
  - exact L.
  - rewrite T, L. lia.
  - now rewrite length_firstn, sort_length.
  - specialize (K (Forall_nil _)). clear H L T. unfold countOf.
    induction K as [|e l He _ IH]; [reflexivity|].
    cbn [filter List.length]. cbn [In] in He.
    destruct He as [<-|[<-|[<-|[]]]]; cbn [String.eqb Ascii.eqb Bool.eqb List.length]; lia.
Qed.

Lemma journal_counts_every_kept_line_witness :
  exists errors counts,
    collect None None [VStr "error"]
      [ "Starting pod/node-1-debug ...";
        "Jan 12 10:11:12 n1 kubelet: DeleteContainer returned error";
        "Jan 12 10:11:13 n1 crio: oom killed" ] [] [] = Ok (errors, counts)
    /\ List.length errors = 2%nat /\ total counts = 2%Z.
Proof.
  eexists. eexists. split; [reflexivity|].
  destruct (journal_counts_every_kept_line (fun _ _ => 0%Z) None None [VStr "error"]
              [ "Starting pod/node-1-debug ...";
                "Jan 12 10:11:12 n1 kubelet: DeleteContainer returned error";
                "Jan 12 10:11:13 n1 crio: oom killed" ] _ _ eq_refl) as (L & T & _).
  split; [exact L | exact T].
Defined.

Lemma rank_known e : known e -> (1 <= rank e <= 3)%Z.
Proof.
  unfold rank. cbn [In]. intros [<-|[<-|[<-|[]]]]; cbn; lia.
Qed.

Lemma bySeverity_rank localeCompare x y :
  known x -> known y ->
  ((bySeverity localeCompare x y <=? 0)%Z = true -> (rank y <= rank x)%Z)
  /\ ((bySeverity localeCompare x y <=? 0)%Z = false -> (rank x <= rank y)%Z).
Proof.
  unfold bySeverity, rank. cbn [In].
  intros [<-|[<-|[<-|[]]]] [<-|[<-|[<-|[]]]]; cbn; split; intros H; try lia;
    try (apply Z.leb_le in H; lia); try (apply Z.leb_gt in H; lia).
Qed.

Lemma insert_sorted localeCompare x l :
  known x -> Forall known l ->
  StronglySorted (fun a b => (rank b <= rank a)%Z) l ->
  StronglySorted (fun a b => (rank b <= rank a)%Z) (insert (bySeverity localeCompare) x l).
Proof.
  intros Hx Hl Hs. induction Hs as [|y l Hs IH Hy]; cbn [insert].
  - repeat constructor.
  - inversion Hl as [|? ? Ky Kl]; subst.
    destruct (bySeverity_rank localeCompare x y Hx Ky) as [Le Gt].
    destruct (bySeverity localeCompare x y <=? 0)%Z.
    + constructor; [now constructor|]. specialize (Le eq_refl).
      constructor; [exact Le|]. eapply Forall_impl; [|exact Hy]. cbn. intros; lia.
    + constructor; [now apply IH|]. specialize (Gt eq_refl).
      eapply Permutation_Forall; [apply insert_perm|]. now constructor.
Qed.

Lemma sort_sorted localeCompare l :
  Forall known l ->
  StronglySorted (fun a b => (rank b <= rank a)%Z) (sort (bySeverity localeCompare) l).
Proof.
  induction 1 as [|x l Hx Hl IH]; cbn [sort fold_right]; [constructor|].
  apply insert_sorted; auto. eapply Permutation_Forall; [apply sort_perm | exact Hl].
Qed.

(** X23. The entries are listed by decreasing severity, whatever the
    comparison of the time stamps gives: the sorted list is a permutation of
    the entries in which no critical entry follows an entry of another
    severity and no info entry precedes one. *)
Theorem most_severe_entries_come_first (localeCompare : string -> string -> Z)
    (pod service : option string) (errorTypes : list value) (lines : list string)
    (errors : list ErrorEntry) (counts : list (string * Z)) :
  collect pod service errorTypes lines [] [] = Ok (errors, counts) ->
  let sorted := sort (bySeverity localeCompare) errors in
  Permutation errors sorted
  /\ StronglySorted
       (fun a b => (severity b = "critical" -> severity a = "critical")
                   /\ (severity a = "info" -> severity b = "info")) sorted.
Proof.
  intros H. cbv zeta. split; [apply sort_perm|].
  destruct (collect_invariant _ _ _ _ _ _ _ _ H) as (_ & _ & K).
  specialize (K (Forall_nil _)).
  assert (Ks : Forall known (sort (bySeverity localeCompare) errors))
    by (eapply Permutation_Forall; [apply sort_perm | exact K]).
  pose proof (sort_sorted localeCompare errors K) as S.
  revert Ks. induction S as [|a l S IH Ha]; intros Ks; constructor.
  - inversion Ks; auto.
  - inversion Ks as [|? ? Ka Kl]; subst. clear IH S.
    induction Ha as [|b l Hb _ IHl]; constructor.
    + inversion Kl as [|? ? Kb _]; subst. revert Hb. unfold rank. cbn [In] in Ka, Kb.
      destruct Ka as [<-|[<-|[<-|[]]]], Kb as [<-|[<-|[<-|[]]]]; cbn; intros; split;
        intros; try reflexivity; try discriminate; lia.
    + inversion Kl; auto.
Qed.

Lemma most_severe_entries_come_first_witness :
  exists errors counts,
    collect None None [VStr "error"]
      [ "Jan 12 10:11:12 n1 kubelet: DeleteContainer returned error";
        "Jan 12 10:11:13 n1 crio: oom killed" ] [] [] = Ok (errors, counts)
    /\ map severity errors = ["warning"; "critical"]
    /\ Permutation errors (sort (bySeverity (fun _ _ => 0%Z)) errors)
    /\ map severity (sort (bySeverity (fun _ _ => 0%Z)) errors) = ["critical"; "warning"].
Proof.
  eexists. eexists. split; [reflexivity|]. split; [reflexivity|].
  split; [|reflexivity].
  exact (proj1 (most_severe_entries_come_first (fun _ _ => 0%Z) None None [VStr "error"]
                  [ "Jan 12 10:11:12 n1 kubelet: DeleteContainer returned error";
                    "Jan 12 10:11:13 n1 crio: oom killed" ] _ _ eq_refl)).
Defined.

(** X24. The list of recommendations is never empty, and the message that
    no significant issue was detected is in it exactly when no threshold is
    exceeded: at most 10 cleanup race conditions, at most 5 startup failures
    and none of the other three patterns. *)
Theorem recommendations_are_never_empty (p : Patterns) :
  (exists first rest, generateRecommendations p = first :: rest)
  /\ (In "No significant issues detected. System appears to be operating normally."
         (generateRecommendations p)
      <-> (containerCleanupRaceConditions p <= 10 /\ resourcePressureIssues p <= 0
           /\ podStartupFailures p <= 5 /\ networkIssues p <= 0
           /\ storageIssues p <= 0)%Z).
Proof.
  unfold generateRecommendations.
  destruct (Z.ltb_spec 10 (containerCleanupRaceConditions p));
    destruct (Z.ltb_spec 0 (resourcePressureIssues p));
    destruct (Z.ltb_spec 5 (podStartupFailures p));
    destruct (Z.ltb_spec 0 (networkIssues p));
    destruct (Z.ltb_spec 0 (storageIssues p));
    cbn [List.app]; (split; [eauto|]); cbn [In];
    (split; [intros Hin; repeat (destruct Hin as [Hin|Hin]; [discriminate Hin|]);
             try (destruct Hin as [Hin|Hin]; [|destruct Hin]); try destruct Hin;
             try lia
            | intros; try lia; auto]).
Qed.

Lemma tally_step p e :
  let sum := fun q : Patterns =>
    (containerCleanupRaceConditions q + resourcePressureIssues q + podStartupFailures q
     + networkIssues q + storageIssues q)%Z in
  (sum p <= sum (tally p e) <= sum p + 1)%Z
  /\ (containerCleanupRaceConditions p <= containerCleanupRaceConditions (tally p e))%Z
  /\ (resourcePressureIssues p <= resourcePressureIssues (tally p e))%Z
  /\ (podStartupFailures p <= podStartupFailures (tally p e))%Z
  /\ (networkIssues p <= networkIssues (tally p e))%Z
  /\ (storageIssues p <= storageIssues (tally p e))%Z.
Proof.
  cbv zeta. unfold tally.
  repeat match goal with |- context [if ?b then _ else _] => destruct b end;
    cbn; lia.
Qed.

(** X25. Each error adds to at most one of the five pattern counters: none
    of them is negative and their sum is at most the number of errors. *)
Theorem each_error_counts_for_one_pattern_at_most (errors : list ErrorEntry) :
  let p := fold_left tally errors noPatterns in
  (0 <= containerCleanupRaceConditions p /\ 0 <= resourcePressureIssues p
   /\ 0 <= podStartupFailures p /\ 0 <= networkIssues p /\ 0 <= storageIssues p)%Z
  /\ (containerCleanupRaceConditions p + resourcePressureIssues p + podStartupFailures p
      + networkIssues p + storageIssues p <= Z.of_nat (List.length errors))%Z.
Proof.
  cbv zeta.
  assert (G : forall q,
    let p := fold_left tally errors q in
    (containerCleanupRaceConditions q <= containerCleanupRaceConditions p
     /\ resourcePressureIssues q <= resourcePressureIssues p
     /\ podStartupFailures q <= podStartupFailures p
     /\ networkIssues q <= networkIssues p /\ storageIssues q <= storageIssues p)%Z
    /\ (containerCleanupRaceConditions p + resourcePressureIssues p + podStartupFailures p
        + networkIssues p + storageIssues p
        <= containerCleanupRaceConditions q + resourcePressureIssues q + podStartupFailures q
           + networkIssues q + storageIssues q + Z.of_nat (List.length errors))%Z).
  { induction errors as [|e l IH]; intros q; cbv zeta; cbn [fold_left List.length].
    - lia.
    - destruct (IH (tally q e)) as (M & S). cbv zeta in M, S.
      pose proof (tally_step q e) as T. cbv beta zeta in T. lia. }
  specialize (G noPatterns). cbv zeta in G. cbn [noPatterns containerCleanupRaceConditions
    resourcePressureIssues podStartupFailures networkIssues storageIssues] in G. lia.
Qed.

End JournalFacts.

(* ================================================================== *)
(** * Facts: node conditions, ages and disruptions *)

Module NodeConditionFacts.
Import JS Eff K8s NodeConditions.

Lemma flag_none c :
  flag c = []
  <-> (cond_type (condition c) = "Ready" -> cond_status (condition c) = "True")
      /\ (cond_type (condition c) <> "Ready" -> cond_status (condition c) <> "True").
Proof.
  unfold flag. cbv zeta.
  destruct (String.eqb_spec (cond_type (condition c)) "Ready") as [T|T];
    destruct (String.eqb_spec (cond_status (condition c)) "True") as [S|S];
    cbn [andb negb]; split; try discriminate; try tauto; intros [H1 H2]; exfalso; auto.
Qed.

Lemma flagged_none node :
  flagged node = [] <-> forall c, In c (conditionsOf node) -> flag c = [].
Proof.
  unfold flagged. induction (conditionsOf node) as [|c l IH]; cbn [flat_map In].
  - split; auto. intros _ c [].
  - split.
    + intros H c' [<-|Hin]; apply app_eq_nil in H as [H1 H2]; auto. now apply IH.
    + intros H. rewrite (H c (or_introl eq_refl)). apply IH. auto.
Qed.

Lemma has_issues_false node :
  has_issues node = false <-> flagged node = [] /\ taintsOf node = [].
Proof.
  unfold has_issues. destruct (flagged node), (taintsOf node); cbn; split;
    try discriminate; auto; intros [? ?]; discriminate.
Qed.

(** X26. The node condition report lists exactly the nodes that have a
    taint, a Ready condition whose status is not True, or another condition
    whose status is True; the count it gives is the number of nodes
    listed. *)
Theorem nodes_listed_by_the_condition_report (nodes : list NodeDetail) :
  let listed := filter has_issues nodes in
  checkNodeConditions (Ok (Some nodes))
  = Ok (textResult
          ("Node Conditions Report:" ++ Str.nl
           ++ JSON.stringify
                (VObj [ ("totalNodes", VNum (Z.of_nat (List.length nodes)));
                        ("nodesWithIssues", VNum (Z.of_nat (List.length listed)));
                        ("details", VArr (map nodeInfo listed)) ])))
  /\ (List.length listed <= List.length nodes)%nat
  /\ forall node,
       In node listed
       <-> In node nodes
           /\ (taintsOf node <> []
               \/ exists c, In c (conditionsOf node)
                            /\ (cond_type (condition c) = "Ready"
                                /\ cond_status (condition c) <> "True"
                                \/ cond_type (condition c) <> "Ready"
                                   /\ cond_status (condition c) = "True")).
Proof.
  cbv zeta. split; [|split].
  - unfold checkNodeConditions. cbv zeta. now rewrite length_map.
  - apply filter_length_le.
  - intros node. rewrite filter_In. split; intros [Hin H]; split; auto.
    + destruct (taintsOf node) as [|taint others] eqn:T; [right | left; discriminate].
      destruct (flagged node) as [|entry entries] eqn:F.
      * exfalso. assert (X : has_issues node = false)
          by (apply has_issues_false; rewrite T, F; auto). congruence.
      * unfold flagged in F.
        assert (E : exists c, In c (conditionsOf node) /\ flag c <> []).
        { clear -F. induction (conditionsOf node) as [|c l IH]; [discriminate|].
          cbn [flat_map] in F. destruct (flag c) as [|x xs] eqn:Fc.
          - destruct (IH F) as (c' & Hc' & N). exists c'. split; [now right | exact N].
          - exists c. split; [now left | rewrite Fc; discriminate]. }
        destruct E as (c & Hc & N). exists c. split; auto.
        destruct (String.eqb_spec (cond_type (condition c)) "Ready") as [T1|T1];
          destruct (String.eqb_spec (cond_status (condition c)) "True") as [S|S]; auto;
          exfalso; apply N; apply flag_none; split; intros; congruence.
    + destruct (has_issues node) eqn:X; auto. apply has_issues_false in X as [F T].
      destruct H as [H|(c & Hc & H)]; [congruence|].
      rewrite flagged_none in F. specialize (F c Hc). apply flag_none in F as [F1 F2].
      destruct H as [[H1 H2]|[H1 H2]]; tauto.
Qed.

Lemma no_problem_conditions l :
  (forall c, In c l -> flag c = []) ->
  filter (fun c => negb (cond_type c =? "Ready") && (cond_status c =? "True"))
    (map condition l) = [].
Proof.
  induction l as [|c l IH]; intros F; [reflexivity|]. cbn [map filter].
  destruct (flag_none c) as [K _]. destruct (K (F c (or_introl eq_refl))) as [_ K2].
  destruct (String.eqb_spec (cond_type (condition c)) "Ready") as [T|T]; cbn [negb andb].
  - apply IH. intros; apply F; now right.
  - apply String.eqb_neq in K2; auto. rewrite K2. apply IH. intros; apply F; now right.
Qed.

(** X27. A node that the condition report does not list raises no issue in
    the health check either, except a node without a Ready condition, which
    the health check reports as not ready. *)
Theorem unlisted_node_raises_no_health_issue (node : NodeDetail) :
  has_issues node = false ->
  Health.nodeIssues (asNode node) = []
  \/ (Health.nodeIssues (asNode node)
      = ["Node " ++ Health.show (detail_name node) ++ " is not ready"]
      /\ forall c, In c (conditionsOf node) -> cond_type (condition c) <> "Ready").
Proof.
  intros H. apply has_issues_false in H as [F _]. rewrite flagged_none in F.
  assert (C : Health.conditions_of (asNode node) = map condition (conditionsOf node)).
  { unfold Health.conditions_of, asNode, conditionsOf. cbn.
    destruct (detail_conditions node); reflexivity. }
  assert (P : Health.problemConditions (asNode node) = []).
  { unfold Health.problemConditions. rewrite C. now apply no_problem_conditions. }
  unfold Health.nodeIssues. rewrite P. cbn [map]. unfold Health.is_ready. rewrite C.
  destruct (find (fun c => cond_type c =? "Ready") (map condition (conditionsOf node)))
    as [c|] eqn:E.
  - left. apply find_some in E as [Hin Ht]. apply String.eqb_eq in Ht.
    apply in_map_iff in Hin as (c0 & <- & Hin0).
    destruct (flag_none c0) as [K _]. destruct (K (F c0 Hin0)) as [K1 _].
    rewrite (K1 Ht). reflexivity.
  - right. split; [reflexivity|]. intros c Hc Ht.
    pose proof (find_none _ _ E (condition c) (in_map condition _ _ Hc)) as N.
    cbn in N. rewrite Ht in N. discriminate.
Qed.

Lemma unlisted_node_raises_no_health_issue_witness :
  let node := {| detail_name := Some "node-7"; detail_conditions := Some [];
                 taints := None; allocatable := VUndefined; capacity := VUndefined |} in
  has_issues node = false
  /\ Health.nodeIssues (asNode node) = ["Node node-7 is not ready"].
Proof.
  cbv zeta. split; [reflexivity|].
  destruct (unlisted_node_raises_no_health_issue
              {| detail_name := Some "node-7"; detail_conditions := Some [];
                 taints := None; allocatable := VUndefined; capacity := VUndefined |}
              eq_refl) as [H|[H _]].
  - discriminate H.
  - exact H.
Defined.

End NodeConditionFacts.

Module AgeFacts.
Import JS Eff Ages.

(** X28. For an age that is not negative, formatAge prints days and hours
    when the age is a day or more, hours and minutes when it is an hour or
    more, and minutes otherwise; the hours are below 24, the minutes below
    60, and they are those of the age. *)
Theorem formatAge_components (W : World) (t : Z) (tr : Trace) :
  let age := (clock W tr - t)%Z in
  (0 <= age)%Z ->
  exists d h m,
    (0 <= d /\ 0 <= h < 24 /\ 0 <= m < 60)%Z
    /\ (d * DAY + h * HOUR <= age < d * DAY + (h + 1) * HOUR)%Z
    /\ (exists k, k * HOUR + m * MINUTE <= age < k * HOUR + (m + 1) * MINUTE)%Z
    /\ formatAge W (Some t) tr
       = (Ok (if (0 <? d)%Z then Str.of_Z d ++ "d" ++ Str.of_Z h ++ "h"
              else if (0 <? h)%Z then Str.of_Z h ++ "h" ++ Str.of_Z m ++ "m"
              else Str.of_Z m ++ "m"),
          (tr ++ [EvNow])%list).
Proof.
  cbv zeta. intros Hage.
  exists ((clock W tr - t) / DAY)%Z, (Z.rem (clock W tr - t) DAY / HOUR)%Z,
    (Z.rem (clock W tr - t) HOUR / MINUTE)%Z.
  rewrite !Z.rem_mod_nonneg by (unfold DAY, HOUR; lia).
  split; [|split; [|split]].
  - unfold DAY, HOUR, MINUTE. Z.to_euclidean_division_equations. lia.
  - unfold DAY, HOUR, MINUTE. Z.to_euclidean_division_equations. lia.
  - exists ((clock W tr - t) / HOUR)%Z.
    unfold DAY, HOUR, MINUTE. Z.to_euclidean_division_equations. lia.
  - unfold formatAge, Health.calculateAge, bind, dateNow, ask, ret, ageText. cbv zeta.
    rewrite !Z.rem_mod_nonneg by (unfold DAY, HOUR; lia). reflexivity.
Qed.

Lemma formatAge_components_witness :
  formatAge Scenario.calm (Some (-93784000)%Z) [] = (Ok "1d2h", [EvNow]).
Proof.
  destruct (formatAge_components Scenario.calm (-93784000)%Z [])
    as (d & h & m & B & D & _ & E).
  - cbn. lia.
  - rewrite E. unfold DAY, HOUR in D. cbn [Scenario.calm clock List.length] in D.
    assert (Hd : d = 1%Z) by lia. assert (Hh : h = 2%Z) by lia. subst d h. reflexivity.
Defined.

End AgeFacts.

Module DisruptionFacts.
Import JS Eff Disruptions.

Lemma span_all p s :
  forallb p (list_ascii_of_string s) = true -> Kubelet.span p s = (s, "").
Proof.
  induction s as [|c s IH]; cbn [list_ascii_of_string forallb Kubelet.span]; auto.
  intros H. apply andb_true_iff in H as [-> H]. now rewrite IH.
Qed.

(** X29. From the message the kubelet writes, [Started container] followed
    by a name, the name is read back whole, provided it is not empty and has
    no line break. *)
Theorem extractContainerName_reads_the_name_back (name : string) :
  name <> "" ->
  forallb (fun c => negb (is_line_end c)) (list_ascii_of_string name) = true ->
  extractContainerName ("Started container " ++ name) = name.
Proof.
  intros N H. unfold extractContainerName.
  assert (E : container_at ("Started container " ++ name) = Some name).
  { unfold container_at. cbn [append Str.startsWith Ascii.eqb Bool.eqb andb Journal.skip].
    rewrite span_all by exact H. destruct name; [congruence | reflexivity]. }
  assert (M : forall s, containerMatch s
                        = match container_at s with
                          | Some m => Some m
                          | None => match s with
                                    | EmptyString => None
                                    | String _ t => containerMatch t
                                    end
                          end) by (intros []; reflexivity).
  now rewrite M, E.
Qed.

Lemma extractContainerName_reads_the_name_back_witness :
  extractContainerName "Started container nginx" = "nginx".
Proof.
  refine (extractContainerName_reads_the_name_back "nginx" _ eq_refl). discriminate.
Defined.

Section Steps.
Variable toISOString : Z -> string.

Local Abbreviation recent :=
  (fun (cutoffTime : option Z) (event : EventObject) =>
     negb (earlier (timeOf event) cutoffTime)).
Local Abbreviation evicted :=
  (fun event : EventObject => reason_is event "Killing" || reason_is event "Evicted").
Local Abbreviation oomKilled := (fun event : EventObject => reason_is event "OOMKilling").
Local Abbreviation restarted :=
  (fun event : EventObject =>
     reason_is event "Started"
     && match event_message event with
        | Some message => Str.includes "Started container" message
        | None => false
        end).

Lemma visit_counts cutoffTime event d d' :
  visit toISOString cutoffTime event d = Ok d' ->
  let n := fun b : bool => if recent cutoffTime event && b then 1%nat else 0%nat in
  List.length (evictions d') = (List.length (evictions d) + n (evicted event))%nat
  /\ List.length (oomKills d') = (List.length (oomKills d) + n (oomKilled event))%nat
  /\ List.length (recentRestarts d')
     = (List.length (recentRestarts d) + n (restarted event))%nat
  /\ (totalEvictions d' - totalEvictions d
      = Z.of_nat (List.length (evictions d')) - Z.of_nat (List.length (evictions d)))%Z
  /\ (totalOOMKills d' - totalOOMKills d
      = Z.of_nat (List.length (oomKills d')) - Z.of_nat (List.length (oomKills d)))%Z
  /\ (totalRestarts d' - totalRestarts d
      = Z.of_nat (List.length (recentRestarts d'))
        - Z.of_nat (List.length (recentRestarts d)))%Z.
Proof.
  cbv zeta. unfold visit. destruct (earlier (timeOf event) cutoffTime); cbn [negb andb].
  - intros [= <-]. repeat split; lia.
  - unfold evictionStep, oomStep, restartStep, isoTime.
    destruct (reason_is event "Killing" || reason_is event "Evicted");
      destruct (reason_is event "OOMKilling");
      destruct (reason_is event "Started"); cbn [andb];
      destruct (event_message event) as [message|];
      try destruct (Str.includes "Started container" message);
      destruct (timeOf event); try discriminate;
      intros [= <-]; cbn; rewrite ?length_app; cbn [List.length]; repeat split; lia.
Qed.

Lemma visitAll_counts cutoffTime events : forall d d',
  visitAll toISOString cutoffTime events d = Ok d' ->
  let n := fun p : EventObject -> bool =>
    List.length (filter (fun event => recent cutoffTime event && p event) events) in
  List.length (evictions d') = (List.length (evictions d) + n evicted)%nat
  /\ List.length (oomKills d') = (List.length (oomKills d) + n oomKilled)%nat
  /\ List.length (recentRestarts d') = (List.length (recentRestarts d) + n restarted)%nat
  /\ (totalEvictions d' - totalEvictions d
      = Z.of_nat (List.length (evictions d')) - Z.of_nat (List.length (evictions d)))%Z
  /\ (totalOOMKills d' - totalOOMKills d
      = Z.of_nat (List.length (oomKills d')) - Z.of_nat (List.length (oomKills d)))%Z
  /\ (totalRestarts d' - totalRestarts d
      = Z.of_nat (List.length (recentRestarts d'))
        - Z.of_nat (List.length (recentRestarts d)))%Z.
Proof.
  induction events as [|event events IH]; intros d d'; cbn [visitAll filter].
  - intros [= <-]. cbv zeta. cbn [List.length]. repeat split; lia.
  - destruct (visit toISOString cutoffTime event d) as [d1|] eqn:E; [|discriminate].
    intros H. apply IH in H. apply visit_counts in E. cbv zeta in *.
    destruct (negb (earlier (timeOf event) cutoffTime)); cbn [andb] in *;
      [destruct (reason_is event "Killing" || reason_is event "Evicted");
       destruct (reason_is event "OOMKilling");
       destruct (reason_is event "Started" && _)|];
      cbn [List.length] in *; repeat split; lia.
Qed.

Lemma visitAll_error cutoffTime events : forall d e,
  visitAll toISOString cutoffTime events d = Throw e -> message e = "Invalid time value".
Proof.
  induction events as [|event events IH]; intros d e; cbn [visitAll]; [discriminate|].
  destruct (visit toISOString cutoffTime event d) as [d1|e1] eqn:E; [apply IH|].
  intros [= <-]. revert E. unfold visit, evictionStep, oomStep, restartStep, isoTime.
  repeat match goal with
  | |- context [if ?b then _ else _] => destruct b
  | |- context [match timeOf event with _ => _ end] => destruct (timeOf event)
  | |- context [match event_message event with _ => _ end] => destruct (event_message event)
  end; try discriminate; intros [= <-]; reflexivity.
Qed.

Local Abbreviation reported :=
  (fun event : EventObject => evicted event || oomKilled event || restarted event).

Lemma visit_dated cutoffTime event d :
  (timeOf event = None -> reported event = false) ->
  exists d', visit toISOString cutoffTime event d = Ok d'.
Proof.
  intros H. unfold visit, evictionStep, oomStep, restartStep, isoTime.
  destruct (timeOf event) as [t|].
  - repeat match goal with
    | |- context [if ?b then _ else _] => destruct b
    | |- context [match event_message event with _ => _ end] =>
        destruct (event_message event)
    end; eauto.
  - specialize (H eq_refl). cbv beta in H. apply orb_false_iff in H as [H H3].
    apply orb_false_iff in H as [H1 H2]. cbn [earlier]. rewrite H1, H2.
    destruct (event_message event) as [message|]; [|eauto].
    rewrite H3. eauto.
Qed.

Lemma visit_undated cutoffTime event d :
  timeOf event = None -> reported event = true ->
  exists e, visit toISOString cutoffTime event d = Throw e.
Proof.
  intros Ht Hr. unfold visit, evictionStep, oomStep, restartStep, isoTime. rewrite Ht.
  cbn [earlier]. cbv beta in Hr.
  destruct (reason_is event "Killing" || reason_is event "Evicted"); [eauto|].
  destruct (reason_is event "OOMKilling"); [eauto|]. cbn [orb] in Hr.
  destruct (event_message event) as [message|].
  - rewrite Hr. eauto.
  - rewrite andb_false_r in Hr. discriminate.
Qed.

Lemma visitAll_dated cutoffTime events :
  (forall event, In event events -> timeOf event = None -> reported event = false) ->
  forall d, exists d', visitAll toISOString cutoffTime events d = Ok d'.
Proof.
  induction events as [|event events IH]; intros H d; cbn [visitAll]; [eauto|].
  destruct (visit_dated cutoffTime event d (H event (or_introl eq_refl))) as [d1 ->].
  apply IH. intros; apply H; auto. now right.
Qed.

Lemma visitAll_undated cutoffTime events event :
  In event events -> timeOf event = None -> reported event = true ->
  forall d, exists e, visitAll toISOString cutoffTime events d = Throw e.
Proof.
  intros Hin Ht Hr. induction events as [|x events IH]; [destruct Hin|].
  intros d. cbn [visitAll].
  destruct (visit toISOString cutoffTime x d) as [d1|e1] eqn:E; [|eauto].
  destruct Hin as [->|Hin]; [|now apply IH].
  destruct (visit_undated cutoffTime event d Ht Hr) as [e He]. congruence.
Qed.

Lemma visitAll_skipped cutoffTime events :
  (forall event, In event events -> earlier (timeOf event) cutoffTime = true) ->
  forall d, visitAll toISOString cutoffTime events d = Ok d.
Proof.
  induction events as [|event events IH]; intros H d; cbn [visitAll]; [reflexivity|].
  unfold visit. rewrite (H event (or_introl eq_refl)). apply IH.
  intros; apply H. now right.
Qed.

End Steps.

(** X30. When every event that is reported has a valid date the analysis
    succeeds: each total of its summary is the length of the matching list,
    and each list has one entry per event that is not older than the cut-off
    and has the matching reason, Killing counting as an eviction. One event
    that would be reported and whose date is invalid makes the whole analysis
    fail with [Invalid time value]; so does an event without either time
    stamp. An event whose two time stamps are null is dated at the epoch:
    with a cut-off after the epoch it is skipped, and a list of such events
    gives the empty report. *)
Theorem disruption_counts_and_undated_events (toISOString : Z -> string) (now : Z)
    (listNamespacedEvent : value -> Result (option (list EventObject)))
    (listEventForAllNamespaces : Result (option (list EventObject)))
    (namespace : value) (hours : option Z) (events : list EventObject) :
  let span := match hours with Some h => h | None => 24%Z end in
  let cutoffTime := timeClip (now - span * 60 * 60 * 1000)%Z in
  let evicted := fun event => reason_is event "Killing" || reason_is event "Evicted" in
  let oomKilled := fun event => reason_is event "OOMKilling" in
  let restarted := fun event =>
    reason_is event "Started"
    && match event_message event with
       | Some message => Str.includes "Started container" message
       | None => false
       end in
  let count := fun p : EventObject -> bool =>
    List.length (filter (fun event => negb (earlier (timeOf event) cutoffTime) && p event)
                   events) in
  let outcome :=
    analyzePodDisruptions toISOString now listNamespacedEvent listEventForAllNamespaces
      namespace hours in
  (if truthy namespace then listNamespacedEvent namespace else listEventForAllNamespaces)
  = Ok (Some events) ->
  ((forall event, In event events -> timeOf event = None ->
                  evicted event || oomKilled event || restarted event = false) ->
   exists d,
     outcome = Ok (textResult ("Pod Disruption Analysis (last " ++ Str.of_Z span ++ "h):"
                               ++ Str.nl ++ JSON.stringify (tallyValue d)))
     /\ totalEvictions d = Z.of_nat (List.length (evictions d))
     /\ totalOOMKills d = Z.of_nat (List.length (oomKills d))
     /\ totalRestarts d = Z.of_nat (List.length (recentRestarts d))
     /\ List.length (evictions d) = count evicted
     /\ List.length (oomKills d) = count oomKilled
     /\ List.length (recentRestarts d) = count restarted)
  /\ ((exists event, In event events /\ timeOf event = None
                     /\ evicted event || oomKilled event || restarted event = true) ->
      outcome = Throw (Error "Failed to analyze pod disruptions: Invalid time value"))
  /\ (forall event,
        firstTimestamp event = NoStamp -> eventTime event = NoStamp -> timeOf event = None)
  /\ ((0 < now - span * 60 * 60 * 1000 <= 8640000000000000)%Z ->
      (forall event, In event events ->
                     firstTimestamp event = NullStamp /\ eventTime event = NullStamp) ->
      outcome = Ok (textResult ("Pod Disruption Analysis (last " ++ Str.of_Z span ++ "h):"
                                ++ Str.nl ++ JSON.stringify (tallyValue noDisruptions)))).
Proof.
  cbv zeta. intros Hlist. unfold analyzePodDisruptions. cbv zeta. rewrite Hlist.
  set (cutoffTime := timeClip _). split; [|split; [|split]].
  - intros Hdated.
    destruct (visitAll_dated toISOString cutoffTime events Hdated noDisruptions) as [d E].
    rewrite E. exists d. split; [reflexivity|].
    pose proof (visitAll_counts toISOString cutoffTime events _ _ E) as C. cbv zeta in C.
    cbn [noDisruptions evictions oomKills recentRestarts totalEvictions totalOOMKills
         totalRestarts List.length] in C.
    destruct C as (C1 & C2 & C3 & C4 & C5 & C6).
    repeat split; try lia; assumption.
  - intros (event & Hin & Ht & Hr).
    destruct (visitAll_undated toISOString cutoffTime events event Hin Ht Hr noDisruptions)
      as [e E].
    rewrite E. pose proof (visitAll_error toISOString cutoffTime events _ _ E) as M.
    now rewrite M.
  - intros event H1 H2. unfold timeOf. now rewrite H1, H2.
  - intros Hcut Hnull.
    rewrite (visitAll_skipped toISOString cutoffTime events); [reflexivity|].
    intros event Hin. destruct (Hnull event Hin) as [H1 H2].
    unfold timeOf. rewrite H1, H2. subst cutoffTime. unfold timeClip.
    destruct (Z.leb_spec (Z.abs (now - match hours with Some h => h | None => 24 end
                                       * 60 * 60 * 1000)) 8640000000000000); [|lia].
    cbn [dateOf earlier]. apply Z.ltb_lt. lia.
Qed.

Lemma disruption_counts_and_undated_events_witness :
  let stamped := fun first reason message =>
    {| firstTimestamp := first; eventTime := NullStamp;
       reason := Some reason; event_message := message;
       involved_name := Some "web-1"; involved_namespace := Some "shop" |} in
  let killing := stamped (Date (Some 1699999000000%Z)) "Killing" (Some "Stopping container web") in
  let old := stamped (Date (Some 1600000000000%Z)) "Evicted" None in
  let unset := stamped NullStamp "Evicted" None in
  let undated :=
    {| firstTimestamp := NoStamp; eventTime := NoStamp;
       reason := Some "OOMKilling"; event_message := None;
       involved_name := Some "web-2"; involved_namespace := Some "shop" |} in
  let run := fun events =>
    analyzePodDisruptions Str.of_Z 1700000000000%Z (fun _ => Ok None) (Ok (Some events))
      VUndefined None in
  (exists d,
     run [killing; old; unset]
     = Ok (textResult ("Pod Disruption Analysis (last 24h):" ++ Str.nl
                       ++ JSON.stringify (tallyValue d)))
     /\ totalEvictions d = 1%Z)
  /\ run [killing; undated]
     = Throw (Error "Failed to analyze pod disruptions: Invalid time value")
  /\ run [unset; unset]
     = Ok (textResult ("Pod Disruption Analysis (last 24h):" ++ Str.nl
                       ++ JSON.stringify (tallyValue noDisruptions))).
Proof.
  intros stamped killing old unset undated run.
  pose (facts := fun events =>
          disruption_counts_and_undated_events Str.of_Z 1700000000000%Z
            (fun _ => Ok None) (Ok (Some events)) VUndefined None events eq_refl).
  refine (conj _ (conj _ _)).
  - destruct (proj1 (facts [killing; old; unset])) as (d & Hrun & He & _ & _ & Hc & _).
    + intros event [<-|[<-|[<-|[]]]]; discriminate.
    + exists d. split; [exact Hrun|]. rewrite He, Hc. reflexivity.
  - apply (proj1 (proj2 (facts [killing; undated]))).
    exists undated. repeat split. right. now left.
  - apply (proj2 (proj2 (proj2 (facts [unset; unset])))).
    + cbv. split; [reflexivity | discriminate].
    + intros event [<-|[<-|[]]]; split; reflexivity.
Defined.

End DisruptionFacts.
